(** * ClubHub backend: OTP ledger, account endpoints and event registration

    A shallow embedding of the request handlers of [backend/index.js] and of
    the user functions of [backend/db.js], followed by the properties of the
    authentication and registration rules.

    Conventions of the embedding:
    - request bodies and column values that the handlers test with JavaScript
      truthiness or [===] are kept as JavaScript values ([Js.value]);
    - [Date.now()] / [new Date()] is an explicit argument [now], in
      milliseconds; a TIMESTAMP column is [option Z] (NULL or an instant);
    - the in-process [codeStore] Map is a [gmap string rec];
    - the relational tables are lists of rows in storage order, threaded
      through the handlers; every SQL statement is written out as the list
      operation it performs;
    - a handler returns its HTTP response together with the new state. *)

From Stdlib Require Import ZArith Ascii String List Lia.
From stdpp Require Import base option list strings gmap.

Local Open Scope Z_scope.

(* ================================================================== *)
(** ** JavaScript values *)
(* ================================================================== *)

Module Js.

(** The JSON-representable primitives (numbers restricted to integers). *)
Inductive value : Type :=
| Undefined
| Null
| Bool (b : bool)
| Num (n : Z)
| Str (s : string).

(** [ToBoolean]: what [if (v)], [!v] and [v && w] test. *)
Definition truthy (v : value) : bool :=
  match v with
  | Undefined | Null => false
  | Bool b => b
  | Num n => negb (n =? 0)
  | Str s => negb (String.eqb s "")
  end.

(** [a === b] on primitives. *)
Definition strict_eq (a b : value) : bool :=
  match a, b with
  | Undefined, Undefined => true
  | Null, Null => true
  | Bool x, Bool y => Bool.eqb x y
  | Num x, Num y => x =? y
  | Str x, Str y => String.eqb x y
  | _, _ => false
  end.

(** [a && b]: the first operand when it is falsy, else the second. *)
Definition and_ (a b : value) : value := if truthy a then b else a.

(** [v || null]. *)
Definition or_null (v : value) : value := if truthy v then v else Null.

(** An INTEGER column as the driver hands it over: NULL or a number. *)
Definition of_int (o : option Z) : value :=
  match o with
  | None => Null
  | Some n => Num n
  end.

Definition lower_ascii (c : ascii) : ascii :=
  let n := N_of_ascii c in
  if ((65 <=? n) && (n <=? 90))%N then ascii_of_N (n + 32) else c.

(** [String.prototype.toLowerCase] on ASCII text. *)
Fixpoint toLowerCase (s : string) : string :=
  match s with
  | EmptyString => EmptyString
  | String c s' => String (lower_ascii c) (toLowerCase s')
  end.

End Js.

(* ================================================================== *)
(** ** OTP code storage *)
(* ================================================================== *)

Module Otp.

(** The object [{ code, expiresAt }] kept under the lower-cased email. *)
Record rec : Type := { code : string; expiresAt : Z }.

(** [storeCode(email, code)], with [Date.now()] and [CODE_TTL] explicit. *)
Definition storeCode (CODE_TTL now : Z) (email code0 : string)
    (codeStore : gmap string rec) : gmap string rec :=
  let key := Js.toLowerCase email in
  let expires := now + CODE_TTL in
  <[key := {| code := code0; expiresAt := expires |}]> codeStore.

(** [validateCode(email, code)]: the boolean result and the store after
    the call. *)
Definition validateCode (now : Z) (email : string) (code0 : Js.value)
    (codeStore : gmap string rec) : bool * gmap string rec :=
  let key := Js.toLowerCase email in
  match codeStore !! key with
  | None => (false, codeStore)
  | Some r =>
      if expiresAt r <? now then (false, delete key codeStore)
      else if negb (Js.strict_eq (Js.Str (code r)) code0) then (false, codeStore)
      else (true, delete key codeStore)
  end.

End Otp.

(* ================================================================== *)
(** ** Tables and the user functions of db.js *)
(* ================================================================== *)

Module Db.

(** users.role: NULL or one of the two strings the code ever writes,
    'student' (POST /profile) and 'club_admin' (coordinator approval). Both
    are truthy, so [!user.role] holds exactly for NULL. *)
Inductive Role : Type := student | club_admin.

Record user : Type := {
  u_id : Z;
  u_email : string;
  u_password_hash : option string;
  u_role : option Role;
  u_name : Js.value;
  u_branch : Js.value;
  u_roll_number : Js.value;
  u_club_id : Js.value;
  u_admin_requested : bool
}.

Record announcement : Type := {
  a_id : Z;
  a_registration_enabled : Js.value;
  a_registration_deadline : option Z;
  a_max_registrations : option Z
}.

(** event_registrations.status: 'registered' (the column default) or
    'cancelled'. *)
Inductive Status : Type := registered | cancelled.

Definition is_registered (s : Status) : bool :=
  match s with
  | registered => true
  | cancelled => false
  end.

Record registration : Type := {
  r_id : Z;
  r_announcement_id : Z;
  r_user_id : Z;
  r_user_email : string;
  r_user_name : Js.value;
  r_roll_number : Js.value;
  r_branch : Js.value;
  r_status : Status
}.

Record t : Type := {
  users : list user;
  announcements : list announcement;
  event_registrations : list registration
}.

(** [UPDATE tbl SET ... WHERE p]: every row satisfying [p] is rewritten. *)
Definition update_where {A : Type} (p : A -> bool) (f : A -> A) (rows : list A) : list A :=
  map (fun r => if p r then f r else r) rows.

(** The next value of a SERIAL key: above every key in the table. *)
Definition next_id (ids : list Z) : Z := 1 + foldr Z.max 0 ids.

Definition has_email (key : string) (u : user) : bool := String.eqb (u_email u) key.

(** [findUserByEmail]: [rows[0] || null] of the SELECT ... LIMIT 1. *)
Definition findUserByEmail (email : string) (us : list user) : option user :=
  find (has_email (Js.toLowerCase email)) us.

(** [createUser(email, passwordHash, role)]. The INSERT raises on the
    UNIQUE(email) constraint, which is [None] here. *)
Definition createUser (email : string) (passwordHash : option string)
    (role : option Role) (us : list user) : option (list user) :=
  let key := Js.toLowerCase email in
  if existsb (has_email key) us then None
  else Some (us ++ [ {| u_id := next_id (map u_id us);
                        u_email := key;
                        u_password_hash := passwordHash;
                        u_role := role;
                        u_name := Js.Null;
                        u_branch := Js.Null;
                        u_roll_number := Js.Null;
                        u_club_id := Js.Null;
                        u_admin_requested := false |} ]).

(** The options object of [updateProfile]. *)
Record profile_fields : Type := {
  name : Js.value;
  branch : Js.value;
  roll_number : Js.value;
  role : option Role;
  club_id : Js.value;
  request_admin : bool
}.

(** What the column [users.club_id INTEGER REFERENCES clubs(id)] reads in
    the value bound to it: [None] when the store does not take it for an
    integer (the statement raises), else NULL or the integer. [int4_in] is
    the store's reading of an integer from text. *)
Definition club_value (int4_in : string -> option Z) (v : Js.value) : option (option Z) :=
  match v with
  | Js.Undefined | Js.Null => Some None
  | Js.Num n => Some (Some n)
  | Js.Str s => option_map Some (int4_in s)
  | Js.Bool _ => None
  end.

(** The foreign key: a club id that has no row in the clubs table, whose
    ids are [clubs]. *)
Definition unknown_club (clubs : list Z) (c : option Z) : bool :=
  match c with
  | Some n => negb (existsb (Z.eqb n) clubs)
  | None => false
  end.

Definition set_admin_request (f : profile_fields) (club : option Z) (u : user) : user :=
  {| u_id := u_id u; u_email := u_email u; u_password_hash := u_password_hash u;
     u_role := u_role u;
     u_name := name f; u_branch := branch f; u_roll_number := roll_number f;
     u_club_id := Js.of_int club; u_admin_requested := true |}.

Definition set_role (f : profile_fields) (r : Role) (u : user) : user :=
  {| u_id := u_id u; u_email := u_email u; u_password_hash := u_password_hash u;
     u_role := Some r;
     u_name := name f; u_branch := branch f; u_roll_number := roll_number f;
     u_club_id := u_club_id u; u_admin_requested := u_admin_requested u |}.

Definition set_details (f : profile_fields) (u : user) : user :=
  {| u_id := u_id u; u_email := u_email u; u_password_hash := u_password_hash u;
     u_role := u_role u;
     u_name := name f; u_branch := branch f; u_roll_number := roll_number f;
     u_club_id := u_club_id u; u_admin_requested := u_admin_requested u |}.

(** [updateProfile(email, {...})]: one of three UPDATE statements. Only the
    first writes [club_id]; it is refused, [None], when the value is no
    integer for the store, or when a row would get a club id that the clubs
    table, of ids [clubs], does not have. *)
Definition updateProfile (int4_in : string -> option Z) (clubs : list Z)
    (email : string) (f : profile_fields) (us : list user) : option (list user) :=
  let key := Js.toLowerCase email in
  if request_admin f then
    match club_value int4_in (club_id f) with
    | None => None
    | Some club =>
        if existsb (has_email key) us && unknown_club clubs club then None
        else Some (update_where (has_email key) (set_admin_request f club) us)
    end
  else match role f with
       | Some r => Some (update_where (has_email key) (set_role f r) us)
       | None => Some (update_where (has_email key) (set_details f) us)
       end.

Definition set_password (h : string) (u : user) : user :=
  {| u_id := u_id u; u_email := u_email u; u_password_hash := Some h;
     u_role := u_role u;
     u_name := u_name u; u_branch := u_branch u; u_roll_number := u_roll_number u;
     u_club_id := u_club_id u; u_admin_requested := u_admin_requested u |}.

(** [updatePassword(email, passwordHash)]. *)
Definition updatePassword (email : string) (passwordHash : string) (us : list user) : list user :=
  update_where (has_email (Js.toLowerCase email)) (set_password passwordHash) us.

End Db.

(* ================================================================== *)
(** ** Auth routes *)
(* ================================================================== *)

Module Auth.

(** The part of the server state the auth routes touch. *)
Record state : Type := {
  codeStore : gmap string Otp.rec;
  users : list Db.user
}.

(** [res.status(..).json(..)] of /auth/send-code. *)
Inductive send_response : Type :=
| SendEmailRequired            (* 400 { error: 'email required' } *)
| SendCodeSent                 (* 200 { ok, message: 'Code sent' } *)
| SendDevFallback (code : string)   (* 200 { ok, message, code } *)
| SendFailed.                  (* 500 { error: 'failed to send email' } *)

Definition send_status (r : send_response) : Z :=
  match r with
  | SendEmailRequired => 400
  | SendCodeSent | SendDevFallback _ => 200
  | SendFailed => 500
  end.

(** [res.status(..).json(..)] of /auth/verify. *)
Inductive verify_response : Type :=
| VerifyMissing                (* 400 'email and code required' *)
| VerifyInvalidCode            (* 401 'invalid or expired code' *)
| VerifyShortPassword          (* 400 'password must be at least 6 characters' *)
| VerifyMismatch               (* 400 'password and confirm do not match' *)
| VerifyServerError            (* 500 'server error' *)
| VerifyOk (sub : string) (role : option Db.Role) (created : bool).

Definition verify_status (r : verify_response) : Z :=
  match r with
  | VerifyMissing | VerifyShortPassword | VerifyMismatch => 400
  | VerifyInvalidCode => 401
  | VerifyServerError => 500
  | VerifyOk _ _ _ => 200
  end.

(** The destructured request body of /auth/verify. *)
Record verify_body : Type := {
  email : Js.value;
  code : Js.value;
  password : Js.value;
  confirm : Js.value
}.

(** A password that is present ([password !== undefined]) but is not a
    string of at least 6 characters equal to [confirm]: the inputs on which
    the two password tests of /auth/verify answer 400. *)
Definition rejected_password (pw cf : Js.value) : Prop :=
  pw <> Js.Undefined /\
  forall p, pw = Js.Str p -> (String.length p < 6)%nat \/ pw <> cf.

Section Routes.

(** Configuration read from the environment at start-up. *)
Variable CODE_TTL : Z.
Variable DEV_FALLBACK : bool.
(** [bcrypt.hash(password, 10)]. *)
Variable bcrypt_hash : string -> string.

(** POST /auth/send-code. [code0] is the result of [generateCode()];
    [delivered] tells whether [transporter.sendMail] resolved (it is
    [false] as well when the transporter was never initialised, the
    TypeError being caught by the same handler). *)
Definition post_send_code (now : Z) (email0 : Js.value) (code0 : string)
    (delivered : bool) (store : gmap string Otp.rec)
    : send_response * gmap string Otp.rec :=
  match email0 with
  | Js.Str e =>
      if negb (Js.truthy email0) then (SendEmailRequired, store)
      else
        let store' := Otp.storeCode CODE_TTL now e code0 store in
        if delivered then (SendCodeSent, store')
        else if DEV_FALLBACK then (SendDevFallback code0, store')
        else (SendFailed, store')
  | _ => (SendEmailRequired, store)
  end.

(** The branch of /auth/verify taken once the code has been accepted. *)
Definition verify_accepted (key : string) (b : verify_body) (us : list Db.user)
    : verify_response * list Db.user :=
  let existing := Db.findUserByEmail key us in
  match password b with
  | Js.Undefined =>
      match existing with
      | Some u => (VerifyOk key (Db.u_role u) false, us)
      | None =>
          match Db.createUser key None None us with
          | Some us' => (VerifyOk key None false, us')
          | None => (VerifyServerError, us)
          end
      end
  | Js.Str p =>
      if Z.of_nat (String.length p) <? 6 then (VerifyShortPassword, us)
      else if negb (Js.strict_eq (password b) (confirm b)) then (VerifyMismatch, us)
      else
        let hash := bcrypt_hash p in
        match existing with
        | Some u => (VerifyOk key (Db.u_role u) false, Db.updatePassword key hash us)
        | None =>
            match Db.createUser key (Some hash) None us with
            | Some us' => (VerifyOk key None true, us')
            | None => (VerifyServerError, us)
            end
        end
  | _ => (VerifyShortPassword, us)
  end.

(** POST /auth/verify. *)
Definition post_verify (now : Z) (b : verify_body) (st : state)
    : verify_response * state :=
  if negb (Js.truthy (email b)) || negb (Js.truthy (code b)) then (VerifyMissing, st)
  else
    match email b with
    | Js.Str e =>
        let '(ok, store') := Otp.validateCode now e (code b) (codeStore st) in
        if negb ok then
          (VerifyInvalidCode, {| codeStore := store'; users := users st |})
        else
          let key := Js.toLowerCase e in
          let '(resp, us') := verify_accepted key b (users st) in
          (resp, {| codeStore := store'; users := us' |})
    | _ =>
        (* email.toLowerCase is not a function: caught, 500 *)
        (VerifyServerError, st)
    end.

End Routes.

End Auth.

(* ================================================================== *)
(** ** Profile route *)
(* ================================================================== *)

Module Profile.

(** The destructured request body of POST /profile. *)
Record body : Type := {
  name : Js.value;
  branch : Js.value;
  roll_number : Js.value;
  role : Js.value;
  club_id : Js.value
}.

Inductive response : Type :=
| ServerError                                  (* 500 *)
| AdminRequestSubmitted (profile : option Db.user)   (* 200 *)
| ProfileUpdated (profile : option Db.user).         (* 200 *)

(** [currentUser.role] is read only when [role] is truthy; on a missing
    user that read throws. *)
Definition role_unset (currentUser : option Db.user) : option bool :=
  match currentUser with
  | None => None
  | Some u => Some (match Db.u_role u with None => true | Some _ => false end)
  end.

(** The options object of the final [else] branch: a generic profile edit. *)
Definition generic_edit (b : body) : Db.profile_fields :=
  {| Db.name := Js.or_null (name b); Db.branch := Js.or_null (branch b);
     Db.roll_number := Js.or_null (roll_number b);
     Db.role := None; Db.club_id := Js.Null; Db.request_admin := false |}.

(** The fields sent to [updateProfile] by a student declaration and by a
    club-admin request (index.js, POST /profile). *)
Definition student_fields (b : body) : Db.profile_fields :=
  {| Db.name := Js.or_null (name b); Db.branch := Js.or_null (branch b);
     Db.roll_number := Js.or_null (roll_number b);
     Db.role := Some Db.student; Db.club_id := Js.Null; Db.request_admin := false |}.

Definition admin_fields (b : body) : Db.profile_fields :=
  {| Db.name := Js.or_null (name b); Db.branch := Js.or_null (branch b);
     Db.roll_number := Js.or_null (roll_number b);
     Db.role := None; Db.club_id := Js.or_null (club_id b);
     Db.request_admin := true |}.

(** POST /profile for the verified token subject [sub]. An UPDATE the store
    refuses throws inside the handler's [try]: 500, nothing written.
    [int4_in] and [clubs] are those of [Db.updateProfile]. *)
Definition post_profile (int4_in : string -> option Z) (clubs : list Z)
    (sub : string) (b : body) (us : list Db.user) : response * list Db.user :=
  let email := Js.toLowerCase sub in
  let currentUser := Db.findUserByEmail email us in
  let update (f : Db.profile_fields) (answer : option Db.user -> response) :=
    match Db.updateProfile int4_in clubs email f us with
    | Some us' => (answer (Db.findUserByEmail email us'), us')
    | None => (ServerError, us)
    end in
  if Js.truthy (role b) then
    match role_unset currentUser with
    | None => (ServerError, us)
    | Some true =>
        if Js.strict_eq (role b) (Js.Str "student") then
          update (student_fields b) ProfileUpdated
        else if Js.strict_eq (role b) (Js.Str "club_admin") then
          update (admin_fields b) AdminRequestSubmitted
        else (ProfileUpdated (Db.findUserByEmail email us), us)
    | Some false => update (generic_edit b) ProfileUpdated
    end
  else update (generic_edit b) ProfileUpdated.

(** The users table after a series of POST /profile requests of one
    subject, in order. *)
Definition post_profiles (int4_in : string -> option Z) (clubs : list Z)
    (sub : string) (bs : list body) (us : list Db.user) : list Db.user :=
  fold_left (fun acc b => snd (post_profile int4_in clubs sub b acc)) bs us.

End Profile.

(* ================================================================== *)
(** ** Event registration routes *)
(* ================================================================== *)

Module Registration.

Inductive response : Type :=
| UserNotFound             (* 404 'User not found' *)
| EventNotFound            (* 404 'Event not found' *)
| RegistrationNotEnabled   (* 400 'Registration not enabled for this event' *)
| DeadlinePassed           (* 400 'Registration deadline has passed' *)
| EventFull                (* 400 'Event is full. Maximum registrations reached.' *)
| AlreadyRegistered        (* 400 'Already registered for this event' *)
| RegistrationNotFound     (* 404 'Registration not found' *)
| Registered               (* 200 { ok, registered: true } *)
| Cancelled.               (* 200 { ok, registered: false } *)

Definition status (r : response) : Z :=
  match r with
  | UserNotFound | EventNotFound | RegistrationNotFound => 404
  | RegistrationNotEnabled | DeadlinePassed | EventFull | AlreadyRegistered => 400
  | Registered | Cancelled => 200
  end.

(** [SELECT ... FROM announcements WHERE id = $1], first row. *)
Definition find_announcement (aid : Z) (anns : list Db.announcement) : option Db.announcement :=
  find (fun a => Db.a_id a =? aid) anns.

(** WHERE announcement_id = $1 AND status = 'registered'. *)
Definition counted (aid : Z) (r : Db.registration) : bool :=
  (Db.r_announcement_id r =? aid) && Db.is_registered (Db.r_status r).

(** [SELECT COUNT( * ) ... WHERE announcement_id = $1 AND status = 'registered']. *)
Definition registered_count (aid : Z) (regs : list Db.registration) : Z :=
  Z.of_nat (length (List.filter (counted aid) regs)).

(** WHERE announcement_id = $1 AND user_id = $2. *)
Definition of_pair (aid uid : Z) (r : Db.registration) : bool :=
  (Db.r_announcement_id r =? aid) && (Db.r_user_id r =? uid).

(** WHERE announcement_id = $1 AND user_id = $2 AND status = 'registered'. *)
Definition active_pair (aid uid : Z) (r : Db.registration) : bool :=
  of_pair aid uid r && Db.is_registered (Db.r_status r).

Definition set_status (s : Db.Status) (r : Db.registration) : Db.registration :=
  {| Db.r_id := Db.r_id r; Db.r_announcement_id := Db.r_announcement_id r;
     Db.r_user_id := Db.r_user_id r; Db.r_user_email := Db.r_user_email r;
     Db.r_user_name := Db.r_user_name r; Db.r_roll_number := Db.r_roll_number r;
     Db.r_branch := Db.r_branch r; Db.r_status := s |}.

(** The row of [INSERT INTO event_registrations (announcement_id, user_id,
    user_email, user_name, roll_number, branch)]; status takes its default. *)
Definition new_row (aid : Z) (u : Db.user) (regs : list Db.registration) : Db.registration :=
  {| Db.r_id := Db.next_id (map Db.r_id regs);
     Db.r_announcement_id := aid; Db.r_user_id := Db.u_id u;
     Db.r_user_email := Db.u_email u; Db.r_user_name := Db.u_name u;
     Db.r_roll_number := Db.u_roll_number u; Db.r_branch := Db.u_branch u;
     Db.r_status := Db.registered |}.

(** Replace the registrations table, as the statements of a handler do. *)
Definition with_registrations (db : Db.t) (regs : list Db.registration) : Db.t :=
  {| Db.users := Db.users db; Db.announcements := Db.announcements db;
     Db.event_registrations := regs |}.

(** The "already registered" block: re-register a cancelled row, insert a
    new one, or refuse. *)
Definition enroll (aid : Z) (u : Db.user) (db : Db.t) : response * Db.t :=
  let regs := Db.event_registrations db in
  match find (of_pair aid (Db.u_id u)) regs with
  | Some e =>
      if Db.is_registered (Db.r_status e) then (AlreadyRegistered, db)
      else
        (Registered,
         with_registrations db
           (Db.update_where (fun r => Db.r_id r =? Db.r_id e) (set_status Db.registered) regs))
  | None => (Registered, with_registrations db (regs ++ [new_row aid u regs]))
  end.

(** [new Date() > deadline] when [registration_deadline] is not NULL. *)
Definition past_deadline (now : Z) (a : Db.announcement) : bool :=
  match Db.a_registration_deadline a with
  | Some deadline => deadline <? now
  | None => false
  end.

(** POST /announcements/:announcementId/register for the token subject
    [userEmail]. The "already registered" block sits inside the
    [if (announcement.max_registrations)] block, as in the source. *)
Definition register (now aid : Z) (userEmail : string) (db : Db.t) : response * Db.t :=
  match Db.findUserByEmail userEmail (Db.users db) with
  | None => (UserNotFound, db)
  | Some u =>
      match find_announcement aid (Db.announcements db) with
      | None => (EventNotFound, db)
      | Some a =>
          if negb (Js.truthy (Db.a_registration_enabled a)) then (RegistrationNotEnabled, db)
          else if past_deadline now a then (DeadlinePassed, db)
          else
            match Db.a_max_registrations a with
            | Some m =>
                if Js.truthy (Js.Num m) then
                  if registered_count aid (Db.event_registrations db) >=? m
                  then (EventFull, db)
                  else enroll aid u db
                else (Registered, db)
            | None => (Registered, db)
            end
      end
  end.

(** POST /announcements/:announcementId/unregister. *)
Definition unregister (aid : Z) (userEmail : string) (db : Db.t) : response * Db.t :=
  match Db.findUserByEmail userEmail (Db.users db) with
  | None => (UserNotFound, db)
  | Some u =>
      let regs := Db.event_registrations db in
      let rowCount := length (List.filter (active_pair aid (Db.u_id u)) regs) in
      let db' :=
        with_registrations db
          (Db.update_where (active_pair aid (Db.u_id u)) (set_status Db.cancelled) regs) in
      if Nat.eqb rowCount 0 then (RegistrationNotFound, db')
      else (Cancelled, db')
  end.

(** GET /announcements/:announcementId/registration-status: the
    [registered] field of the answer. *)
Definition registration_status (aid : Z) (userEmail : string) (db : Db.t) : bool :=
  match Db.findUserByEmail userEmail (Db.users db) with
  | None => false
  | Some u =>
      match find (of_pair aid (Db.u_id u)) (Db.event_registrations db) with
      | Some r => Db.is_registered (Db.r_status r)
      | None => false
      end
  end.

(** The JSON answer of GET .../registration-info. *)
Record info : Type := {
  registration_enabled : bool;
  current_count : Z;
  max_registrations : option Z;
  is_full : Js.value;
  deadline : option Z;
  deadline_passed : Js.value
}.

(** GET /announcements/:announcementId/registration-info; [None] is the
    404 'Event not found'. *)
Definition registration_info (now aid : Z) (db : Db.t) : option info :=
  match find_announcement aid (Db.announcements db) with
  | None => None
  | Some a =>
      let currentCount := registered_count aid (Db.event_registrations db) in
      let isFull :=
        match Db.a_max_registrations a with
        | Some m => Js.and_ (Js.Num m) (Js.Bool (currentCount >=? m))
        | None => Js.Null
        end in
      let deadlinePassed :=
        match Db.a_registration_deadline a with
        | Some d => Js.Bool (d <? now)
        | None => Js.Null
        end in
      Some {| registration_enabled := Js.strict_eq (Db.a_registration_enabled a) (Js.Num 1);
              current_count := currentCount;
              max_registrations := Db.a_max_registrations a;
              is_full := isFull;
              deadline := Db.a_registration_deadline a;
              deadline_passed := deadlinePassed |}
  end.


(** The key constraints of the event_registrations table:
    [id SERIAL PRIMARY KEY] and [UNIQUE(announcement_id, user_id)]. *)
Definition pair_key (r : Db.registration) : Z * Z := (Db.r_announcement_id r, Db.r_user_id r).

Definition constraints_hold (regs : list Db.registration) : Prop :=
  NoDup (map Db.r_id regs) /\ NoDup (map pair_key regs).

End Registration.

(* ================================================================== *)
(** ** Token middleware *)
(* ================================================================== *)

Module Session.

(** The claims the server signs into a token: [{ sub, role }]. *)
Record payload : Type := { sub : string; role : option Db.Role }.

(** [s.split(' ')]: the pieces between single spaces, never an empty list. *)
Fixpoint split_space (s : string) : list string :=
  match s with
  | EmptyString => [EmptyString]
  | String c s' =>
      if Ascii.eqb c " " then EmptyString :: split_space s'
      else match split_space s' with
           | p :: ps => String c p :: ps
           | [] => [String c EmptyString]
           end
  end.

(** What a middleware does with a request: answer it, or call [next()]. *)
Inductive outcome (A : Type) : Type :=
| Reject (status : Z) (error : string)
| Next (x : A).
Arguments Reject {A} status error.
Arguments Next {A} x.

(** The only account [isCoordinator] lets through. *)
Definition coordinatorEmail : string := "bigbossssz550@gmail.com".

Section Middleware.

(** [jwt.verify(token, JWT_SECRET)]: the payload, or [None] when it throws
    (bad signature, expired, malformed, or not a token of this server). *)
Variable jwt_verify : string -> option payload.

(** [authMiddleware]: on [Next] the payload gives [req.userEmail] and
    [req.userRole]. An absent header is [None]. *)
Definition authMiddleware (authorization : option string) : outcome payload :=
  match authorization with
  | None => Reject 401 "missing token"
  | Some auth =>
      if String.eqb auth "" then Reject 401 "missing token"
      else
        match split_space auth with
        | [scheme; token] =>
            if negb (String.eqb scheme "Bearer") then Reject 401 "invalid auth header"
            else match jwt_verify token with
                 | Some p => Next p
                 | None => Reject 401 "invalid token"
                 end
        | _ => Reject 401 "invalid auth header"
        end
  end.

(** [isCoordinator], run after [authMiddleware]. *)
Definition isCoordinator (p : payload) : outcome payload :=
  if negb (String.eqb (sub p) coordinatorEmail)
  then Reject 403 "Access denied: Admin privileges required"
  else Next p.

(** The routes that read the header themselves:
    [const token = auth.split(' ')[1]; jwt.verify(token, JWT_SECRET)] inside
    the handler's [try], whose [catch] answers 500. *)
Definition inline_token (authorization : option string) : outcome payload :=
  match authorization with
  | None => Reject 401 "missing token"
  | Some auth =>
      if String.eqb auth "" then Reject 401 "missing token"
      else
        match nth_error (split_space auth) 1 with
        | Some token =>
            match jwt_verify token with
            | Some p => Next p
            | None => Reject 500 "server error"
            end
        | None => Reject 500 "server error"
        end
  end.

(** POST /profile as mounted: token handling, then the handler. A status on
    the left is an answer given before the handler body ran. *)
Definition post_profile_route (int4_in : string -> option Z) (clubs : list Z)
    (authorization : option string) (b : Profile.body)
    (us : list Db.user) : (Z + Profile.response) * list Db.user :=
  match inline_token authorization with
  | Reject st _ => (inl st, us)
  | Next p =>
      let '(resp, us') := Profile.post_profile int4_in clubs (sub p) b us in (inr resp, us')
  end.

End Middleware.

End Session.

(* ================================================================== *)
(** ** Login *)
(* ================================================================== *)

Module Login.

Inductive response : Type :=
| InvalidCredentials          (* 401 'invalid credentials' *)
| PasswordNotSet              (* 400 'Password not set. ...' *)
| ServerError                 (* 500 'server error' *)
| Ok (email : string) (role : option Db.Role).   (* 200 { ok, token, user } *)

(** The row [createUser(key, h, null)] appends for a lower-cased [key]:
    what a first /auth/verify leaves for the later login. *)
Definition fresh_user (key : string) (h : option string) (us : list Db.user) : Db.user :=
  {| Db.u_id := Db.next_id (map Db.u_id us); Db.u_email := key;
     Db.u_password_hash := h; Db.u_role := None;
     Db.u_name := Js.Null; Db.u_branch := Js.Null; Db.u_roll_number := Js.Null;
     Db.u_club_id := Js.Null; Db.u_admin_requested := false |}.

Section Route.

(** [bcrypt.compare(password, hash)] on two strings. *)
Variable bcrypt_compare : string -> string -> bool.

(** POST /auth/login. A non-string [email] makes [email.toLowerCase()]
    throw, a non-string [password] makes [bcrypt.compare] reject; both end
    in the [catch]. *)
Definition post_login (email password : Js.value) (us : list Db.user) : response :=
  match email with
  | Js.Str e =>
      match Db.findUserByEmail (Js.toLowerCase e) us with
      | None => InvalidCredentials
      | Some u =>
          match Db.u_password_hash u with
          | None => PasswordNotSet
          | Some h =>
              if String.eqb h "" then PasswordNotSet
              else
                match password with
                | Js.Str p =>
                    if negb (bcrypt_compare p h) then InvalidCredentials
                    else Ok (Db.u_email u) (Db.u_role u)
                | _ => ServerError
                end
          end
      end
  | _ => ServerError
  end.

End Route.

End Login.

(* ================================================================== *)
(** ** Coordinator routes *)
(* ================================================================== *)

Module Admin.

Inductive response : Type :=
| Denied (status : Z)         (* answered by a middleware *)
| EmailRequired               (* 400 'Email required' *)
| Failed                      (* 500 'Failed to approve' *)
| Approved.                   (* 200 'Approved successfully' *)

(** The WHERE clause of GET /admin/pending-requests:
    [u.admin_requested = true AND u.role IS NULL]. *)
Definition is_pending (u : Db.user) : bool :=
  Db.u_admin_requested u && match Db.u_role u with None => true | Some _ => false end.

(** [SET role = 'club_admin', admin_requested = false]. *)
Definition set_approved (u : Db.user) : Db.user :=
  {| Db.u_id := Db.u_id u; Db.u_email := Db.u_email u;
     Db.u_password_hash := Db.u_password_hash u;
     Db.u_role := Some Db.club_admin;
     Db.u_name := Db.u_name u; Db.u_branch := Db.u_branch u;
     Db.u_roll_number := Db.u_roll_number u;
     Db.u_club_id := Db.u_club_id u; Db.u_admin_requested := false |}.

(** The handler of POST /admin/approve-request; [club_id] of the body is
    destructured and never used. *)
Definition approve_request (email : Js.value) (us : list Db.user) : response * list Db.user :=
  if negb (Js.truthy email) then (EmailRequired, us)
  else
    match email with
    | Js.Str e => (Approved, Db.update_where (Db.has_email (Js.toLowerCase e)) set_approved us)
    | _ => (Failed, us)
    end.

Section Route.

Variable jwt_verify : string -> option Session.payload.

(** POST /admin/approve-request behind [authMiddleware, isCoordinator]. *)
Definition post_approve_request (authorization : option string) (email : Js.value)
    (us : list Db.user) : response * list Db.user :=
  match Session.authMiddleware jwt_verify authorization with
  | Session.Reject st _ => (Denied st, us)
  | Session.Next p =>
      match Session.isCoordinator p with
      | Session.Reject st _ => (Denied st, us)
      | Session.Next _ => approve_request email us
      end
  end.

End Route.

End Admin.

(* ================================================================== *)
(** ** Announcements *)
(* ================================================================== *)

Module Announcements.

(** A row of the announcements table. [policy] holds the id and the
    registration columns, the ones the registration routes select. *)
Record row : Type := {
  policy : Db.announcement;
  club_id : Js.value;
  title : Js.value;
  content : Js.value;
  image_url : option string;
  created_by : string;
  is_active : bool
}.

Definition id (r : row) : Z := Db.a_id (policy r).

(** WHERE id = $1 AND created_by = $2. *)
Definition owned (announcementId : Z) (userEmail : string) (r : row) : bool :=
  (id r =? announcementId) && String.eqb (created_by r) userEmail.

Definition set_inactive (r : row) : row :=
  {| policy := policy r; club_id := club_id r; title := title r; content := content r;
     image_url := image_url r; created_by := created_by r; is_active := false |}.

Definition set_text (t c : Js.value) (r : row) : row :=
  {| policy := policy r; club_id := club_id r; title := t; content := c;
     image_url := image_url r; created_by := created_by r; is_active := is_active r |}.

(** [deleteAnnouncement(announcementId, userEmail)]: the soft delete and
    [res.rowCount > 0]. *)
Definition deleteAnnouncement (announcementId : Z) (userEmail : string) (rows : list row)
    : bool * list row :=
  (negb (Nat.eqb (length (List.filter (owned announcementId userEmail) rows)) 0),
   Db.update_where (owned announcementId userEmail) set_inactive rows).

(** [updateAnnouncement(announcementId, title, content, userEmail)]. *)
Definition updateAnnouncement (announcementId : Z) (t c : Js.value) (userEmail : string)
    (rows : list row) : bool * list row :=
  (negb (Nat.eqb (length (List.filter (owned announcementId userEmail) rows)) 0),
   Db.update_where (owned announcementId userEmail) (set_text t c) rows).

Inductive response : Type :=
| Denied (status : Z)          (* token handling: 401 or 500 *)
| TitleContentRequired         (* 400 'title and content required' *)
| OnlyClubAdmins               (* 403 'only club admins can create announcements' *)
| NotFoundOrUnauthorized       (* 404 'announcement not found or unauthorized' *)
| ServerError                  (* 500 'server error' *)
| Created (announcementId : Z) (* 200 'Announcement created successfully' *)
| Updated                      (* 200 'Announcement updated' *)
| Deleted.                     (* 200 'Announcement deleted' *)

(** The multipart fields of POST /announcements. *)
Record create_body : Type := {
  b_title : Js.value;
  b_content : Js.value;
  b_registration_enabled : Js.value;
  b_registration_deadline : Js.value;
  b_max_registrations : Js.value
}.

(** [let regEnabled = 0; if (... === 'true' || ... === true || ... === 1 ||
    ... === '1') regEnabled = 1]. *)
Definition regEnabled (v : Js.value) : Z :=
  if Js.strict_eq v (Js.Str "true") || Js.strict_eq v (Js.Bool true)
     || Js.strict_eq v (Js.Num 1) || Js.strict_eq v (Js.Str "1")
  then 1 else 0.

(** The guard shared by the deadline and the limit:
    [v && v !== '' && v !== 'null' && v !== 'undefined']. *)
Definition provided (v : Js.value) : bool :=
  Js.truthy v && negb (Js.strict_eq v (Js.Str ""))
  && negb (Js.strict_eq v (Js.Str "null")) && negb (Js.strict_eq v (Js.Str "undefined")).

Section Routes.

Variable jwt_verify : string -> option Session.payload.
(** [parseInt(v)], [None] for NaN. *)
Variable parseInt : Js.value -> option Z.
(** [new Date(v).getTime()], [None] for an invalid date. *)
Variable parseDate : Js.value -> option Z.
(** How the store hands back the flag written as 0 or 1 into the
    [registration_enabled] column. *)
Variable stored_flag : Z -> Js.value.

Definition regDeadline (v : Js.value) : option Z :=
  if provided v then parseDate v else None.

Definition maxReg (v : Js.value) : option Z :=
  if provided v then parseInt v else None.

(** POST /announcements; [file] is the stored name of the uploaded image. *)
Definition post_announcements (authorization : option string) (file : option string)
    (b : create_body) (us : list Db.user) (rows : list row) : response * list row :=
  match Session.inline_token jwt_verify authorization with
  | Session.Reject st _ => (Denied st, rows)
  | Session.Next p =>
      let email := Js.toLowerCase (Session.sub p) in
      if negb (Js.truthy (b_title b)) || negb (Js.truthy (b_content b))
      then (TitleContentRequired, rows)
      else
        match Db.findUserByEmail email us with
        | None => (ServerError, rows)
        | Some user =>
            if match Db.u_role user with Some Db.club_admin => false | _ => true end
               || negb (Js.truthy (Db.u_club_id user))
            then (OnlyClubAdmins, rows)
            else
              let imageUrl := option_map (fun f => String.append "/uploads/" f) file in
              let announcementId := Db.next_id (map id rows) in
              (Created announcementId,
               rows ++ [ {| policy :=
                              {| Db.a_id := announcementId;
                                 Db.a_registration_enabled :=
                                   stored_flag (regEnabled (b_registration_enabled b));
                                 Db.a_registration_deadline :=
                                   regDeadline (b_registration_deadline b);
                                 Db.a_max_registrations := maxReg (b_max_registrations b) |};
                            club_id := Db.u_club_id user;
                            title := b_title b; content := b_content b;
                            image_url := imageUrl;
                            created_by := email; is_active := true |} ])
        end
  end.

(** DELETE /announcements/:id. *)
Definition delete_announcement (authorization : option string) (announcementId : Z)
    (rows : list row) : response * list row :=
  match Session.inline_token jwt_verify authorization with
  | Session.Reject st _ => (Denied st, rows)
  | Session.Next p =>
      let email := Js.toLowerCase (Session.sub p) in
      let '(success, rows') := deleteAnnouncement announcementId email rows in
      if negb success then (NotFoundOrUnauthorized, rows') else (Deleted, rows')
  end.

(** PUT /announcements/:id. *)
Definition put_announcement (authorization : option string) (announcementId : Z)
    (t c : Js.value) (rows : list row) : response * list row :=
  match Session.inline_token jwt_verify authorization with
  | Session.Reject st _ => (Denied st, rows)
  | Session.Next p =>
      let email := Js.toLowerCase (Session.sub p) in
      if negb (Js.truthy t) || negb (Js.truthy c) then (TitleContentRequired, rows)
      else
        let '(success, rows') := updateAnnouncement announcementId t c email rows in
        if negb success then (NotFoundOrUnauthorized, rows') else (Updated, rows')
  end.

End Routes.

(** The database the registration routes see: they select the policy
    columns of every row, whatever [is_active] says. *)
Definition registration_view (us : list Db.user) (rows : list row)
    (regs : list Db.registration) : Db.t :=
  {| Db.users := us; Db.announcements := map policy rows; Db.event_registrations := regs |}.

(** The roster counts of GET /announcements/:announcementId/registrations. *)
Inductive roster : Type :=
| RosterServerError            (* 500: [user] is null *)
| RosterOnlyClubAdmins         (* 403 'Only club admins can view registrations' *)
| RosterEventNotFound          (* 404 'Event not found' *)
| RosterOtherClub              (* 403 'You can only view registrations for your club events' *)
| RosterOk (total_count registered_count : Z).

(** GET /announcements/:announcementId/registrations for the token subject
    [userEmail]: the gate and the two counts of the answer (the row list
    itself, ordered by [registered_at], is not part of this model). *)
Definition get_registrations (announcementId : Z) (userEmail : string)
    (us : list Db.user) (rows : list row) (regs : list Db.registration) : roster :=
  match Db.findUserByEmail userEmail us with
  | None => RosterServerError
  | Some user =>
      if match Db.u_role user with Some Db.club_admin => false | _ => true end
      then RosterOnlyClubAdmins
      else
        match find (fun r => id r =? announcementId) rows with
        | None => RosterEventNotFound
        | Some a =>
            if negb (Js.strict_eq (Db.u_club_id user) (club_id a)) then RosterOtherClub
            else
              let registrations :=
                List.filter (fun r => Db.r_announcement_id r =? announcementId) regs in
              RosterOk (Z.of_nat (length registrations))
                       (Z.of_nat (length (List.filter
                                            (fun r => Db.is_registered (Db.r_status r))
                                            registrations)))
        end
  end.

End Announcements.

(* ================================================================== *)
(** * Properties *)
(* ================================================================== *)

(** ** JavaScript values *)

Lemma strict_eq_true (a b : Js.value) : Js.strict_eq a b = true <-> a = b.
Proof.
  destruct a, b; simpl; try (split; [discriminate | congruence]); try tauto.
  - rewrite Bool.eqb_true_iff. split; congruence.
  - rewrite Z.eqb_eq. split; congruence.
  - rewrite String.eqb_eq. split; congruence.
Qed.

Lemma strict_eq_refl (a : Js.value) : Js.strict_eq a a = true.
Proof. by apply strict_eq_true. Qed.

Lemma strict_eq_false (a b : Js.value) : Js.strict_eq a b = false <-> a <> b.
Proof.
  rewrite <- strict_eq_true. destruct (Js.strict_eq a b); split; congruence.
Qed.

Lemma lower_ascii_idem (c : ascii) : Js.lower_ascii (Js.lower_ascii c) = Js.lower_ascii c.
Proof.
  destruct c as [[] [] [] [] [] [] [] []]; reflexivity.
Qed.

Lemma toLowerCase_idem (s : string) : Js.toLowerCase (Js.toLowerCase s) = Js.toLowerCase s.
Proof.
  induction s as [| c s IH]; simpl; [reflexivity |].
  by rewrite lower_ascii_idem, IH.
Qed.

(** ** The OTP ledger *)

Section OtpLedger.

Variables (now : Z) (email : string) (store : gmap string Otp.rec).

Let key := Js.toLowerCase email.

Lemma validateCode_absent (c : Js.value) :
  store !! key = None -> Otp.validateCode now email c store = (false, store).
Proof. unfold Otp.validateCode. fold key. by intros ->. Qed.

Lemma validateCode_expired (c : Js.value) (r : Otp.rec) :
  store !! key = Some r -> Otp.expiresAt r < now ->
  Otp.validateCode now email c store = (false, delete key store).
Proof.
  unfold Otp.validateCode. fold key. intros -> Hlt.
  apply Z.ltb_lt in Hlt. by rewrite Hlt.
Qed.

Lemma validateCode_mismatch (c : Js.value) (r : Otp.rec) :
  store !! key = Some r -> now <= Otp.expiresAt r -> c <> Js.Str (Otp.code r) ->
  Otp.validateCode now email c store = (false, store).
Proof.
  unfold Otp.validateCode. fold key. intros -> Hle Hne.
  apply Z.ltb_ge in Hle. rewrite Hle.
  assert (Js.strict_eq (Js.Str (Otp.code r)) c = false) as ->; [| done].
  apply strict_eq_false. congruence.
Qed.

Lemma validateCode_match (r : Otp.rec) :
  store !! key = Some r -> now <= Otp.expiresAt r ->
  Otp.validateCode now email (Js.Str (Otp.code r)) store = (true, delete key store).
Proof.
  unfold Otp.validateCode. fold key. intros -> Hle.
  apply Z.ltb_ge in Hle. by rewrite Hle, strict_eq_refl.
Qed.

(** Whatever a call answers, a call that answers [true] leaves no record
    under the key. *)
Lemma validateCode_true_inv (c : Js.value) (store' : gmap string Otp.rec) :
  Otp.validateCode now email c store = (true, store') ->
  exists r, store !! key = Some r /\ now <= Otp.expiresAt r /\ c = Js.Str (Otp.code r)
            /\ store' = delete key store.
Proof.
  unfold Otp.validateCode. fold key.
  destruct (store !! key) as [r|]; [| discriminate].
  destruct (Otp.expiresAt r <? now) eqn:Hexp; [discriminate |].
  destruct (Js.strict_eq (Js.Str (Otp.code r)) c) eqn:Heq; simpl; [| discriminate].
  intros [= <-]. exists r. apply Z.ltb_ge in Hexp. apply strict_eq_true in Heq.
  by repeat split.
Qed.

End OtpLedger.

(** C3. [validateCode] (the ledger's consume) answers [false] when no record
    is pending for the email; answers [false] and deletes the record when the
    current time is strictly after its expiry; answers [false] and keeps the
    record when the codes differ; and on an exact match before expiry deletes
    the record and answers [true]. Hence of two consecutive calls with the
    code that was issued, the second always answers [false]. *)
Theorem validateCode_single_use (email : string) (store : gmap string Otp.rec) :
  let key := Js.toLowerCase email in
  (forall now c,
      store !! key = None -> Otp.validateCode now email c store = (false, store)) /\
  (forall now c r,
      store !! key = Some r -> Otp.expiresAt r < now ->
      Otp.validateCode now email c store = (false, delete key store)
      /\ delete key store !! key = None) /\
  (forall now c r,
      store !! key = Some r -> now <= Otp.expiresAt r -> c <> Js.Str (Otp.code r) ->
      Otp.validateCode now email c store = (false, store)) /\
  (forall now r,
      store !! key = Some r -> now <= Otp.expiresAt r ->
      Otp.validateCode now email (Js.Str (Otp.code r)) store = (true, delete key store)
      /\ delete key store !! key = None) /\
  (forall ttl issued code0 now1 now2,
      let pending := Otp.storeCode ttl issued email code0 store in
      let first := Otp.validateCode now1 email (Js.Str code0) pending in
      fst (Otp.validateCode now2 email (Js.Str code0) (snd first)) = false).
Proof.
  intros key. split; [| split; [| split; [| split]]].
  - intros now c Hnone. by apply validateCode_absent.
  - intros now c r Hr Hexp. split; [| apply lookup_delete_eq].
    by apply (validateCode_expired now email store c r).
  - intros now c r Hr Hlive Hne. by apply (validateCode_mismatch now email store c r).
  - intros now r Hr Hlive. split; [| apply lookup_delete_eq].
    by apply validateCode_match.
  - intros ttl issued code0 now1 now2 pending first.
    set (r := {| Otp.code := code0; Otp.expiresAt := issued + ttl |}).
    assert (Hp : pending !! key = Some r) by apply lookup_insert_eq.
    assert (Hgone : snd first !! key = None).
    { destruct (Z.lt_ge_cases (Otp.expiresAt r) now1) as [Hexp | Hlive].
      - subst first. rewrite (validateCode_expired _ _ _ _ r Hp Hexp). apply lookup_delete_eq.
      - subst first. change (Js.Str code0) with (Js.Str (Otp.code r)).
        rewrite (validateCode_match now1 email pending r Hp Hlive).
        apply lookup_delete_eq. }
    by rewrite validateCode_absent.
Qed.

Lemma validateCode_single_use_witness :
  let store : gmap string Otp.rec :=
    {[ "a@x.edu"%string := {| Otp.code := "123456"; Otp.expiresAt := 300000 |} ]} in
  Otp.validateCode 1000 "A@x.edu" (Js.Str "123456") store = (true, delete "a@x.edu"%string store)
  /\ Otp.validateCode 1000 "A@x.edu" (Js.Str "654321") store = (false, store)
  /\ Otp.validateCode 300001 "A@x.edu" (Js.Str "123456") store
     = (false, delete "a@x.edu"%string store)
  /\ Otp.validateCode 1000 "b@x.edu" (Js.Str "123456") store = (false, store).
Proof.
  intros store.
  pose proof (validateCode_single_use "A@x.edu" store) as (Habs & Hexp & Hmis & Hok & _).
  split; [| split; [| split]].
  - apply (Hok 1000 {| Otp.code := "123456"; Otp.expiresAt := 300000 |}).
    + reflexivity.
    + simpl. lia.
  - apply (Hmis 1000 _ {| Otp.code := "123456"; Otp.expiresAt := 300000 |}).
    + reflexivity.
    + simpl. lia.
    + simpl. discriminate.
  - apply (Hexp 300001 _ {| Otp.code := "123456"; Otp.expiresAt := 300000 |}).
    + reflexivity.
    + simpl. lia.
  - pose proof (validateCode_single_use "b@x.edu" store) as (Habs' & _).
    apply Habs'. reflexivity.
Defined.

(** ** /auth/send-code and /auth/verify *)

Section AuthRoutes.

Variable bcrypt_hash : string -> string.

Lemma verify_accepted_rejects (key : string) (b : Auth.verify_body) (us : list Db.user) :
  Auth.rejected_password (Auth.password b) (Auth.confirm b) ->
  exists resp, Auth.verify_accepted bcrypt_hash key b us = (resp, us)
               /\ Auth.verify_status resp = 400.
Proof.
  intros [Hpresent Hbad]. unfold Auth.verify_accepted.
  destruct (Auth.password b) as [| | x | n | p] eqn:Hpw;
    try (eexists; split; reflexivity).
  - congruence.
  - destruct (Z.of_nat (String.length p) <? 6) eqn:Hlen.
    + eexists; split; reflexivity.
    + apply Z.ltb_ge in Hlen.
      destruct (Hbad p eq_refl) as [Hshort | Hne]; [lia |].
      apply strict_eq_false in Hne. rewrite Hne. simpl.
      eexists; split; reflexivity.
Qed.

Lemma post_verify_rejected (now : Z) (b : Auth.verify_body) (st : Auth.state) :
  Auth.rejected_password (Auth.password b) (Auth.confirm b) ->
  Auth.users (snd (Auth.post_verify bcrypt_hash now b st)) = Auth.users st
  /\ Auth.verify_status (fst (Auth.post_verify bcrypt_hash now b st)) <> 200.
Proof.
  intros Hrej. unfold Auth.post_verify.
  destruct (negb (Js.truthy (Auth.email b)) || negb (Js.truthy (Auth.code b)));
    [simpl; split; [reflexivity | lia] |].
  destruct (Auth.email b) as [| | x | n | e]; try (simpl; split; [reflexivity | lia]).
  destruct (Otp.validateCode now e (Auth.code b) (Auth.codeStore st)) as [ok store'].
  destruct ok; simpl; [| split; [reflexivity | lia]].
  destruct (verify_accepted_rejects (Js.toLowerCase e) b (Auth.users st) Hrej)
    as (resp & -> & Hst).
  simpl. split; [reflexivity | lia].
Qed.

End AuthRoutes.

(** C8. During /auth/verify with a password present that is shorter than 6
    characters or differs from [confirm], the request fails, with status 400
    once the submitted code has been accepted, and the users table (existence
    of the row, password hash, role) is unchanged; replaying the same
    rejected request leaves it unchanged again. *)
Theorem verify_rejected_password_keeps_account
    (bcrypt_hash : string -> string) (now now2 : Z) (b : Auth.verify_body) (st : Auth.state) :
  Auth.password b <> Js.Undefined ->
  (forall p, Auth.password b = Js.Str p ->
             (String.length p < 6)%nat \/ Auth.password b <> Auth.confirm b) ->
  let first := Auth.post_verify bcrypt_hash now b st in
  let replay := Auth.post_verify bcrypt_hash now2 b (snd first) in
  Auth.users (snd first) = Auth.users st
  /\ Auth.verify_status (fst first) <> 200
  /\ (forall e, Auth.email b = Js.Str e -> e <> ""%string -> Js.truthy (Auth.code b) = true ->
                fst (Otp.validateCode now e (Auth.code b) (Auth.codeStore st)) = true ->
                Auth.verify_status (fst first) = 400)
  /\ Auth.users (snd replay) = Auth.users st
  /\ Auth.verify_status (fst replay) <> 200.
Proof.
  intros Hpresent Hbad first replay.
  assert (Hrej : Auth.rejected_password (Auth.password b) (Auth.confirm b)) by (split; assumption).
  destruct (post_verify_rejected bcrypt_hash now b st Hrej) as [Hus Hfail].
  destruct (post_verify_rejected bcrypt_hash now2 b (snd first) Hrej) as [Hus2 Hfail2].
  split; [exact Hus |]. split; [exact Hfail |]. split.
  - intros e He Hne Hcode Hok. subst first. unfold Auth.post_verify.
    rewrite He, Hcode. simpl.
    assert (String.eqb e "" = false) as -> by (by apply String.eqb_neq).
    simpl.
    destruct (Otp.validateCode now e (Auth.code b) (Auth.codeStore st)) as [ok store'].
    simpl in Hok. subst ok. simpl.
    destruct (verify_accepted_rejects bcrypt_hash (Js.toLowerCase e) b (Auth.users st) Hrej)
      as (resp & -> & Hst).
    exact Hst.
  - split; [exact (eq_trans Hus2 Hus) | exact Hfail2].
Qed.

Lemma verify_rejected_password_keeps_account_witness :
  let st := {| Auth.codeStore :=
                 {[ "a@x.edu"%string := {| Otp.code := "123456"; Otp.expiresAt := 300000 |} ]};
               Auth.users := [] |} in
  let b := {| Auth.email := Js.Str "a@x.edu"; Auth.code := Js.Str "123456";
              Auth.password := Js.Str "abc"; Auth.confirm := Js.Str "abc" |} in
  Auth.users (snd (Auth.post_verify (fun p => p) 1000 b st)) = []
  /\ Auth.verify_status (fst (Auth.post_verify (fun p => p) 1000 b st)) = 400.
Proof.
  intros st b.
  assert (Hpresent : Auth.password b <> Js.Undefined) by (simpl; discriminate).
  assert (Hbad : forall p, Auth.password b = Js.Str p ->
                           (String.length p < 6)%nat \/ Auth.password b <> Auth.confirm b).
  { intros p [= <-]. left. simpl. lia. }
  destruct (verify_rejected_password_keeps_account (fun p => p) 1000 2000 b st Hpresent Hbad)
    as (Hus & _ & H400 & _).
  split; [exact Hus |].
  apply (H400 "a@x.edu"%string); [reflexivity | discriminate | reflexivity | reflexivity].
Defined.

(** C9. /auth/send-code stores the generated code before the delivery is
    attempted: the ledger after the call is the same whether delivery
    succeeds or fails. When delivery fails with the dev fallback off the
    answer is 500, the code is still pending, and it is consumed
    successfully at any time up to its expiry. *)
Theorem send_code_failure_keeps_code
    (CODE_TTL now : Z) (e code0 : string) (store : gmap string Otp.rec) :
  e <> ""%string ->
  let pending := Otp.storeCode CODE_TTL now e code0 store in
  Auth.post_send_code CODE_TTL false now (Js.Str e) code0 false store = (Auth.SendFailed, pending)
  /\ Auth.send_status Auth.SendFailed = 500
  /\ (forall fallback delivered,
        snd (Auth.post_send_code CODE_TTL fallback now (Js.Str e) code0 delivered store) = pending)
  /\ pending !! Js.toLowerCase e = Some {| Otp.code := code0; Otp.expiresAt := now + CODE_TTL |}
  /\ (forall now', now' <= now + CODE_TTL ->
        Otp.validateCode now' e (Js.Str code0) pending
        = (true, delete (Js.toLowerCase e) pending)).
Proof.
  intros Hne pending.
  assert (Htruthy : Js.truthy (Js.Str e) = true).
  { simpl. by apply negb_true_iff, String.eqb_neq. }
  assert (Hp : pending !! Js.toLowerCase e
               = Some {| Otp.code := code0; Otp.expiresAt := now + CODE_TTL |})
    by apply lookup_insert_eq.
  unfold Auth.post_send_code. rewrite Htruthy. simpl.
  split; [reflexivity |]. split; [reflexivity |]. split.
  - intros [] []; reflexivity.
  - split; [exact Hp |]. intros now' Hlive.
    exact (validateCode_match now' e pending _ Hp Hlive).
Qed.

Lemma send_code_failure_keeps_code_witness :
  let pending := Otp.storeCode 300000 1000 "A@x.edu" "123456" ∅ in
  Auth.post_send_code 300000 false 1000 (Js.Str "A@x.edu") "123456" false ∅
  = (Auth.SendFailed, pending)
  /\ Otp.validateCode 301000 "a@x.edu" (Js.Str "123456") pending
     = (true, delete "a@x.edu"%string pending).
Proof.
  intros pending.
  assert (Hne : "A@x.edu"%string <> ""%string) by discriminate.
  destruct (send_code_failure_keeps_code 300000 1000 "A@x.edu" "123456" ∅ Hne)
    as (Hresp & _ & _ & _ & Hlive).
  split; [exact Hresp |].
  apply (Hlive 301000). lia.
Defined.

(** C10. /auth/verify consumes the pending code before it looks at the
    password: a request carrying the right code and a short or mismatched
    password is answered 400 and the code is gone; a retry with the same code,
    whatever the password, is answered 401 until a new code is stored. *)
Theorem verify_consumes_code_before_password_check
    (bcrypt_hash : string -> string) (now : Z) (e : string) (r : Otp.rec)
    (pw cf : Js.value) (st : Auth.state) :
  e <> ""%string ->
  Otp.code r <> ""%string ->
  Auth.codeStore st !! Js.toLowerCase e = Some r ->
  now <= Otp.expiresAt r ->
  pw <> Js.Undefined ->
  (forall p, pw = Js.Str p -> (String.length p < 6)%nat \/ pw <> cf) ->
  let request pw' cf' :=
    {| Auth.email := Js.Str e; Auth.code := Js.Str (Otp.code r);
       Auth.password := pw'; Auth.confirm := cf' |} in
  let st' := {| Auth.codeStore := delete (Js.toLowerCase e) (Auth.codeStore st);
                Auth.users := Auth.users st |} in
  (exists resp, Auth.post_verify bcrypt_hash now (request pw cf) st = (resp, st')
                /\ Auth.verify_status resp = 400)
  /\ Auth.codeStore st' !! Js.toLowerCase e = None
  /\ (forall now' pw' cf',
        Auth.post_verify bcrypt_hash now' (request pw' cf') st' = (Auth.VerifyInvalidCode, st')
        /\ Auth.verify_status Auth.VerifyInvalidCode = 401).
Proof.
  intros He Hc Hr Hlive Hpresent Hbad request st'.
  assert (Hte : String.eqb e "" = false) by (by apply String.eqb_neq).
  assert (Htc : String.eqb (Otp.code r) "" = false) by (by apply String.eqb_neq).
  assert (Hgone : Auth.codeStore st' !! Js.toLowerCase e = None) by apply lookup_delete_eq.
  split; [| split; [exact Hgone |]].
  - unfold Auth.post_verify. simpl. rewrite Hte, Htc. simpl.
    rewrite (validateCode_match now e (Auth.codeStore st) r Hr Hlive). simpl.
    destruct (verify_accepted_rejects bcrypt_hash (Js.toLowerCase e) (request pw cf)
                (Auth.users st)) as (resp & Hacc & Hst).
    { split; assumption. }
    rewrite Hacc. exists resp. by split.
  - intros now' pw' cf'. split; [| reflexivity].
    pose proof (validateCode_absent now' e _ (Js.Str (Otp.code r)) Hgone) as Habsent.
    unfold Auth.post_verify.
    cbn [Auth.email Auth.code request Js.truthy]. rewrite Hte, Htc.
    cbn [negb orb]. by rewrite Habsent.
Qed.

Lemma verify_consumes_code_before_password_check_witness :
  let st := {| Auth.codeStore :=
                 {[ "a@x.edu"%string := {| Otp.code := "123456"; Otp.expiresAt := 300000 |} ]};
               Auth.users := [] |} in
  let st' := {| Auth.codeStore := delete "a@x.edu"%string (Auth.codeStore st);
                Auth.users := [] |} in
  Auth.post_verify (fun p => p) 2000
    {| Auth.email := Js.Str "a@x.edu"; Auth.code := Js.Str "123456";
       Auth.password := Js.Str "secret1"; Auth.confirm := Js.Str "secret1" |} st'
  = (Auth.VerifyInvalidCode, st').
Proof.
  intros st st'.
  assert (H1 : "a@x.edu"%string <> ""%string) by discriminate.
  assert (H2 : "123456"%string <> ""%string) by discriminate.
  assert (Hbad : forall p, Js.Str "abc" = Js.Str p ->
                           (String.length p < 6)%nat \/ Js.Str "abc" <> Js.Str "abd").
  { intros p [= <-]. left. simpl. lia. }
  destruct (verify_consumes_code_before_password_check (fun p => p) 1000 "a@x.edu"
              {| Otp.code := "123456"; Otp.expiresAt := 300000 |}
              (Js.Str "abc") (Js.Str "abd") st H1 H2)
    as (_ & _ & Hretry).
  - reflexivity.
  - simpl. lia.
  - discriminate.
  - exact Hbad.
  - exact (proj1 (Hretry 2000 (Js.Str "secret1") (Js.Str "secret1"))).
Defined.

(** ** POST /profile *)

Section ProfileRoute.

Lemma findUserByEmail_lower (sub : string) (us : list Db.user) :
  Db.findUserByEmail (Js.toLowerCase sub) us = Db.findUserByEmail sub us.
Proof. unfold Db.findUserByEmail. by rewrite toLowerCase_idem. Qed.

(** An UPDATE ... WHERE email = key that does not write the email column
    shows through the SELECT ... WHERE email = key as the rewritten row. *)
Lemma find_update_where_email (key : string) (f : Db.user -> Db.user) (us : list Db.user) :
  (forall u, Db.u_email (f u) = Db.u_email u) ->
  find (Db.has_email key) (Db.update_where (Db.has_email key) f us)
  = option_map f (find (Db.has_email key) us).
Proof.
  intros Hemail. induction us as [| u us IH]; [reflexivity |].
  simpl. destruct (Db.has_email key u) eqn:Hu.
  - assert (Db.has_email key (f u) = true) as ->; [| reflexivity].
    unfold Db.has_email in *. by rewrite Hemail.
  - rewrite Hu. exact IH.
Qed.

Lemma update_where_proj {A B : Type} (p : A -> bool) (f : A -> A) (g : A -> B) (rows : list A) :
  (forall x, g (f x) = g x) ->
  map g (Db.update_where p f rows) = map g rows.
Proof.
  intros Hg. unfold Db.update_where. rewrite map_map.
  apply map_ext. intros x. destruct (p x); [apply Hg | reflexivity].
Qed.

(** With a role already assigned the request takes the generic branch,
    whatever [role] and [club_id] the body carries. *)
Lemma post_profile_assigned
    (int4_in : string -> option Z) (clubs : list Z)
(sub : string) (b : Profile.body) (us : list Db.user)
    (u : Db.user) (r : Db.Role) :
  Db.findUserByEmail sub us = Some u -> Db.u_role u = Some r ->
  snd (Profile.post_profile int4_in clubs sub b us)
  = Db.update_where (Db.has_email (Js.toLowerCase sub)) (Db.set_details (Profile.generic_edit b))
      us.
Proof.
  intros Hu Hr. unfold Profile.post_profile.
  rewrite findUserByEmail_lower, Hu. unfold Profile.role_unset. rewrite Hr.
  unfold Db.updateProfile. rewrite toLowerCase_idem. simpl.
  by destruct (Js.truthy (Profile.role b)).
Qed.

Lemma post_profile_assigned_user
    (int4_in : string -> option Z) (clubs : list Z)
(sub : string) (b : Profile.body) (us : list Db.user)
    (u : Db.user) (r : Db.Role) :
  Db.findUserByEmail sub us = Some u -> Db.u_role u = Some r ->
  exists u', Db.findUserByEmail sub (snd (Profile.post_profile int4_in clubs sub b us)) = Some u'
             /\ Db.u_role u' = Some r /\ Db.u_club_id u' = Db.u_club_id u.
Proof.
  intros Hu Hr. rewrite (post_profile_assigned int4_in clubs sub b us u r Hu Hr).
  unfold Db.findUserByEmail in *.
  rewrite find_update_where_email by reflexivity. rewrite Hu. simpl.
  eexists. split; [reflexivity |]. by split.
Qed.

End ProfileRoute.

(** C7. For a user whose role is already assigned, any POST /profile leaves
    the role and the club of that user (and of every row) unchanged, whatever
    [role] and [club_id] the body carries, and so does any series of such
    requests; a request changes the stored role only when it was still NULL,
    hence at most once. *)
Theorem profile_role_single_shot
    (int4_in : string -> option Z) (clubs : list Z)
    (sub : string) (us : list Db.user) (u : Db.user) (r : Db.Role) :
  Db.findUserByEmail sub us = Some u ->
  Db.u_role u = Some r ->
  (forall b,
      let us' := snd (Profile.post_profile int4_in clubs sub b us) in
      (exists u', Db.findUserByEmail sub us' = Some u'
                  /\ Db.u_role u' = Some r /\ Db.u_club_id u' = Db.u_club_id u)
      /\ map Db.u_role us' = map Db.u_role us
      /\ map Db.u_club_id us' = map Db.u_club_id us)
  /\ (forall bs,
        exists u', Db.findUserByEmail sub (Profile.post_profiles int4_in clubs sub bs us) = Some u'
                   /\ Db.u_role u' = Some r /\ Db.u_club_id u' = Db.u_club_id u)
  /\ (forall b0 us0 u0 u1,
        Db.findUserByEmail sub us0 = Some u0 ->
        Db.findUserByEmail sub (snd (Profile.post_profile int4_in clubs sub b0 us0)) = Some u1 ->
        Db.u_role u1 <> Db.u_role u0 ->
        Db.u_role u0 = None).
Proof.
  intros Hu Hr. split; [| split].
  - intros b us'. split; [by apply (post_profile_assigned_user int4_in clubs) |].
    subst us'. rewrite (post_profile_assigned int4_in clubs sub b us u r Hu Hr).
    split; by apply update_where_proj.
  - intros bs. revert us u Hu Hr.
    induction bs as [| b bs IH]; intros us u Hu Hr.
    + exists u. by repeat split.
    + simpl.
      destruct (post_profile_assigned_user int4_in clubs sub b us u r Hu Hr) as (u' & Hu' & Hr' &
          Hc').
      destruct (IH _ u' Hu' Hr') as (u'' & Hu'' & Hr'' & Hc'').
      exists u''. repeat split; [exact Hu'' | exact Hr'' | congruence].
  - intros b0 us0 u0 u1 Hu0 Hu1 Hchg.
    destruct (Db.u_role u0) as [r0 |] eqn:Hr0; [| reflexivity].
    destruct (post_profile_assigned_user int4_in clubs sub b0 us0 u0 r0 Hu0 Hr0) as (u' & Hu' &
        Hr' & _).
    congruence.
Qed.

Lemma profile_role_single_shot_witness :
  let admin := {| Db.u_id := 1; Db.u_email := "a@x.edu"; Db.u_password_hash := None;
                  Db.u_role := Some Db.club_admin;
                  Db.u_name := Js.Null; Db.u_branch := Js.Null; Db.u_roll_number := Js.Null;
                  Db.u_club_id := Js.Num 3; Db.u_admin_requested := true |} in
  let b := {| Profile.name := Js.Str "Ann"; Profile.branch := Js.Undefined;
              Profile.roll_number := Js.Undefined;
              Profile.role := Js.Str "student"; Profile.club_id := Js.Num 9 |} in
  map Db.u_role (snd (Profile.post_profile (fun _ : string => None) [3; 9] "A@x.edu" b [admin])) =
      [Some Db.club_admin]
  /\ map Db.u_club_id (snd (Profile.post_profile (fun _ : string => None) [3; 9] "A@x.edu" b
      [admin])) = [Js.Num 3].
Proof.
  intros admin b.
  destruct (profile_role_single_shot (fun _ : string => None) [3; 9] "A@x.edu" [admin] admin
      Db.club_admin) as (Hone & _ & _).
  - reflexivity.
  - reflexivity.
  - destruct (Hone b) as (_ & Hrole & Hclub). split; [exact Hrole | exact Hclub].
Defined.

(** ** Event registration: table lemmas *)

Section RegistrationTable.

Implicit Types (regs : list Db.registration) (r e : Db.registration) (db : Db.t).

Lemma with_registrations_same db :
  Registration.with_registrations db (Db.event_registrations db) = db.
Proof. by destruct db. Qed.

Lemma update_where_nothing {A : Type} (p : A -> bool) (f : A -> A) (rows : list A) :
  existsb p rows = false -> Db.update_where p f rows = rows.
Proof.
  induction rows as [| x rows IH]; [reflexivity |].
  simpl. intros [Hx Hrows]%orb_false_elim. rewrite Hx. f_equal. by apply IH.
Qed.

Lemma filter_none {A : Type} (p : A -> bool) (rows : list A) :
  existsb p rows = false -> List.filter p rows = [].
Proof.
  induction rows as [| x rows IH]; [reflexivity |].
  simpl. intros [Hx Hrows]%orb_false_elim. rewrite Hx. by apply IH.
Qed.

Lemma filter_some {A : Type} (p : A -> bool) (rows : list A) :
  existsb p rows = true -> length (List.filter p rows) <> 0%nat.
Proof.
  induction rows as [| x rows IH]; [discriminate |].
  simpl. destruct (p x); [discriminate | exact IH].
Qed.

Lemma set_status_pair (s : Db.Status) aid uid r :
  Registration.of_pair aid uid (Registration.set_status s r) = Registration.of_pair aid uid r.
Proof. reflexivity. Qed.

(** After the UPDATE of unregister no row of the pair is registered. *)
Lemma cancel_clears aid uid regs :
  existsb (Registration.active_pair aid uid)
    (Db.update_where (Registration.active_pair aid uid)
       (Registration.set_status Db.cancelled) regs) = false.
Proof.
  induction regs as [| r regs IH]; [reflexivity |].
  simpl. rewrite IH, orb_false_r.
  destruct (Registration.active_pair aid uid r) eqn:Hr; [| exact Hr].
  unfold Registration.active_pair. rewrite set_status_pair. simpl. apply andb_false_r.
Qed.

(** Rows of other pairs are not touched by that UPDATE. *)
Lemma cancel_other_pairs aid uid regs :
  List.filter (fun r => negb (Registration.of_pair aid uid r))
    (Db.update_where (Registration.active_pair aid uid)
       (Registration.set_status Db.cancelled) regs)
  = List.filter (fun r => negb (Registration.of_pair aid uid r)) regs.
Proof.
  induction regs as [| r regs IH]; [reflexivity |].
  unfold Db.update_where in *. cbn [map List.filter].
  destruct (Registration.active_pair aid uid r) eqn:Ha.
  - apply andb_prop in Ha as [Hp _].
    rewrite set_status_pair, Hp. exact IH.
  - by rewrite IH.
Qed.

(** The status query answers [false] when no row of the pair is registered. *)
Lemma find_pair_inactive aid uid regs :
  existsb (Registration.active_pair aid uid) regs = false ->
  match find (Registration.of_pair aid uid) regs with
  | Some r => Db.is_registered (Db.r_status r)
  | None => false
  end = false.
Proof.
  induction regs as [| r regs IH]; [reflexivity |].
  simpl. intros [Hr Hregs]%orb_false_elim.
  destruct (Registration.of_pair aid uid r) eqn:Hp; [| by apply IH].
  unfold Registration.active_pair in Hr. by rewrite Hp in Hr.
Qed.

End RegistrationTable.

(** C6. [unregister] answers RegistrationNotFound, changing nothing, when the
    pair has no row with status registered (be it that no row exists or that
    the row is already cancelled); otherwise it answers with success and the
    row of the pair is cancelled, nothing but the status of rows of that pair
    being written. A second call for the same pair answers
    RegistrationNotFound and changes nothing further. *)
Theorem unregister_contract (aid : Z) (userEmail : string) (db : Db.t) (u : Db.user) :
  Db.findUserByEmail userEmail (Db.users db) = Some u ->
  let active := existsb (Registration.active_pair aid (Db.u_id u)) (Db.event_registrations db) in
  let after := snd (Registration.unregister aid userEmail db) in
  (active = false ->
     Registration.unregister aid userEmail db = (Registration.RegistrationNotFound, db))
  /\ (active = true ->
        fst (Registration.unregister aid userEmail db) = Registration.Cancelled
        /\ existsb (Registration.active_pair aid (Db.u_id u)) (Db.event_registrations after) = false
        /\ Registration.registration_status aid userEmail after = false
        /\ map (Registration.set_status Db.cancelled) (Db.event_registrations after)
           = map (Registration.set_status Db.cancelled) (Db.event_registrations db)
        /\ List.filter (fun r => negb (Registration.of_pair aid (Db.u_id u) r))
             (Db.event_registrations after)
           = List.filter (fun r => negb (Registration.of_pair aid (Db.u_id u) r))
               (Db.event_registrations db)
        /\ Db.users after = Db.users db
        /\ Db.announcements after = Db.announcements db)
  /\ Registration.unregister aid userEmail after = (Registration.RegistrationNotFound, after).
Proof.
  intros Hu active after.
  assert (Hafter : after = Registration.with_registrations db
            (Db.update_where (Registration.active_pair aid (Db.u_id u))
               (Registration.set_status Db.cancelled) (Db.event_registrations db))).
  { subst after. unfold Registration.unregister. rewrite Hu.
    by destruct (Nat.eqb _ 0). }
  assert (Hclear : existsb (Registration.active_pair aid (Db.u_id u))
                     (Db.event_registrations after) = false).
  { rewrite Hafter. simpl. apply cancel_clears. }
  assert (Hnone : forall d, Db.findUserByEmail userEmail (Db.users d) = Some u ->
            existsb (Registration.active_pair aid (Db.u_id u)) (Db.event_registrations d) = false ->
            Registration.unregister aid userEmail d = (Registration.RegistrationNotFound, d)).
  { intros d Hd Hno. unfold Registration.unregister. rewrite Hd.
    rewrite (filter_none _ _ Hno), (update_where_nothing _ _ _ Hno). simpl.
    by rewrite with_registrations_same. }
  split; [| split].
  - intros Hno. by apply Hnone.
  - intros Hyes. split; [| split; [exact Hclear | split; [| split; [| split]]]].
    + unfold Registration.unregister. rewrite Hu.
      destruct (Nat.eqb _ 0) eqn:Hz; [| reflexivity].
      apply Nat.eqb_eq in Hz. by apply filter_some in Hyes.
    + unfold Registration.registration_status.
      assert (Db.users after = Db.users db) as -> by (by rewrite Hafter).
      rewrite Hu. by apply find_pair_inactive.
    + rewrite Hafter. simpl. by apply update_where_proj.
    + rewrite Hafter. simpl. apply cancel_other_pairs.
    + by rewrite Hafter.
  - apply Hnone; [| exact Hclear]. by rewrite Hafter.
Qed.

Lemma unregister_contract_witness :
  let student := {| Db.u_id := 7; Db.u_email := "s@x.edu"; Db.u_password_hash := None;
                    Db.u_role := Some Db.student;
                    Db.u_name := Js.Null; Db.u_branch := Js.Null; Db.u_roll_number := Js.Null;
                    Db.u_club_id := Js.Null; Db.u_admin_requested := false |} in
  let row := {| Db.r_id := 1; Db.r_announcement_id := 4; Db.r_user_id := 7;
                Db.r_user_email := "s@x.edu"; Db.r_user_name := Js.Null;
                Db.r_roll_number := Js.Null; Db.r_branch := Js.Null;
                Db.r_status := Db.cancelled |} in
  let db := {| Db.users := [student]; Db.announcements := [];
               Db.event_registrations := [row] |} in
  Registration.unregister 4 "s@x.edu" db = (Registration.RegistrationNotFound, db).
Proof.
  intros student row db.
  destruct (unregister_contract 4 "s@x.edu" db student) as (Hnone & _ & _).
  - reflexivity.
  - apply Hnone. reflexivity.
Defined.

(** ** Event registration: the enrolment block *)

Section Enrolment.

Implicit Types (regs : list Db.registration) (r e : Db.registration) (db : Db.t).

Lemma find_app_none {A : Type} (p : A -> bool) (rows : list A) (x : A) :
  find p rows = None -> find p (rows ++ [x]) = if p x then Some x else None.
Proof.
  induction rows as [| y rows IH]; [reflexivity |].
  simpl. destruct (p y); [discriminate | exact IH].
Qed.

Lemma new_row_pair aid (u : Db.user) regs :
  Registration.of_pair aid (Db.u_id u) (Registration.new_row aid u regs) = true.
Proof. unfold Registration.of_pair. simpl. by rewrite !Z.eqb_refl. Qed.

(** Re-registering the row found for the pair makes it the registered row the
    status query finds. *)
Lemma find_pair_after_flip aid uid regs e :
  find (Registration.of_pair aid uid) regs = Some e ->
  find (Registration.of_pair aid uid)
    (Db.update_where (fun r => Db.r_id r =? Db.r_id e)
       (Registration.set_status Db.registered) regs)
  = Some (Registration.set_status Db.registered e).
Proof.
  induction regs as [| r regs IH]; [discriminate |].
  unfold Db.update_where in *. cbn [map find].
  destruct (Registration.of_pair aid uid r) eqn:Hp.
  - intros [= ->]. by rewrite Z.eqb_refl, set_status_pair, Hp.
  - intros He. destruct (Db.r_id r =? Db.r_id e).
    + rewrite set_status_pair, Hp. by apply IH.
    + rewrite Hp. by apply IH.
Qed.

(** A user who is not registered for the event passes the enrolment block,
    and is registered afterwards. *)
Lemma enroll_not_registered aid userEmail (u : Db.user) db :
  Db.findUserByEmail userEmail (Db.users db) = Some u ->
  Registration.registration_status aid userEmail db = false ->
  exists db', Registration.enroll aid u db = (Registration.Registered, db')
              /\ Registration.registration_status aid userEmail db' = true
              /\ Db.users db' = Db.users db
              /\ Db.announcements db' = Db.announcements db.
Proof.
  intros Hu. unfold Registration.registration_status, Registration.enroll. rewrite Hu.
  destruct (find (Registration.of_pair aid (Db.u_id u)) (Db.event_registrations db))
    as [e |] eqn:He.
  - intros ->. eexists. split; [reflexivity |]. simpl. rewrite Hu.
    by rewrite (find_pair_after_flip _ _ _ _ He).
  - intros _. eexists. split; [reflexivity |]. simpl. rewrite Hu.
    by rewrite (find_app_none _ _ _ He), new_row_pair.
Qed.

Lemma enroll_inv aid (u : Db.user) db db' :
  Registration.enroll aid u db = (Registration.Registered, db') ->
  (find (Registration.of_pair aid (Db.u_id u)) (Db.event_registrations db) = None
   /\ db' = Registration.with_registrations db
              (Db.event_registrations db
               ++ [Registration.new_row aid u (Db.event_registrations db)]))
  \/ (exists e, find (Registration.of_pair aid (Db.u_id u)) (Db.event_registrations db) = Some e
                /\ Db.r_status e = Db.cancelled
                /\ db' = Registration.with_registrations db
                           (Db.update_where (fun r => Db.r_id r =? Db.r_id e)
                              (Registration.set_status Db.registered)
                              (Db.event_registrations db))).
Proof.
  unfold Registration.enroll. intros H.
  destruct (find (Registration.of_pair aid (Db.u_id u)) (Db.event_registrations db))
    as [e |] eqn:He.
  - right. exists e. destruct (Db.r_status e) eqn:Hs; simpl in H; [discriminate |].
    injection H as <-. by repeat split.
  - left. injection H as <-. by split.
Qed.

End Enrolment.

(** ** Event registration: counting under the key constraints *)

Section Counting.

Implicit Types (regs : list Db.registration) (r e : Db.registration) (db : Db.t).

Lemma next_id_above (ids : list Z) (x : Z) : In x ids -> x < Db.next_id ids.
Proof.
  unfold Db.next_id. induction ids as [| y ids IH]; simpl; [tauto |].
  intros [-> | Hin]; [lia |]. specialize (IH Hin). lia.
Qed.

Lemma of_pair_key aid uid r :
  Registration.of_pair aid uid r = true <-> Registration.pair_key r = (aid, uid).
Proof.
  unfold Registration.of_pair, Registration.pair_key.
  rewrite andb_true_iff, !Z.eqb_eq. split; [intros [-> ->]; reflexivity | by intros [= -> ->]].
Qed.


Lemma count_insert aid regs r :
  Registration.counted aid r = true ->
  Registration.registered_count aid (regs ++ [r]) = Registration.registered_count aid regs + 1.
Proof.
  intros Hr. unfold Registration.registered_count.
  rewrite List.filter_app, List.length_app. simpl. rewrite Hr. simpl. lia.
Qed.

(** An UPDATE by primary key of a row that was not counted and is counted
    afterwards raises the count by exactly one. *)
Lemma count_flip aid regs e :
  NoDup (map Db.r_id regs) -> In e regs ->
  Registration.counted aid e = false ->
  Registration.counted aid (Registration.set_status Db.registered e) = true ->
  Registration.registered_count aid
    (Db.update_where (fun r => Db.r_id r =? Db.r_id e) (Registration.set_status Db.registered) regs)
  = Registration.registered_count aid regs + 1.
Proof.
  intros Hnd Hin Hbefore Hafter. unfold Registration.registered_count.
  enough (length (List.filter (Registration.counted aid)
            (Db.update_where (fun r => Db.r_id r =? Db.r_id e)
               (Registration.set_status Db.registered) regs))
          = S (length (List.filter (Registration.counted aid) regs))) as -> by lia.
  induction regs as [| r regs IH]; [destruct Hin |].
  simpl in Hnd. apply NoDup_cons in Hnd as [Hfresh Hnd].
  rewrite list_elem_of_In in Hfresh.
  cbn [Db.update_where map List.filter].
  destruct Hin as [-> | Hin].
  - rewrite Z.eqb_refl, Hafter, Hbefore. cbn [length]. f_equal. f_equal. f_equal.
    apply update_where_nothing. apply not_true_is_false. intros Hex.
    apply existsb_exists in Hex as (x & Hx & Heq). apply Z.eqb_eq in Heq.
    apply Hfresh. rewrite <- Heq. by apply in_map.
  - assert ((Db.r_id r =? Db.r_id e) = false) as ->.
    { apply Z.eqb_neq. intros Heq. apply Hfresh. rewrite Heq. by apply in_map. }
    specialize (IH Hnd Hin). unfold Db.update_where in IH.
    destruct (Registration.counted aid r); cbn [length]; by rewrite IH.
Qed.

(** The UPDATE of unregister lowers the count by the number of rows it
    rewrites. *)
Lemma count_cancel aid uid regs :
  (length (List.filter (Registration.counted aid)
             (Db.update_where (Registration.active_pair aid uid)
                (Registration.set_status Db.cancelled) regs))
   + length (List.filter (Registration.active_pair aid uid) regs)
   = length (List.filter (Registration.counted aid) regs))%nat.
Proof.
  induction regs as [| r regs IH]; [reflexivity |].
  unfold Db.update_where in *. cbn [map List.filter].
  destruct (Registration.active_pair aid uid r) eqn:Ha.
  - assert (Registration.counted aid r = true) as ->.
    { unfold Registration.active_pair, Registration.of_pair in Ha.
      unfold Registration.counted.
      apply andb_prop in Ha as [[Haid _]%andb_prop Hreg]. by rewrite Haid, Hreg. }
    assert (Registration.counted aid (Registration.set_status Db.cancelled r) = false) as ->.
    { unfold Registration.counted. simpl. apply andb_false_r. }
    cbn [length]. lia.
  - destruct (Registration.counted aid r); cbn [length]; lia.
Qed.

(** UNIQUE(announcement_id, user_id): at most one row per pair. *)
Lemma pair_unique aid uid regs :
  NoDup (map Registration.pair_key regs) ->
  (length (List.filter (Registration.active_pair aid uid) regs) <= 1)%nat.
Proof.
  induction regs as [| r regs IH]; [simpl; lia |].
  simpl. intros [Hfresh Hnd]%NoDup_cons. specialize (IH Hnd).
  rewrite list_elem_of_In in Hfresh.
  destruct (Registration.active_pair aid uid r) eqn:Ha; [| exact IH].
  rewrite filter_none; [simpl; lia |].
  apply not_true_is_false. intros Hex.
  apply existsb_exists in Hex as (x & Hx & Hax).
  apply andb_prop in Ha as [Hp _]. apply andb_prop in Hax as [Hpx _].
  apply of_pair_key in Hp, Hpx. apply Hfresh. rewrite Hp, <- Hpx. by apply in_map.
Qed.

Lemma flip_keeps_constraints (p : Db.registration -> bool) (s : Db.Status) regs :
  Registration.constraints_hold regs ->
  Registration.constraints_hold (Db.update_where p (Registration.set_status s) regs).
Proof.
  intros [Hid Hpair]. split.
  - by rewrite update_where_proj.
  - by rewrite update_where_proj.
Qed.

Lemma insert_keeps_constraints aid (u : Db.user) regs :
  find (Registration.of_pair aid (Db.u_id u)) regs = None ->
  Registration.constraints_hold regs ->
  Registration.constraints_hold (regs ++ [Registration.new_row aid u regs]).
Proof.
  intros Hnone [Hid Hpair]. split.
  - rewrite map_app. simpl. apply NoDup_app. split; [exact Hid |]. split.
    + intros x Hx ->%list_elem_of_singleton.
      apply list_elem_of_In, next_id_above in Hx. lia.
    + apply NoDup_singleton.
  - rewrite map_app. simpl. apply NoDup_app. split; [exact Hpair |]. split.
    + intros k Hk ->%list_elem_of_singleton. apply list_elem_of_In in Hk.
      apply in_map_iff in Hk as (x & Hkey & Hx).
      pose proof (find_none _ _ Hnone x Hx) as Hfalse.
      assert (Registration.of_pair aid (Db.u_id u) x = true); [| congruence].
      apply of_pair_key. exact Hkey.
    + apply NoDup_singleton.
Qed.

End Counting.

(** ** POST /announcements/:announcementId/register *)

Section RegisterRoute.

Implicit Types (regs : list Db.registration) (db : Db.t) (a : Db.announcement) (u : Db.user).

Lemma enroll_count aid u db db' :
  Registration.constraints_hold (Db.event_registrations db) ->
  Registration.enroll aid u db = (Registration.Registered, db') ->
  Registration.registered_count aid (Db.event_registrations db')
  = Registration.registered_count aid (Db.event_registrations db) + 1
  /\ Registration.constraints_hold (Db.event_registrations db')
  /\ Db.users db' = Db.users db
  /\ Db.announcements db' = Db.announcements db.
Proof.
  intros Hc Henroll.
  destruct (enroll_inv _ _ _ _ Henroll) as [[Hnone ->] | (e & He & Hs & ->)]; simpl.
  - split; [| split; [by apply insert_keeps_constraints | by split]].
    apply count_insert. unfold Registration.counted. simpl. by rewrite Z.eqb_refl.
  - split; [| split; [by apply flip_keeps_constraints | by split]].
    apply find_some in He as [Hin Hp].
    apply andb_prop in Hp as [Haid _].
    apply count_flip; [exact (proj1 Hc) | exact Hin | |].
    + unfold Registration.counted. rewrite Hs. apply andb_false_r.
    + unfold Registration.counted. simpl. by rewrite Haid.
Qed.


(** At or above the limit every call of a known user before the deadline is
    answered [EventFull], and nothing is written. *)
Lemma register_full now aid userEmail db a m u :
  Db.findUserByEmail userEmail (Db.users db) = Some u ->
  Registration.find_announcement aid (Db.announcements db) = Some a ->
  Js.truthy (Db.a_registration_enabled a) = true ->
  Registration.past_deadline now a = false ->
  Db.a_max_registrations a = Some m -> m <> 0 ->
  m <= Registration.registered_count aid (Db.event_registrations db) ->
  Registration.register now aid userEmail db = (Registration.EventFull, db).
Proof.
  intros Hu Ha Hen Hdl Hm Hm0 Hfull. unfold Registration.register.
  rewrite Hu, Ha, Hen, Hdl, Hm. simpl.
  assert ((m =? 0) = false) as -> by (by apply Z.eqb_neq). simpl.
  rewrite Z.geb_leb. by apply Z.leb_le in Hfull as ->.
Qed.

(** Without a limit (NULL, or 0, which the test [if (max_registrations)]
    does not tell from NULL) the call is answered [Registered] and no
    statement touches the registrations table. *)
Lemma register_unlimited now aid userEmail db a u :
  Db.findUserByEmail userEmail (Db.users db) = Some u ->
  Registration.find_announcement aid (Db.announcements db) = Some a ->
  Js.truthy (Db.a_registration_enabled a) = true ->
  Registration.past_deadline now a = false ->
  Js.truthy (Js.of_int (Db.a_max_registrations a)) = false ->
  Registration.register now aid userEmail db = (Registration.Registered, db).
Proof.
  intros Hu Ha Hen Hdl Hmax. unfold Registration.register.
  rewrite Hu, Ha, Hen, Hdl. simpl.
  destruct (Db.a_max_registrations a) as [m |]; [| reflexivity].
  simpl in Hmax. by rewrite Hmax.
Qed.

(** With a limit that is not reached, a known user who is not registered is
    enrolled: the call is answered [Registered] and the status query answers
    [true] afterwards. *)
Lemma register_limited now aid userEmail db a m u :
  Db.findUserByEmail userEmail (Db.users db) = Some u ->
  Registration.find_announcement aid (Db.announcements db) = Some a ->
  Js.truthy (Db.a_registration_enabled a) = true ->
  Registration.past_deadline now a = false ->
  Db.a_max_registrations a = Some m -> m <> 0 ->
  Registration.registered_count aid (Db.event_registrations db) < m ->
  Registration.registration_status aid userEmail db = false ->
  exists db', Registration.register now aid userEmail db = (Registration.Registered, db')
              /\ Registration.enroll aid u db = (Registration.Registered, db')
              /\ Registration.registration_status aid userEmail db' = true.
Proof.
  intros Hu Ha Hen Hdl Hm Hm0 Hroom Hnot. unfold Registration.register.
  rewrite Hu, Ha, Hen, Hdl, Hm. simpl.
  assert ((m =? 0) = false) as -> by (by apply Z.eqb_neq). simpl.
  assert ((Registration.registered_count aid (Db.event_registrations db) >=? m) = false) as ->.
  { rewrite Z.geb_leb. by apply Z.leb_gt. }
  destruct (enroll_not_registered aid userEmail u db Hu Hnot) as (db' & He & Hst & _).
  exists db'. by repeat split.
Qed.

(** In the case the spec singles out, no row for the pair, the limited
    event gets one new row with status registered. *)
Lemma register_limited_inserts now aid userEmail db a m u :
  Db.findUserByEmail userEmail (Db.users db) = Some u ->
  Registration.find_announcement aid (Db.announcements db) = Some a ->
  Js.truthy (Db.a_registration_enabled a) = true ->
  Registration.past_deadline now a = false ->
  Db.a_max_registrations a = Some m -> m <> 0 ->
  Registration.registered_count aid (Db.event_registrations db) < m ->
  find (Registration.of_pair aid (Db.u_id u)) (Db.event_registrations db) = None ->
  Registration.register now aid userEmail db
  = (Registration.Registered,
     Registration.with_registrations db
       (Db.event_registrations db ++ [Registration.new_row aid u (Db.event_registrations db)])).
Proof.
  intros Hu Ha Hen Hdl Hm Hm0 Hroom Hnone. unfold Registration.register.
  rewrite Hu, Ha, Hen, Hdl, Hm. simpl.
  assert ((m =? 0) = false) as -> by (by apply Z.eqb_neq). simpl.
  assert ((Registration.registered_count aid (Db.event_registrations db) >=? m) = false) as ->.
  { rewrite Z.geb_leb. by apply Z.leb_gt. }
  unfold Registration.enroll. by rewrite Hnone.
Qed.

End RegisterRoute.

(** C1 (not met by the handler). On an event without a limit
    ([max_registrations] NULL) the enrolment block is skipped altogether: for
    a known student without any row, an enabled event and no deadline, the
    call is answered 200 "Successfully registered" but no row is inserted,
    and the registration-status query still answers [registered: false]. *)
Theorem register_without_limit_inserts_nothing :
  let student := {| Db.u_id := 7; Db.u_email := "s@x.edu"; Db.u_password_hash := None;
                    Db.u_role := Some Db.student;
                    Db.u_name := Js.Str "Sam"; Db.u_branch := Js.Null;
                    Db.u_roll_number := Js.Null;
                    Db.u_club_id := Js.Null; Db.u_admin_requested := false |} in
  let event := {| Db.a_id := 4; Db.a_registration_enabled := Js.Num 1;
                  Db.a_registration_deadline := None; Db.a_max_registrations := None |} in
  let db := {| Db.users := [student]; Db.announcements := [event];
               Db.event_registrations := [] |} in
  Registration.register 1000 4 "s@x.edu" db = (Registration.Registered, db)
  /\ Registration.status (fst (Registration.register 1000 4 "s@x.edu" db)) = 200
  /\ Db.event_registrations (snd (Registration.register 1000 4 "s@x.edu" db)) = []
  /\ Registration.registration_status 4 "s@x.edu"
       (snd (Registration.register 1000 4 "s@x.edu" db)) = false.
Proof. repeat split; reflexivity. Qed.

(** ** GET /announcements/:announcementId/registration-info *)

(** What the projection computes: the count of registered rows, [is_full]
    and [deadline_passed] derived from it and from [now], and an enabled
    field that is [true] exactly when the stored flag is the number 1. *)
Lemma registration_info_projection (now aid : Z) (db : Db.t) (a : Db.announcement) :
  Registration.find_announcement aid (Db.announcements db) = Some a ->
  exists i, Registration.registration_info now aid db = Some i
    /\ Registration.current_count i
       = Z.of_nat (length (List.filter
                             (fun r => (Db.r_announcement_id r =? aid)
                                       && Db.is_registered (Db.r_status r))
                             (Db.event_registrations db)))
    /\ (Js.truthy (Registration.is_full i) = true <->
        exists m, Db.a_max_registrations a = Some m /\ m <> 0
                  /\ m <= Registration.current_count i)
    /\ (Js.truthy (Registration.deadline_passed i) = true <->
        exists d, Db.a_registration_deadline a = Some d /\ d < now)
    /\ (Registration.registration_enabled i = true <-> Db.a_registration_enabled a = Js.Num 1)
    /\ Registration.max_registrations i = Db.a_max_registrations a
    /\ Registration.deadline i = Db.a_registration_deadline a.
Proof.
  intros Ha. unfold Registration.registration_info. rewrite Ha.
  eexists. split; [reflexivity |]. simpl.
  split; [reflexivity |]. split; [| split; [| split; [apply strict_eq_true | by split]]].
  - destruct (Db.a_max_registrations a) as [m |]; simpl.
    + unfold Js.and_. simpl. destruct (m =? 0) eqn:Hm0; simpl.
      * rewrite Hm0. simpl. apply Z.eqb_eq in Hm0. split; [discriminate |].
        intros (m' & [= <-] & Hne & _). contradiction.
      * apply Z.eqb_neq in Hm0. rewrite Z.geb_leb, Z.leb_le. split.
        -- intros Hle. exists m. by repeat split.
        -- by intros (m' & [= <-] & _ & Hle).
    + split; [discriminate |]. by intros (m & [=] & _).
  - destruct (Db.a_registration_deadline a) as [d |]; simpl.
    + rewrite Z.ltb_lt. split; [intros Hlt; by exists d |]. by intros (d' & [= <-] & Hlt).
    + split; [discriminate |]. by intros (d & [=] & _).
Qed.

(** C4 (not met by the handler). The enabled field is computed as
    [registration_enabled === 1]: for an announcement whose flag is the
    boolean [true], as a BOOLEAN column holds it, the projection reports
    [registration_enabled: false] although register, which tests the same
    column for truthiness, accepts the registration. *)
Theorem registration_info_misreports_boolean_flag :
  let student := {| Db.u_id := 7; Db.u_email := "s@x.edu"; Db.u_password_hash := None;
                    Db.u_role := Some Db.student;
                    Db.u_name := Js.Str "Sam"; Db.u_branch := Js.Null;
                    Db.u_roll_number := Js.Null;
                    Db.u_club_id := Js.Null; Db.u_admin_requested := false |} in
  let event := {| Db.a_id := 4; Db.a_registration_enabled := Js.Bool true;
                  Db.a_registration_deadline := None; Db.a_max_registrations := Some 5 |} in
  let db := {| Db.users := [student]; Db.announcements := [event];
               Db.event_registrations := [] |} in
  Js.truthy (Db.a_registration_enabled event) = true
  /\ option_map Registration.registration_enabled (Registration.registration_info 1000 4 db)
     = Some false
  /\ fst (Registration.register 1000 4 "s@x.edu" db) = Registration.Registered
  /\ Registration.registration_status 4 "s@x.edu"
       (snd (Registration.register 1000 4 "s@x.edu" db)) = true.
Proof. repeat split; reflexivity. Qed.

(** ** The registration deadline *)

(** The deadline on an event with a limit: with room below the limit, a
    known user who is not registered is enrolled by a call at any time
    strictly before the deadline (the call is answered [Registered], it is
    the enrolment of the user, and the status query answers [true]
    afterwards); a call at any time strictly after the deadline is answered
    [DeadlinePassed] and writes nothing. *)
Lemma register_deadline_with_limit
    (aid d m : Z) (userEmail : string) (db : Db.t) (u : Db.user) (a : Db.announcement) :
  Db.findUserByEmail userEmail (Db.users db) = Some u ->
  Registration.find_announcement aid (Db.announcements db) = Some a ->
  Js.truthy (Db.a_registration_enabled a) = true ->
  Db.a_registration_deadline a = Some d ->
  Db.a_max_registrations a = Some m -> m <> 0 ->
  Registration.registered_count aid (Db.event_registrations db) < m ->
  Registration.registration_status aid userEmail db = false ->
  (forall now, now < d ->
     exists db', Registration.register now aid userEmail db = (Registration.Registered, db')
                 /\ Registration.enroll aid u db = (Registration.Registered, db')
                 /\ Registration.registration_status aid userEmail db' = true)
  /\ (forall now, d < now ->
        Registration.register now aid userEmail db = (Registration.DeadlinePassed, db)).
Proof.
  intros Hu Ha Hen Hd Hm Hm0 Hroom Hnot. split.
  - intros now Hlt. apply (register_limited now aid userEmail db a m u); try assumption.
    unfold Registration.past_deadline. rewrite Hd. apply Z.ltb_ge. lia.
  - intros now Hlt. unfold Registration.register, Registration.past_deadline.
    rewrite Hu, Ha, Hen, Hd. simpl. by apply Z.ltb_lt in Hlt as ->.
Qed.

(** C5 (not met by the handler). On an event with a deadline and without a
    limit ([max_registrations] NULL), a call one second before the deadline
    by a known student without any row is answered 200 "Successfully
    registered", yet no row is inserted and the registration-status query
    still answers [registered: false]: the enrolment block is skipped, as
    in C1. One second after the deadline the call is answered
    DeadlinePassed. Times are in milliseconds. *)
Theorem register_before_deadline_without_limit_inserts_nothing :
  let student := {| Db.u_id := 7; Db.u_email := "s@x.edu"; Db.u_password_hash := None;
                    Db.u_role := Some Db.student;
                    Db.u_name := Js.Str "Sam"; Db.u_branch := Js.Null;
                    Db.u_roll_number := Js.Null;
                    Db.u_club_id := Js.Null; Db.u_admin_requested := false |} in
  let deadline := 500000 in
  let event := {| Db.a_id := 4; Db.a_registration_enabled := Js.Num 1;
                  Db.a_registration_deadline := Some deadline;
                  Db.a_max_registrations := None |} in
  let db := {| Db.users := [student]; Db.announcements := [event];
               Db.event_registrations := [] |} in
  let early := Registration.register (deadline - 1000) 4 "s@x.edu" db in
  early = (Registration.Registered, db)
  /\ Registration.status (fst early) = 200
  /\ Db.event_registrations (snd early) = []
  /\ Registration.registration_status 4 "s@x.edu" (snd early) = false
  /\ Registration.register (deadline + 1000) 4 "s@x.edu" db
     = (Registration.DeadlinePassed, db).
Proof. repeat split; reflexivity. Qed.

(** ** Capacity *)

Section Capacity.

Implicit Types (db : Db.t) (a : Db.announcement) (calls : list (Z * string)).

(** A successful unregister takes exactly one registered row off the count. *)
Lemma unregister_count aid userEmail db db' :
  Registration.constraints_hold (Db.event_registrations db) ->
  Registration.unregister aid userEmail db = (Registration.Cancelled, db') ->
  Registration.registered_count aid (Db.event_registrations db')
  = Registration.registered_count aid (Db.event_registrations db) - 1
  /\ Registration.constraints_hold (Db.event_registrations db')
  /\ Db.users db' = Db.users db
  /\ Db.announcements db' = Db.announcements db.
Proof.
  intros Hc. unfold Registration.unregister.
  destruct (Db.findUserByEmail userEmail (Db.users db)) as [u |]; [| discriminate].
  destruct (Nat.eqb _ 0) eqn:Hz; [discriminate |]. intros [= <-]. simpl.
  split; [| split; [by apply flip_keeps_constraints | by split]].
  apply Nat.eqb_neq in Hz.
  pose proof (pair_unique aid (Db.u_id u) _ (proj2 Hc)) as Hle.
  pose proof (count_cancel aid (Db.u_id u) (Db.event_registrations db)) as Hsum.
  unfold Registration.registered_count. lia.
Qed.


End Capacity.




(* ================================================================== *)
(** * Further properties of the code *)
(* ================================================================== *)

(** ** The OTP ledger: replacement, guessing, isolation *)

(** X1. A newer code replaces the pending one of the same (case-folded)
    email: the ledger holds one record for it, the older code is refused at
    every time, and the newer one is accepted up to its own expiry. *)
Theorem storeCode_replaces_pending_code
    (ttl t1 t2 : Z) (e1 e2 c1 c2 : string) (store : gmap string Otp.rec) :
  Js.toLowerCase e1 = Js.toLowerCase e2 ->
  c1 <> c2 ->
  let pending := Otp.storeCode ttl t2 e2 c2 (Otp.storeCode ttl t1 e1 c1 store) in
  pending = Otp.storeCode ttl t2 e2 c2 store
  /\ (forall now, fst (Otp.validateCode now e1 (Js.Str c1) pending) = false)
  /\ (forall now, now <= t2 + ttl ->
        fst (Otp.validateCode now e1 (Js.Str c2) pending) = true).
Proof.
  intros Hkey Hne pending.
  assert (Hsame : pending = Otp.storeCode ttl t2 e2 c2 store).
  { subst pending. unfold Otp.storeCode. rewrite Hkey. apply insert_insert_eq. }
  set (r := {| Otp.code := c2; Otp.expiresAt := t2 + ttl |}).
  assert (Hp : pending !! Js.toLowerCase e1 = Some r).
  { rewrite Hsame, Hkey. apply lookup_insert_eq. }
  split; [exact Hsame |]. split.
  - intros now. destruct (Z.lt_ge_cases (Otp.expiresAt r) now) as [Hexp | Hlive].
    + by rewrite (validateCode_expired now e1 pending _ r Hp Hexp).
    + rewrite (validateCode_mismatch now e1 pending _ r Hp Hlive); [reflexivity |].
      simpl. congruence.
  - intros now Hlive.
    change (Js.Str c2) with (Js.Str (Otp.code r)).
    by rewrite (validateCode_match now e1 pending r Hp Hlive).
Qed.

Lemma storeCode_replaces_pending_code_witness :
  let pending := Otp.storeCode 300000 2000 "a@x.edu" "222222"
                   (Otp.storeCode 300000 1000 "A@X.edu" "111111" ∅) in
  fst (Otp.validateCode 3000 "A@X.edu" (Js.Str "111111") pending) = false
  /\ fst (Otp.validateCode 3000 "A@X.edu" (Js.Str "222222") pending) = true.
Proof.
  intros pending.
  destruct (storeCode_replaces_pending_code 300000 1000 2000 "A@X.edu" "a@x.edu"
              "111111" "222222" ∅) as (_ & Hold & Hnew).
  - reflexivity.
  - discriminate.
  - split; [apply Hold | apply Hnew; lia].
Defined.

(** X2. Wrong guesses do not use up a code: after any series of attempts
    with other codes, none made after the expiry, the ledger is unchanged
    and the right code is still accepted. The handler keeps no attempt
    counter. *)
Theorem wrong_guesses_keep_code
    (email : string) (store : gmap string Otp.rec) (r : Otp.rec)
    (guesses : list (Z * Js.value)) :
  store !! Js.toLowerCase email = Some r ->
  Forall (fun g => fst g <= Otp.expiresAt r /\ snd g <> Js.Str (Otp.code r)) guesses ->
  let after :=
    fold_left (fun st g => snd (Otp.validateCode (fst g) email (snd g) st)) guesses store in
  Forall (fun g => forall st, st !! Js.toLowerCase email = Some r ->
                              fst (Otp.validateCode (fst g) email (snd g) st) = false) guesses
  /\ after = store
  /\ (forall now, now <= Otp.expiresAt r ->
        fst (Otp.validateCode now email (Js.Str (Otp.code r)) after) = true).
Proof.
  intros Hr Hguesses after.
  assert (Hafter : after = store).
  { subst after. induction Hguesses as [| [t g] gs [Hlive Hne] _ IH]; [reflexivity |].
    simpl in *. by rewrite (validateCode_mismatch t email store g r Hr Hlive Hne). }
  split; [| split; [exact Hafter |]].
  - eapply Forall_impl; [exact Hguesses |].
    intros [t g] [Hlive Hne] st Hst. simpl in *.
    by rewrite (validateCode_mismatch t email st g r Hst Hlive Hne).
  - intros now Hlive. rewrite Hafter.
    by rewrite (validateCode_match now email store r Hr Hlive).
Qed.

Lemma wrong_guesses_keep_code_witness :
  let store : gmap string Otp.rec :=
    {[ "a@x.edu"%string := {| Otp.code := "123456"; Otp.expiresAt := 300000 |} ]} in
  let after :=
    fold_left (fun st g => snd (Otp.validateCode (fst g) "a@x.edu" (snd g) st))
      [(1000, Js.Str "000000"); (2000, Js.Num 123456)] store in
  fst (Otp.validateCode 3000 "a@x.edu" (Js.Str "123456") after) = true.
Proof.
  intros store after.
  destruct (wrong_guesses_keep_code "a@x.edu" store
              {| Otp.code := "123456"; Otp.expiresAt := 300000 |}
              [(1000, Js.Str "000000"); (2000, Js.Num 123456)]) as (_ & _ & Hok).
  - reflexivity.
  - repeat constructor; simpl; try lia; discriminate.
  - apply (Hok 3000). simpl. lia.
Defined.

(** X3. Codes of different emails do not interfere: storing or validating a
    code for one email, and a whole /auth/send-code or /auth/verify request
    for it, leave the pending record of every other key as it was. *)
Theorem otp_records_are_independent
    (ttl : Z) (fallback : bool) (bcrypt_hash : string -> string)
    (now : Z) (e other code0 : string) (c : Js.value) (delivered : bool)
    (b : Auth.verify_body) (st : Auth.state) :
  other <> Js.toLowerCase e ->
  Auth.email b = Js.Str e ->
  Otp.storeCode ttl now e code0 (Auth.codeStore st) !! other = Auth.codeStore st !! other
  /\ snd (Otp.validateCode now e c (Auth.codeStore st)) !! other = Auth.codeStore st !! other
  /\ snd (Auth.post_send_code ttl fallback now (Js.Str e) code0 delivered (Auth.codeStore st))
       !! other = Auth.codeStore st !! other
  /\ Auth.codeStore (snd (Auth.post_verify bcrypt_hash now b st)) !! other
     = Auth.codeStore st !! other.
Proof.
  intros Hother Hemail.
  assert (Hstore : Otp.storeCode ttl now e code0 (Auth.codeStore st) !! other
                   = Auth.codeStore st !! other).
  { unfold Otp.storeCode. by apply lookup_insert_ne. }
  assert (Hvalid : forall c', snd (Otp.validateCode now e c' (Auth.codeStore st)) !! other
                              = Auth.codeStore st !! other).
  { intros c'. unfold Otp.validateCode.
    destruct (Auth.codeStore st !! Js.toLowerCase e) as [r |]; [| reflexivity].
    destruct (Otp.expiresAt r <? now); simpl; [by apply lookup_delete_ne |].
    destruct (negb _); simpl; [reflexivity | by apply lookup_delete_ne]. }
  split; [exact Hstore |]. split; [apply Hvalid |]. split.
  - unfold Auth.post_send_code.
    destruct (negb (Js.truthy (Js.Str e))); [reflexivity |].
    by destruct delivered, fallback.
  - unfold Auth.post_verify. rewrite Hemail.
    destruct (negb (Js.truthy (Js.Str e)) || negb (Js.truthy (Auth.code b))); [reflexivity |].
    specialize (Hvalid (Auth.code b)).
    destruct (Otp.validateCode now e (Auth.code b) (Auth.codeStore st)) as [ok store'].
    simpl in Hvalid. destruct ok; simpl; [| exact Hvalid].
    by destruct (Auth.verify_accepted bcrypt_hash (Js.toLowerCase e) b (Auth.users st)).
Qed.

Lemma otp_records_are_independent_witness :
  let st := {| Auth.codeStore :=
                 {[ "b@x.edu"%string := {| Otp.code := "654321"; Otp.expiresAt := 300000 |} ]};
               Auth.users := [] |} in
  snd (Otp.validateCode 1000 "A@x.edu" (Js.Str "654321") (Auth.codeStore st))
    !! "b@x.edu"%string
  = Some {| Otp.code := "654321"; Otp.expiresAt := 300000 |}.
Proof.
  intros st.
  destruct (otp_records_are_independent 300000 false (fun p => p) 1000 "A@x.edu" "b@x.edu"
              "111111" (Js.Str "654321") false
              {| Auth.email := Js.Str "A@x.edu"; Auth.code := Js.Str "654321";
                 Auth.password := Js.Undefined; Auth.confirm := Js.Undefined |} st)
    as (_ & Hvalid & _).
  - discriminate.
  - reflexivity.
  - rewrite Hvalid. reflexivity.
Defined.

(** ** Accounts: creation, password reset, login *)

Section UserTable.

Implicit Types (us : list Db.user) (u : Db.user).

Lemma find_none_existsb {A : Type} (p : A -> bool) (rows : list A) :
  find p rows = None -> existsb p rows = false.
Proof.
  induction rows as [| x rows IH]; [reflexivity |].
  simpl. destruct (p x); [discriminate | exact IH].
Qed.

Lemma find_some_has_email key us u :
  find (Db.has_email key) us = Some u -> Db.u_email u = key.
Proof. intros [_ H]%find_some. by apply String.eqb_eq in H. Qed.

Lemma createUser_unknown (e : string) (h : option string) us :
  Db.findUserByEmail e us = None ->
  Db.createUser e h None us = Some (us ++ [Login.fresh_user (Js.toLowerCase e) h us]).
Proof.
  unfold Db.findUserByEmail, Db.createUser. intros Hnone.
  by rewrite (find_none_existsb _ _ Hnone).
Qed.

Lemma findUserByEmail_created (e e' : string) (h : option string) us :
  Js.toLowerCase e' = Js.toLowerCase e ->
  Db.findUserByEmail e us = None ->
  Db.findUserByEmail e' (us ++ [Login.fresh_user (Js.toLowerCase e) h us])
  = Some (Login.fresh_user (Js.toLowerCase e) h us).
Proof.
  unfold Db.findUserByEmail. intros -> Hnone.
  rewrite (find_app_none _ _ _ Hnone). unfold Db.has_email. simpl.
  by rewrite String.eqb_refl.
Qed.

(** What the accepted branch of /auth/verify does to the users table: it
    rewrites the password of the known account, or appends the new one. *)
Lemma verify_accepted_cases (bcrypt_hash : string -> string) (e : string)
    (b : Auth.verify_body) us :
  let out := Auth.verify_accepted bcrypt_hash (Js.toLowerCase e) b us in
  fst out <> Auth.VerifyServerError
  /\ (snd out = us
      \/ (exists p, snd out = Db.updatePassword (Js.toLowerCase e) (bcrypt_hash p) us)
      \/ (Db.findUserByEmail e us = None
          /\ exists h, snd out = us ++ [Login.fresh_user (Js.toLowerCase e) h us])).
Proof.
  unfold Auth.verify_accepted. rewrite findUserByEmail_lower.
  assert (Hnew : forall h, Db.findUserByEmail e us = None ->
            Db.createUser (Js.toLowerCase e) h None us
            = Some (us ++ [Login.fresh_user (Js.toLowerCase e) h us])).
  { intros h Hu. rewrite <- findUserByEmail_lower in Hu.
    by rewrite (createUser_unknown _ h _ Hu), toLowerCase_idem. }
  destruct (Auth.password b) as [| | x | n | p];
    try (simpl; split; [discriminate | by left]).
  - destruct (Db.findUserByEmail e us) as [u |] eqn:Hu.
    + simpl. split; [discriminate | by left].
    + rewrite (Hnew None eq_refl). simpl.
      split; [discriminate |]. right. right. split; [reflexivity | by eexists].
  - destruct (Z.of_nat (String.length p) <? 6); [simpl; split; [discriminate | by left] |].
    destruct (negb (Js.strict_eq (Js.Str p) (Auth.confirm b)));
      [simpl; split; [discriminate | by left] |].
    destruct (Db.findUserByEmail e us) as [u |] eqn:Hu.
    + simpl. split; [discriminate |]. right. left. by eexists.
    + rewrite (Hnew (Some (bcrypt_hash p)) eq_refl). simpl.
      split; [discriminate |]. right. right. split; [reflexivity | by eexists].
Qed.

End UserTable.

(** X4. /auth/verify keeps the users table well-formed: emails stay unique
    (the handler never runs into the UNIQUE(email) constraint, so a request
    with a string email is never answered 500), no row is removed, and at
    most one row, for the lower-cased email, is added. *)
Theorem verify_keeps_emails_unique
    (bcrypt_hash : string -> string) (now : Z) (b : Auth.verify_body) (st : Auth.state) :
  NoDup (map Db.u_email (Auth.users st)) ->
  let out := Auth.post_verify bcrypt_hash now b st in
  NoDup (map Db.u_email (Auth.users (snd out)))
  /\ (forall e, Auth.email b = Js.Str e -> fst out <> Auth.VerifyServerError)
  /\ (map Db.u_email (Auth.users (snd out)) = map Db.u_email (Auth.users st)
      \/ exists e, Auth.email b = Js.Str e
                   /\ map Db.u_email (Auth.users (snd out))
                      = map Db.u_email (Auth.users st) ++ [Js.toLowerCase e]).
Proof.
  intros Hnd out. subst out. unfold Auth.post_verify.
  destruct (negb (Js.truthy (Auth.email b)) || negb (Js.truthy (Auth.code b))).
  { simpl. split; [exact Hnd |]. split; [discriminate | by left]. }
  destruct (Auth.email b) as [| | x | n | e];
    try (simpl; split; [exact Hnd |]; split; [discriminate | by left]).
  destruct (Otp.validateCode now e (Auth.code b) (Auth.codeStore st)) as [ok store'].
  destruct ok; simpl; [| split; [exact Hnd |]; split; [discriminate | by left]].
  destruct (verify_accepted_cases bcrypt_hash e b (Auth.users st)) as [Hresp Hcases].
  destruct (Auth.verify_accepted bcrypt_hash (Js.toLowerCase e) b (Auth.users st))
    as [resp us'].
  simpl in *. split; [| split; [by intros e' _ |]].
  - destruct Hcases as [-> | [[p ->] | [Hnone [h ->]]]]; [exact Hnd | |].
    + unfold Db.updatePassword. by rewrite update_where_proj.
    + rewrite map_app. simpl. apply NoDup_app. split; [exact Hnd |].
      split; [| apply NoDup_singleton].
      intros k Hk ->%list_elem_of_singleton. apply list_elem_of_In in Hk.
      apply in_map_iff in Hk as (u & Hemail & Hu).
      pose proof (find_none _ _ Hnone u Hu) as Hfalse.
      unfold Db.has_email in Hfalse. by rewrite Hemail, String.eqb_refl in Hfalse.
  - destruct Hcases as [-> | [[p ->] | [Hnone [h ->]]]]; [by left | |].
    + left. unfold Db.updatePassword. by rewrite update_where_proj.
    + right. exists e. split; [reflexivity |]. by rewrite map_app.
Qed.

Lemma verify_keeps_emails_unique_witness :
  let st := {| Auth.codeStore :=
                 {[ "a@x.edu"%string := {| Otp.code := "123456"; Otp.expiresAt := 300000 |} ]};
               Auth.users := [] |} in
  let b := {| Auth.email := Js.Str "A@x.edu"; Auth.code := Js.Str "123456";
              Auth.password := Js.Undefined; Auth.confirm := Js.Undefined |} in
  NoDup (map Db.u_email (Auth.users (snd (Auth.post_verify (fun p => p) 1000 b st)))).
Proof.
  intros st b.
  destruct (verify_keeps_emails_unique (fun p => p) 1000 b st) as (Hnd & _).
  - apply NoDup_nil_2.
  - exact Hnd.
Defined.

(** X5. A first verification without a password, for an email that has no
    account, creates the account under the lower-cased email with no role and
    no password; a login for it is then answered 400 "Password not set",
    whatever password is sent. *)
Theorem first_verify_creates_account
    (bcrypt_hash : string -> string) (bcrypt_compare : string -> string -> bool)
    (now : Z) (e : string) (r : Otp.rec) (cf : Js.value) (st : Auth.state) :
  e <> ""%string ->
  Otp.code r <> ""%string ->
  Auth.codeStore st !! Js.toLowerCase e = Some r ->
  now <= Otp.expiresAt r ->
  Db.findUserByEmail e (Auth.users st) = None ->
  let b := {| Auth.email := Js.Str e; Auth.code := Js.Str (Otp.code r);
              Auth.password := Js.Undefined; Auth.confirm := cf |} in
  let account := Login.fresh_user (Js.toLowerCase e) None (Auth.users st) in
  Auth.post_verify bcrypt_hash now b st
  = (Auth.VerifyOk (Js.toLowerCase e) None false,
     {| Auth.codeStore := delete (Js.toLowerCase e) (Auth.codeStore st);
        Auth.users := Auth.users st ++ [account] |})
  /\ Db.findUserByEmail e (Auth.users st ++ [account]) = Some account
  /\ (forall pw,
        Login.post_login bcrypt_compare (Js.Str e) pw (Auth.users st ++ [account])
        = Login.PasswordNotSet).
Proof.
  intros He Hc Hr Hlive Hnone b account.
  assert (Hte : String.eqb e "" = false) by (by apply String.eqb_neq).
  assert (Htc : String.eqb (Otp.code r) "" = false) by (by apply String.eqb_neq).
  assert (Hfound : forall e', Js.toLowerCase e' = Js.toLowerCase e ->
            Db.findUserByEmail e' (Auth.users st ++ [account]) = Some account).
  { intros e' He'. by apply findUserByEmail_created. }
  split; [| split].
  - unfold Auth.post_verify. simpl. rewrite Hte, Htc. simpl.
    rewrite (validateCode_match now e (Auth.codeStore st) r Hr Hlive). simpl.
    unfold Auth.verify_accepted. simpl.
    rewrite findUserByEmail_lower, Hnone.
    rewrite <- findUserByEmail_lower in Hnone.
    by rewrite (createUser_unknown _ None _ Hnone), toLowerCase_idem.
  - by apply Hfound.
  - intros pw. unfold Login.post_login.
    rewrite (Hfound (Js.toLowerCase e)); [reflexivity | apply toLowerCase_idem].
Qed.

Lemma first_verify_creates_account_witness :
  let st := {| Auth.codeStore :=
                 {[ "a@x.edu"%string := {| Otp.code := "123456"; Otp.expiresAt := 300000 |} ]};
               Auth.users := [] |} in
  Login.post_login (fun _ _ => true) (Js.Str "A@x.edu") (Js.Str "anything")
    (Auth.users st ++ [Login.fresh_user "a@x.edu" None (Auth.users st)])
  = Login.PasswordNotSet.
Proof.
  intros st.
  destruct (first_verify_creates_account (fun p => p) (fun _ _ => true) 1000 "A@x.edu"
              {| Otp.code := "123456"; Otp.expiresAt := 300000 |} Js.Undefined st)
    as (_ & _ & Hlogin).
  - discriminate.
  - discriminate.
  - reflexivity.
  - simpl. lia.
  - reflexivity.
  - exact (Hlogin (Js.Str "anything")).
Defined.

(** X6. Sign-up round trip: after /auth/send-code for an email without an
    account and /auth/verify with the code and a password of at least 6
    characters equal to its confirmation, the account exists with that
    password: /auth/login with the same email in any letter case and the same
    password succeeds (as soon as bcrypt matches a password against its own
    hash), and a password bcrypt does not match is answered 401. *)
Theorem signup_then_login
    (bcrypt_hash : string -> string) (bcrypt_compare : string -> string -> bool)
    (ttl t0 now : Z) (fallback delivered : bool) (e e' c p : string)
    (store : gmap string Otp.rec) (us : list Db.user) :
  e <> ""%string ->
  c <> ""%string ->
  now <= t0 + ttl ->
  (6 <= String.length p)%nat ->
  bcrypt_hash p <> ""%string ->
  Db.findUserByEmail e us = None ->
  Js.toLowerCase e' = Js.toLowerCase e ->
  let pending := snd (Auth.post_send_code ttl fallback t0 (Js.Str e) c delivered store) in
  let out :=
    Auth.post_verify bcrypt_hash now
      {| Auth.email := Js.Str e; Auth.code := Js.Str c;
         Auth.password := Js.Str p; Auth.confirm := Js.Str p |}
      {| Auth.codeStore := pending; Auth.users := us |} in
  fst out = Auth.VerifyOk (Js.toLowerCase e) None true
  /\ (bcrypt_compare p (bcrypt_hash p) = true ->
      Login.post_login bcrypt_compare (Js.Str e') (Js.Str p) (Auth.users (snd out))
      = Login.Ok (Js.toLowerCase e) None)
  /\ (forall q, bcrypt_compare q (bcrypt_hash p) = false ->
        Login.post_login bcrypt_compare (Js.Str e') (Js.Str q) (Auth.users (snd out))
        = Login.InvalidCredentials).
Proof.
  intros He Hc Hlive Hlen Hhash Hnone He' pending out.
  assert (Hte : String.eqb e "" = false) by (by apply String.eqb_neq).
  assert (Htc : String.eqb c "" = false) by (by apply String.eqb_neq).
  assert (Hth : String.eqb (bcrypt_hash p) "" = false) by (by apply String.eqb_neq).
  set (account := Login.fresh_user (Js.toLowerCase e) (Some (bcrypt_hash p)) us).
  assert (Hpending : pending = Otp.storeCode ttl t0 e c store).
  { subst pending. unfold Auth.post_send_code. simpl. rewrite Hte. simpl.
    by destruct delivered, fallback. }
  assert (Hout : out = (Auth.VerifyOk (Js.toLowerCase e) None true,
                        {| Auth.codeStore := delete (Js.toLowerCase e) pending;
                           Auth.users := us ++ [account] |})).
  { subst out. unfold Auth.post_verify. simpl. rewrite Hte, Htc. simpl.
    assert (Hp : pending !! Js.toLowerCase e
                 = Some {| Otp.code := c; Otp.expiresAt := t0 + ttl |}).
    { rewrite Hpending. apply lookup_insert_eq. }
    pose proof (validateCode_match now e pending _ Hp Hlive) as Hmatch.
    simpl in Hmatch. rewrite Hmatch. simpl.
    unfold Auth.verify_accepted. simpl.
    assert ((Z.of_nat (String.length p) <? 6) = false) as -> by (apply Z.ltb_ge; lia).
    rewrite String.eqb_refl. simpl.
    rewrite findUserByEmail_lower, Hnone.
    rewrite <- findUserByEmail_lower in Hnone.
    by rewrite (createUser_unknown _ (Some (bcrypt_hash p)) _ Hnone), toLowerCase_idem. }
  rewrite Hout. simpl.
  assert (Hfound : Db.findUserByEmail (Js.toLowerCase e') (us ++ [account]) = Some account).
  { apply findUserByEmail_created; [| exact Hnone]. by rewrite toLowerCase_idem. }
  split; [reflexivity |]. split.
  - intros Hmatch. unfold Login.post_login. rewrite Hfound. simpl.
    by rewrite Hth, Hmatch.
  - intros q Hwrong. unfold Login.post_login. rewrite Hfound. simpl.
    by rewrite Hth, Hwrong.
Qed.

Lemma signup_then_login_witness :
  let hash p := String.append "$2a$" p in
  let pending := snd (Auth.post_send_code 300000 false 1000 (Js.Str "a@x.edu") "123456" true ∅) in
  let out :=
    Auth.post_verify hash 2000
      {| Auth.email := Js.Str "a@x.edu"; Auth.code := Js.Str "123456";
         Auth.password := Js.Str "secret1"; Auth.confirm := Js.Str "secret1" |}
      {| Auth.codeStore := pending; Auth.users := [] |} in
  Login.post_login (fun p h => String.eqb (hash p) h) (Js.Str "A@X.EDU") (Js.Str "secret1")
    (Auth.users (snd out))
  = Login.Ok "a@x.edu" None
  /\ Login.post_login (fun p h => String.eqb (hash p) h) (Js.Str "A@X.EDU") (Js.Str "secret2")
       (Auth.users (snd out))
     = Login.InvalidCredentials.
Proof.
  intros hash pending out.
  destruct (signup_then_login hash (fun p h => String.eqb (hash p) h) 300000 1000 2000
              false true "a@x.edu" "A@X.EDU" "123456" "secret1" ∅ [])
    as (_ & Hok & Hbad).
  - discriminate.
  - discriminate.
  - lia.
  - simpl. lia.
  - discriminate.
  - reflexivity.
  - reflexivity.
  - split; [apply Hok; reflexivity | apply Hbad; reflexivity].
Defined.

(** X7. Password reset: /auth/verify with a valid code and password for an
    email that has an account rewrites the password hash of that account and
    nothing else: the role it answers and keeps is the stored one, the club
    and the id are kept, and rows of other emails are untouched. *)
Theorem password_reset_keeps_role
    (bcrypt_hash : string -> string) (now : Z) (e p : string) (r : Otp.rec)
    (st : Auth.state) (u : Db.user) :
  e <> ""%string ->
  Otp.code r <> ""%string ->
  Auth.codeStore st !! Js.toLowerCase e = Some r ->
  now <= Otp.expiresAt r ->
  (6 <= String.length p)%nat ->
  Db.findUserByEmail e (Auth.users st) = Some u ->
  let out :=
    Auth.post_verify bcrypt_hash now
      {| Auth.email := Js.Str e; Auth.code := Js.Str (Otp.code r);
         Auth.password := Js.Str p; Auth.confirm := Js.Str p |} st in
  fst out = Auth.VerifyOk (Js.toLowerCase e) (Db.u_role u) false
  /\ Db.findUserByEmail e (Auth.users (snd out)) = Some (Db.set_password (bcrypt_hash p) u)
  /\ map Db.u_role (Auth.users (snd out)) = map Db.u_role (Auth.users st)
  /\ map Db.u_club_id (Auth.users (snd out)) = map Db.u_club_id (Auth.users st)
  /\ map Db.u_id (Auth.users (snd out)) = map Db.u_id (Auth.users st)
  /\ List.filter (fun x => negb (Db.has_email (Js.toLowerCase e) x)) (Auth.users (snd out))
     = List.filter (fun x => negb (Db.has_email (Js.toLowerCase e) x)) (Auth.users st).
Proof.
  intros He Hc Hr Hlive Hlen Hu out.
  assert (Hte : String.eqb e "" = false) by (by apply String.eqb_neq).
  assert (Htc : String.eqb (Otp.code r) "" = false) by (by apply String.eqb_neq).
  assert (Hout : out = (Auth.VerifyOk (Js.toLowerCase e) (Db.u_role u) false,
                        {| Auth.codeStore := delete (Js.toLowerCase e) (Auth.codeStore st);
                           Auth.users := Db.updatePassword (Js.toLowerCase e) (bcrypt_hash p)
                                           (Auth.users st) |})).
  { subst out. unfold Auth.post_verify. simpl. rewrite Hte, Htc. simpl.
    rewrite (validateCode_match now e (Auth.codeStore st) r Hr Hlive). simpl.
    unfold Auth.verify_accepted. simpl.
    assert ((Z.of_nat (String.length p) <? 6) = false) as -> by (apply Z.ltb_ge; lia).
    rewrite String.eqb_refl. simpl.
    by rewrite findUserByEmail_lower, Hu. }
  rewrite Hout. simpl. unfold Db.updatePassword. rewrite toLowerCase_idem.
  split; [reflexivity |]. split; [| split; [| split; [| split]]];
    try (by apply update_where_proj).
  - unfold Db.findUserByEmail in *.
    rewrite find_update_where_email by reflexivity. by rewrite Hu.
  - generalize (Auth.users st). intros us.
    induction us as [| x us IH]; [reflexivity |].
    unfold Db.update_where in *. cbn [map List.filter].
    destruct (Db.has_email (Js.toLowerCase e) x) eqn:Hx.
    + assert (Db.has_email (Js.toLowerCase e) (Db.set_password (bcrypt_hash p) x) = true)
        as -> by exact Hx.
      simpl. exact IH.
    + rewrite Hx. simpl. by rewrite IH.
Qed.

Lemma password_reset_keeps_role_witness :
  let admin := {| Db.u_id := 1; Db.u_email := "a@x.edu"; Db.u_password_hash := Some "old";
                  Db.u_role := Some Db.club_admin;
                  Db.u_name := Js.Null; Db.u_branch := Js.Null; Db.u_roll_number := Js.Null;
                  Db.u_club_id := Js.Num 3; Db.u_admin_requested := false |} in
  let st := {| Auth.codeStore :=
                 {[ "a@x.edu"%string := {| Otp.code := "123456"; Otp.expiresAt := 300000 |} ]};
               Auth.users := [admin] |} in
  fst (Auth.post_verify (fun p => p) 1000
         {| Auth.email := Js.Str "a@x.edu"; Auth.code := Js.Str "123456";
            Auth.password := Js.Str "secret1"; Auth.confirm := Js.Str "secret1" |} st)
  = Auth.VerifyOk "a@x.edu" (Some Db.club_admin) false.
Proof.
  intros admin st.
  destruct (password_reset_keeps_role (fun p => p) 1000 "a@x.edu" "secret1"
              {| Otp.code := "123456"; Otp.expiresAt := 300000 |} st admin) as (Hresp & _).
  - discriminate.
  - discriminate.
  - reflexivity.
  - simpl. lia.
  - simpl. lia.
  - reflexivity.
  - exact Hresp.
Defined.

(** X8. /auth/login succeeds exactly when the email is a string whose
    lower-cased form has an account with a non-empty password hash that
    bcrypt matches against the string password sent; the answer then carries
    the stored email and role. In every other case no session is issued. *)
Theorem login_requires_matching_hash
    (bcrypt_compare : string -> string -> bool) (email password : Js.value)
    (us : list Db.user) (em : string) (role : option Db.Role) :
  Login.post_login bcrypt_compare email password us = Login.Ok em role
  <-> exists e p u h,
        email = Js.Str e /\ password = Js.Str p
        /\ Db.findUserByEmail e us = Some u
        /\ Db.u_password_hash u = Some h /\ h <> ""%string
        /\ bcrypt_compare p h = true
        /\ em = Db.u_email u /\ role = Db.u_role u.
Proof.
  unfold Login.post_login. split.
  - destruct email as [| | x | n | e]; try discriminate.
    rewrite findUserByEmail_lower.
    destruct (Db.findUserByEmail e us) as [u |] eqn:Hu; [| discriminate].
    destruct (Db.u_password_hash u) as [h |] eqn:Hh; [| discriminate].
    destruct (String.eqb h "") eqn:Hempty; [discriminate |].
    destruct password as [| | x | n | p]; try discriminate.
    destruct (bcrypt_compare p h) eqn:Hm; simpl; [| discriminate].
    intros [= <- <-]. exists e, p, u, h.
    apply String.eqb_neq in Hempty. by repeat split.
  - intros (e & p & u & h & -> & -> & Hu & Hh & Hne & Hm & -> & ->).
    rewrite findUserByEmail_lower, Hu, Hh.
    apply String.eqb_neq in Hne. by rewrite Hne, Hm.
Qed.

(** ** POST /profile: what a declaration can and cannot do *)

Section ProfileDeclarations.

Implicit Types (us : list Db.user) (u : Db.user) (b : Profile.body).

Lemma update_where_keeps_others {A : Type} (p : A -> bool) (f : A -> A) (rows : list A) :
  (forall x, p x = true -> p (f x) = true) ->
  List.filter (fun x => negb (p x)) (Db.update_where p f rows)
  = List.filter (fun x => negb (p x)) rows.
Proof.
  intros Hp. induction rows as [| x rows IH]; [reflexivity |].
  unfold Db.update_where in *. cbn [map List.filter].
  destruct (p x) eqn:Hx.
  - rewrite (Hp x Hx). simpl. exact IH.
  - rewrite Hx. simpl. by rewrite IH.
Qed.

(** The write a request performs: none, or one UPDATE of the rows of the
    subject's email that leaves id, email and password hash alone. *)
Lemma post_profile_write
    (int4_in : string -> option Z) (clubs : list Z)
sub b us :
  snd (Profile.post_profile int4_in clubs sub b us) = us
  \/ exists g,
       (forall u, Db.u_id (g u) = Db.u_id u /\ Db.u_email (g u) = Db.u_email u
                  /\ Db.u_password_hash (g u) = Db.u_password_hash u)
       /\ snd (Profile.post_profile int4_in clubs sub b us)
          = Db.update_where (Db.has_email (Js.toLowerCase sub)) g us.
Proof.
  unfold Profile.post_profile, Db.updateProfile. rewrite toLowerCase_idem.
  destruct (Js.truthy (Profile.role b)).
  - destruct (Profile.role_unset _) as [[] |]; cbn [Db.request_admin Db.role].
    + destruct (Js.strict_eq (Profile.role b) (Js.Str "student")); cbn [Db.request_admin Db.role].
      * right. eexists. split; [| reflexivity]. by intros u.
      * destruct (Js.strict_eq (Profile.role b) (Js.Str "club_admin"));
          cbn [Db.request_admin Db.role]; [| by left].
        destruct (Db.club_value int4_in _) as [club |]; [| by left].
        destruct (existsb _ us && Db.unknown_club clubs club); [by left |].
        right. eexists. split; [| reflexivity]. by intros u.
    + right. eexists. split; [| reflexivity]. by intros u.
    + by left.
  - cbn [Db.request_admin Db.role]. right. eexists. split; [| reflexivity]. by intros u.
Qed.

Lemma findUserByEmail_updated (sub : string) (g : Db.user -> Db.user) us :
  (forall u, Db.u_email (g u) = Db.u_email u) ->
  Db.findUserByEmail sub (Db.update_where (Db.has_email (Js.toLowerCase sub)) g us)
  = option_map g (Db.findUserByEmail sub us).
Proof. intros Hg. unfold Db.findUserByEmail. by apply find_update_where_email. Qed.

(** The generic edit: no role in the body, or a role already assigned. *)
Lemma post_profile_generic (int4_in : string -> option Z) (clubs : list Z) sub b us :
  (Js.truthy (Profile.role b) = false
   \/ exists u r, Db.findUserByEmail sub us = Some u /\ Db.u_role u = Some r) ->
  let us' := Db.update_where (Db.has_email (Js.toLowerCase sub))
               (Db.set_details (Profile.generic_edit b)) us in
  Profile.post_profile int4_in clubs sub b us
  = (Profile.ProfileUpdated (Db.findUserByEmail sub us'), us').
Proof.
  intros Hcase us'. unfold Profile.post_profile, Db.updateProfile. cbv zeta.
  rewrite !findUserByEmail_lower, toLowerCase_idem. cbn [Profile.generic_edit Db.request_admin
      Db.role].
  subst us'.
  destruct Hcase as [-> | (u & r & Hu & Hr)]; [by rewrite findUserByEmail_lower |].
  rewrite Hu. unfold Profile.role_unset. rewrite Hr.
  destruct (Js.truthy (Profile.role b)); by rewrite findUserByEmail_lower.
Qed.

(** The student branch. *)
Lemma post_profile_student (int4_in : string -> option Z) (clubs : list Z) sub b us u :
  Db.findUserByEmail sub us = Some u -> Db.u_role u = None ->
  Profile.role b = Js.Str "student" ->
  let us' := Db.update_where (Db.has_email (Js.toLowerCase sub))
               (Db.set_role (Profile.student_fields b) Db.student) us in
  Profile.post_profile int4_in clubs sub b us
  = (Profile.ProfileUpdated (Db.findUserByEmail sub us'), us').
Proof.
  intros Hu Hr Hs us'. unfold Profile.post_profile, Db.updateProfile. cbv zeta.
  rewrite !findUserByEmail_lower, toLowerCase_idem, Hu, Hs.
  unfold Profile.role_unset. rewrite Hr. subst us'.
  cbn [Js.truthy Js.strict_eq String.eqb Ascii.eqb Bool.eqb negb
       Profile.student_fields Db.request_admin Db.role].
  by rewrite findUserByEmail_lower.
Qed.

(** The club-admin branch: refused by the store, or written. *)
Lemma post_profile_admin (int4_in : string -> option Z) (clubs : list Z) sub b us u :
  Db.findUserByEmail sub us = Some u -> Db.u_role u = None ->
  Profile.role b = Js.Str "club_admin" ->
  Profile.post_profile int4_in clubs sub b us
  = match Db.club_value int4_in (Js.or_null (Profile.club_id b)) with
    | None => (Profile.ServerError, us)
    | Some club =>
        if Db.unknown_club clubs club then (Profile.ServerError, us)
        else
          let us' := Db.update_where (Db.has_email (Js.toLowerCase sub))
                       (Db.set_admin_request (Profile.admin_fields b) club) us in
          (Profile.AdminRequestSubmitted (Db.findUserByEmail sub us'), us')
    end.
Proof.
  intros Hu Hr Hs. unfold Profile.post_profile, Db.updateProfile. cbv zeta.
  rewrite !findUserByEmail_lower, toLowerCase_idem, Hu, Hs.
  unfold Profile.role_unset. rewrite Hr.
  cbn [Js.truthy Js.strict_eq String.eqb Ascii.eqb Bool.eqb negb
       Profile.admin_fields Db.request_admin Db.club_id].
  assert (Hex : existsb (Db.has_email (Js.toLowerCase sub)) us = true).
  { apply existsb_exists. apply find_some in Hu as [Hin Hp]. by exists u. }
  rewrite Hex.
  destruct (Db.club_value int4_in _) as [club |]; [| reflexivity].
  destruct (Db.unknown_club clubs club); [reflexivity |].
  cbn [andb]. by rewrite findUserByEmail_lower.
Qed.

End ProfileDeclarations.

(** X9. The profile endpoint cannot grant club_admin: for the account of the
    subject, the role after a request is the role before it, unless the role
    was NULL and the body said [role: 'student'], in which case it is
    student. *)
Theorem profile_never_grants_club_admin
    (int4_in : string -> option Z) (clubs : list Z)
    (sub : string) (b : Profile.body) (us : list Db.user) (u u' : Db.user) :
  Db.findUserByEmail sub us = Some u ->
  Db.findUserByEmail sub (snd (Profile.post_profile int4_in clubs sub b us)) = Some u' ->
  Db.u_role u' = Db.u_role u
  \/ (Db.u_role u = None /\ Profile.role b = Js.Str "student"
      /\ Db.u_role u' = Some Db.student).
Proof.
  intros Hu.
  destruct (Js.truthy (Profile.role b)) eqn:Ht;
    [destruct (Db.u_role u) as [r |] eqn:Hr |].
  - rewrite (post_profile_generic int4_in clubs sub b us) by (right; by exists u, r).
    cbn [snd]. rewrite findUserByEmail_updated, Hu by reflexivity.
    intros [= <-]. left. simpl. by rewrite Hr.
  - destruct (Js.strict_eq (Profile.role b) (Js.Str "student")) eqn:Hs;
      [| destruct (Js.strict_eq (Profile.role b) (Js.Str "club_admin")) eqn:Ha].
    + apply strict_eq_true in Hs.
      rewrite (post_profile_student int4_in clubs sub b us u Hu Hr Hs).
      cbn [snd]. rewrite findUserByEmail_updated, Hu by reflexivity.
      intros [= <-]. right. by repeat split.
    + apply strict_eq_true in Ha.
      rewrite (post_profile_admin int4_in clubs sub b us u Hu Hr Ha).
      destruct (Db.club_value int4_in _) as [club |];
        [| cbn [snd]; rewrite Hu; intros [= <-]; left; by rewrite Hr].
      destruct (Db.unknown_club clubs club);
        [cbn [snd]; rewrite Hu; intros [= <-]; left; by rewrite Hr |].
      cbn [snd]. rewrite findUserByEmail_updated, Hu by reflexivity.
      intros [= <-]. left. simpl. by rewrite Hr.
    + unfold Profile.post_profile. cbv zeta.
      rewrite !findUserByEmail_lower, Hu, Ht, Hs, Ha. unfold Profile.role_unset. rewrite Hr.
      cbn [snd]. rewrite Hu. intros [= <-]. left. by rewrite Hr.
  - rewrite (post_profile_generic int4_in clubs sub b us) by (by left).
    cbn [snd]. rewrite findUserByEmail_updated, Hu by reflexivity.
    intros [= <-]. by left.
Qed.

Lemma profile_never_grants_club_admin_witness :
  let fresh := {| Db.u_id := 1; Db.u_email := "a@x.edu"; Db.u_password_hash := None;
                  Db.u_role := None;
                  Db.u_name := Js.Null; Db.u_branch := Js.Null; Db.u_roll_number := Js.Null;
                  Db.u_club_id := Js.Null; Db.u_admin_requested := false |} in
  let b := {| Profile.name := Js.Str "Ann"; Profile.branch := Js.Undefined;
              Profile.roll_number := Js.Undefined;
              Profile.role := Js.Str "club_admin"; Profile.club_id := Js.Num 9 |} in
  exists u', Db.findUserByEmail "a@x.edu" (snd (Profile.post_profile (fun _ : string => None) [3;
      9] "a@x.edu" b [fresh]))
             = Some u'
             /\ Db.u_role u' = None.
Proof.
  intros fresh b. eexists. split; [reflexivity |].
  destruct (profile_never_grants_club_admin (fun _ : string => None) [3; 9] "a@x.edu" b [fresh]
      fresh _ eq_refl eq_refl)
    as [Hsame | (_ & Hrole & _)].
  - exact Hsame.
  - discriminate Hrole.
Defined.

(** X10. Self-declaration as student: with the role still NULL and
    [role: 'student'] in the body, the account gets role student and the
    name, branch and roll number of the body (NULL for a falsy one); its club
    and its pending admin request, if any, stay as they were. *)
Theorem profile_student_declaration
    (int4_in : string -> option Z) (clubs : list Z)
    (sub : string) (b : Profile.body) (us : list Db.user) (u : Db.user) :
  Db.findUserByEmail sub us = Some u ->
  Db.u_role u = None ->
  Profile.role b = Js.Str "student" ->
  exists u',
    fst (Profile.post_profile int4_in clubs sub b us) = Profile.ProfileUpdated (Some u')
    /\ Db.findUserByEmail sub (snd (Profile.post_profile int4_in clubs sub b us)) = Some u'
    /\ Db.u_role u' = Some Db.student
    /\ Db.u_name u' = Js.or_null (Profile.name b)
    /\ Db.u_branch u' = Js.or_null (Profile.branch b)
    /\ Db.u_roll_number u' = Js.or_null (Profile.roll_number b)
    /\ Db.u_club_id u' = Db.u_club_id u
    /\ Db.u_admin_requested u' = Db.u_admin_requested u.
Proof.
  intros Hu Hr Hs. rewrite (post_profile_student int4_in clubs sub b us u Hu Hr Hs).
  cbn [fst snd]. rewrite findUserByEmail_updated, Hu by reflexivity. simpl.
  eexists. split; [reflexivity |]. split; [reflexivity |]. by repeat split.
Qed.

Lemma profile_student_declaration_witness :
  let requester := {| Db.u_id := 1; Db.u_email := "a@x.edu"; Db.u_password_hash := None;
                      Db.u_role := None;
                      Db.u_name := Js.Null; Db.u_branch := Js.Null;
                      Db.u_roll_number := Js.Null;
                      Db.u_club_id := Js.Num 3; Db.u_admin_requested := true |} in
  let b := {| Profile.name := Js.Str "Ann"; Profile.branch := Js.Str "";
              Profile.roll_number := Js.Undefined;
              Profile.role := Js.Str "student"; Profile.club_id := Js.Undefined |} in
  exists u', Db.findUserByEmail "a@x.edu" (snd (Profile.post_profile (fun _ : string => None) [3;
      9] "a@x.edu" b [requester]))
             = Some u'
             /\ Db.u_role u' = Some Db.student /\ Db.u_club_id u' = Js.Num 3
             /\ Db.u_admin_requested u' = true /\ Db.u_branch u' = Js.Null.
Proof.
  intros requester b.
  destruct (profile_student_declaration (fun _ : string => None) [3; 9] "a@x.edu" b [requester]
      requester)
    as (u' & _ & Hu' & Hrole & _ & Hbranch & _ & Hclub & Hreq); try reflexivity.
  exists u'. repeat split; assumption.
Defined.

(** X11. Requesting club-admin rights, with the role still NULL and
    [role: 'club_admin'] in the body. The club sent is the body's club_id,
    NULL for a falsy one. When the store accepts it as an INTEGER that is
    NULL or the id of a clubs row, the answer is 200 "Admin request
    submitted": the role stays NULL, the account is flagged as requested,
    holds that club, and satisfies the filter of the coordinator's pending
    list; a later request replaces the club. When the store refuses it, not
    an integer or the id of no clubs row (users.club_id REFERENCES
    clubs(id)), the handler's catch answers 500 and nothing is written. *)
Theorem profile_admin_request
    (int4_in : string -> option Z) (clubs : list Z)
    (sub : string) (b : Profile.body) (us : list Db.user) (u : Db.user) :
  Db.findUserByEmail sub us = Some u ->
  Db.u_role u = None ->
  Profile.role b = Js.Str "club_admin" ->
  (forall club,
     Db.club_value int4_in (Js.or_null (Profile.club_id b)) = Some club ->
     Db.unknown_club clubs club = false ->
     exists u',
       fst (Profile.post_profile int4_in clubs sub b us)
       = Profile.AdminRequestSubmitted (Some u')
       /\ Db.findUserByEmail sub (snd (Profile.post_profile int4_in clubs sub b us))
          = Some u'
       /\ Db.u_role u' = None
       /\ Db.u_admin_requested u' = true
       /\ Db.u_club_id u' = Js.of_int club
       /\ Db.u_name u' = Js.or_null (Profile.name b)
       /\ Db.u_branch u' = Js.or_null (Profile.branch b)
       /\ Db.u_roll_number u' = Js.or_null (Profile.roll_number b)
       /\ Admin.is_pending u' = true)
  /\ (Db.club_value int4_in (Js.or_null (Profile.club_id b)) = None
      \/ (exists club,
            Db.club_value int4_in (Js.or_null (Profile.club_id b)) = Some club
            /\ Db.unknown_club clubs club = true) ->
      Profile.post_profile int4_in clubs sub b us = (Profile.ServerError, us)).
Proof.
  intros Hu Hr Hs. rewrite (post_profile_admin int4_in clubs sub b us u Hu Hr Hs).
  split.
  - intros club -> ->. cbn [fst snd].
    rewrite findUserByEmail_updated, Hu by reflexivity. cbn [option_map].
    eexists. split; [reflexivity |]. split; [reflexivity |].
    unfold Admin.is_pending. simpl. rewrite Hr. by repeat split.
  - intros [-> | (club & -> & ->)]; reflexivity.
Qed.

Lemma profile_admin_request_witness :
  let fresh := {| Db.u_id := 1; Db.u_email := "a@x.edu"; Db.u_password_hash := None;
                  Db.u_role := None;
                  Db.u_name := Js.Null; Db.u_branch := Js.Null; Db.u_roll_number := Js.Null;
                  Db.u_club_id := Js.Null; Db.u_admin_requested := false |} in
  let b c := {| Profile.name := Js.Str "Ann"; Profile.branch := Js.Undefined;
                Profile.roll_number := Js.Undefined;
                Profile.role := Js.Str "club_admin"; Profile.club_id := Js.Num c |} in
  let no_text := fun _ : string => @None Z in
  (exists u',
     Db.findUserByEmail "a@x.edu" (snd (Profile.post_profile no_text [3; 9] "A@X.edu" (b 9)
         [fresh]))
     = Some u'
     /\ Db.u_club_id u' = Js.Num 9 /\ Admin.is_pending u' = true)
  /\ Profile.post_profile no_text [3; 9] "A@X.edu" (b 7) [fresh]
     = (Profile.ServerError, [fresh]).
Proof.
  intros fresh b no_text. split.
  - destruct (profile_admin_request no_text [3; 9] "A@X.edu" (b 9) [fresh] fresh
                eq_refl eq_refl eq_refl) as [Hok _].
    destruct (Hok (Some 9) eq_refl eq_refl)
      as (u' & _ & Hu' & _ & _ & Hclub & _ & _ & _ & Hpending).
    exists u'. repeat split; assumption.
  - apply (profile_admin_request no_text [3; 9] "A@X.edu" (b 7) [fresh] fresh
             eq_refl eq_refl eq_refl).
    right. by exists (Some 7).
Defined.

(** X12. A role that is neither 'student' nor 'club_admin', sent while the
    stored role is NULL, makes the handler skip every UPDATE: the table is
    unchanged, name, branch and roll number of the body included, yet the
    answer is 200 "Profile updated successfully" with the unchanged row. *)
Theorem profile_unknown_role_writes_nothing
    (int4_in : string -> option Z) (clubs : list Z)
    (sub : string) (b : Profile.body) (us : list Db.user) (u : Db.user) :
  Db.findUserByEmail sub us = Some u ->
  Db.u_role u = None ->
  Js.truthy (Profile.role b) = true ->
  Profile.role b <> Js.Str "student" ->
  Profile.role b <> Js.Str "club_admin" ->
  Profile.post_profile int4_in clubs sub b us = (Profile.ProfileUpdated (Some u), us).
Proof.
  intros Hu Hr Ht Hs Ha. unfold Profile.post_profile.
  rewrite findUserByEmail_lower, Hu, Ht. unfold Profile.role_unset. rewrite Hr.
  apply strict_eq_false in Hs, Ha. by rewrite Hs, Ha.
Qed.

Lemma profile_unknown_role_writes_nothing_witness :
  let fresh := {| Db.u_id := 1; Db.u_email := "a@x.edu"; Db.u_password_hash := None;
                  Db.u_role := None;
                  Db.u_name := Js.Null; Db.u_branch := Js.Null; Db.u_roll_number := Js.Null;
                  Db.u_club_id := Js.Null; Db.u_admin_requested := false |} in
  let b := {| Profile.name := Js.Str "Ann"; Profile.branch := Js.Str "CSE";
              Profile.roll_number := Js.Str "42";
              Profile.role := Js.Str "Student"; Profile.club_id := Js.Undefined |} in
  Profile.post_profile (fun _ : string => None) [3; 9] "a@x.edu" b [fresh] =
      (Profile.ProfileUpdated (Some fresh), [fresh]).
Proof.
  intros fresh b.
  apply (profile_unknown_role_writes_nothing (fun _ : string => None) [3; 9] "a@x.edu" b [fresh]
      fresh);
    [reflexivity | reflexivity | reflexivity | discriminate | discriminate].
Defined.

(** X13. A profile request writes to the rows of the subject's lower-cased
    email only, and never to an id, an email or a password hash: rows of
    other emails are unchanged and no row is added or removed. *)
Theorem profile_touches_only_subject
    (int4_in : string -> option Z) (clubs : list Z)
    (sub : string) (b : Profile.body) (us : list Db.user) :
  let us' := snd (Profile.post_profile int4_in clubs sub b us) in
  List.filter (fun u => negb (Db.has_email (Js.toLowerCase sub) u)) us'
  = List.filter (fun u => negb (Db.has_email (Js.toLowerCase sub) u)) us
  /\ map Db.u_id us' = map Db.u_id us
  /\ map Db.u_email us' = map Db.u_email us
  /\ map Db.u_password_hash us' = map Db.u_password_hash us.
Proof.
  intros us'. subst us'.
  destruct (post_profile_write int4_in clubs sub b us) as [-> | (g & Hg & ->)]; [done |].
  split; [| split; [| split]].
  - apply update_where_keeps_others. intros u Hu.
    unfold Db.has_email in *. by rewrite (proj1 (proj2 (Hg u))).
  - apply update_where_proj. intros u. apply Hg.
  - apply update_where_proj. intros u. apply Hg.
  - apply update_where_proj. intros u. apply Hg.
Qed.

(** ** Tokens and the coordinator gate *)

Section HeaderParsing.

Lemma split_space_cons (s : string) : exists p ps, Session.split_space s = p :: ps.
Proof.
  destruct s as [| c s]; simpl; [by eexists _, _ |].
  destruct (Ascii.eqb c " "); [by eexists _, _ |].
  destruct (Session.split_space s); by eexists _, _.
Qed.

(** Joining the pieces with single spaces gives the header back. *)
Lemma split_space_concat (s : string) : String.concat " " (Session.split_space s) = s.
Proof.
  induction s as [| c s IH]; [reflexivity |].
  simpl. destruct (split_space_cons s) as (p & ps & Hs). rewrite Hs in *.
  destruct (Ascii.eqb c " ") eqn:Hc.
  - apply Ascii.eqb_eq in Hc as ->.
    transitivity (String " " (String.concat " " (p :: ps))); [reflexivity |].
    by rewrite IH.
  - transitivity (String c (String.concat " " (p :: ps))); [by destruct ps |].
    by rewrite IH.
Qed.

(** No piece contains a space. *)
Lemma split_space_pieces (s : string) :
  Forall (fun p => ~ In " "%char (list_ascii_of_string p)) (Session.split_space s).
Proof.
  induction s as [| c s IH]; [repeat constructor; simpl; tauto |].
  simpl. destruct (Ascii.eqb c " ") eqn:Hc.
  - constructor; [simpl; tauto | exact IH].
  - destruct (split_space_cons s) as (p & ps & Hs). rewrite Hs in *.
    apply Forall_cons in IH as [Hp Hps]. constructor; [| exact Hps].
    simpl. intros [-> | Hin]; [| by apply Hp].
    by rewrite Ascii.eqb_refl in Hc.
Qed.

(** A piece without a space, followed by a space, is split off. *)
Lemma split_space_app (x y : string) :
  ~ In " "%char (list_ascii_of_string x) ->
  Session.split_space (x ++ String " " y) = x :: Session.split_space y.
Proof.
  induction x as [| c x IH]; [reflexivity |].
  simpl. intros Hx.
  assert (Ascii.eqb c " " = false) as ->.
  { apply Ascii.eqb_neq. intros ->. apply Hx. by left. }
  rewrite IH by tauto. reflexivity.
Qed.

Lemma split_space_single (x : string) :
  ~ In " "%char (list_ascii_of_string x) -> Session.split_space x = [x].
Proof.
  induction x as [| c x IH]; [reflexivity |].
  simpl. intros Hx.
  assert (Ascii.eqb c " " = false) as ->.
  { apply Ascii.eqb_neq. intros ->. apply Hx. by left. }
  rewrite IH by tauto. reflexivity.
Qed.

End HeaderParsing.

(** X14. [authMiddleware] lets a request through exactly when the header is
    the word Bearer, one space, and a token without spaces that
    [jwt.verify] accepts; the payload passed on is the verified one. An
    absent or empty header, another scheme word, a missing or extra piece,
    or a token that does not verify, are all answered 401. *)
Theorem authMiddleware_next_iff
    (jwt_verify : string -> option Session.payload) (authorization : option string)
    (p : Session.payload) :
  (Session.authMiddleware jwt_verify authorization = Session.Next p
   <-> exists token,
         authorization = Some ("Bearer " ++ token)%string
         /\ ~ In " "%char (list_ascii_of_string token)
         /\ jwt_verify token = Some p)
  /\ (forall st err,
        Session.authMiddleware jwt_verify authorization = Session.Reject st err -> st = 401).
Proof.
  split; [split |].
  - unfold Session.authMiddleware.
    destruct authorization as [auth |]; [| discriminate].
    destruct (String.eqb auth ""); [discriminate |].
    pose proof (split_space_concat auth) as Hjoin.
    pose proof (split_space_pieces auth) as Hpieces.
    destruct (Session.split_space auth) as [| scheme [| token [| x xs]]]; try discriminate.
    destruct (String.eqb scheme "Bearer") eqn:Hscheme; simpl; [| discriminate].
    destruct (jwt_verify token) as [q |] eqn:Hq; [| discriminate].
    intros [= ->]. apply String.eqb_eq in Hscheme as ->.
    exists token. split; [by rewrite <- Hjoin | split; [| exact Hq]].
    apply Forall_cons in Hpieces as [_ Hpieces].
    by apply Forall_cons in Hpieces as [Htoken _].
  - intros (token & -> & Htoken & Hq). unfold Session.authMiddleware.
    change ("Bearer " ++ token)%string with ("Bearer" ++ String " " token)%string.
    rewrite split_space_app by (simpl; intuition discriminate).
    rewrite (split_space_single token Htoken). simpl. by rewrite Hq.
  - intros st err. unfold Session.authMiddleware.
    destruct authorization as [auth |]; [| by intros [= <- _]].
    destruct (String.eqb auth ""); [by intros [= <- _] |].
    destruct (Session.split_space auth) as [| scheme [| token [| x xs]]];
      try (by intros [= <- _]).
    destruct (negb (String.eqb scheme "Bearer")); [by intros [= <- _] |].
    destruct (jwt_verify token); [discriminate | by intros [= <- _]].
Qed.

Lemma authMiddleware_next_iff_witness :
  let verify t := if String.eqb t "good"
                  then Some {| Session.sub := "a@x.edu"; Session.role := None |} else None in
  Session.authMiddleware verify (Some "Bearer good"%string)
  = Session.Next {| Session.sub := "a@x.edu"; Session.role := None |}
  /\ Session.authMiddleware verify (Some "Token good"%string)
     = Session.Reject 401 "invalid auth header"
  /\ Session.authMiddleware verify (Some "Bearer  good"%string)
     = Session.Reject 401 "invalid auth header".
Proof.
  intros verify. split; [| split; reflexivity].
  apply (authMiddleware_next_iff verify). exists "good"%string.
  split; [reflexivity |]. split; [| reflexivity].
  simpl. intuition discriminate.
Defined.

Lemma login_requires_matching_hash_witness :
  let user := {| Db.u_id := 1; Db.u_email := "a@x.edu"; Db.u_password_hash := Some "h1";
                 Db.u_role := Some Db.student;
                 Db.u_name := Js.Null; Db.u_branch := Js.Null; Db.u_roll_number := Js.Null;
                 Db.u_club_id := Js.Null; Db.u_admin_requested := false |} in
  Login.post_login (fun p h => String.eqb h "h1" && String.eqb p "secret1")
    (Js.Str "A@x.edu") (Js.Str "secret1") [user]
  = Login.Ok "a@x.edu" (Some Db.student).
Proof.
  intros user. apply login_requires_matching_hash.
  exists "A@x.edu"%string, "secret1"%string, user, "h1"%string.
  repeat split; try reflexivity. discriminate.
Defined.

(** X15. The approval route is reserved to the coordinator: whenever
    POST /admin/approve-request is answered "Approved", or changes the users
    table at all, the request carried [Bearer <token>] with a token that
    verifies and whose subject is exactly the coordinator address; every
    other request leaves the table as it was. *)
Theorem approve_requires_coordinator_token
    (jwt_verify : string -> option Session.payload) (authorization : option string)
    (email : Js.value) (us : list Db.user) :
  let out := Admin.post_approve_request jwt_verify authorization email us in
  (fst out = Admin.Approved \/ snd out <> us ->
   exists token p,
     authorization = Some ("Bearer " ++ token)%string
     /\ jwt_verify token = Some p
     /\ Session.sub p = Session.coordinatorEmail)
  /\ (forall st, fst out = Admin.Denied st -> (st = 401 \/ st = 403) /\ snd out = us).
Proof.
  intros out. subst out. unfold Admin.post_approve_request.
  destruct (Session.authMiddleware jwt_verify authorization) as [st err | p] eqn:Hauth.
  - simpl. split; [intros [H | H]; [discriminate | congruence] |].
    intros st' [= <-]. split; [left | reflexivity].
    exact (proj2 (authMiddleware_next_iff jwt_verify authorization
                    {| Session.sub := ""; Session.role := None |}) st err Hauth).
  - apply (proj1 (authMiddleware_next_iff jwt_verify authorization p)) in Hauth
      as (token & -> & _ & Hp).
    unfold Session.isCoordinator.
    destruct (String.eqb (Session.sub p) Session.coordinatorEmail) eqn:Hsub; simpl.
    + apply String.eqb_eq in Hsub. split; [intros _; by exists token, p |].
      intros st. unfold Admin.approve_request.
      destruct (negb (Js.truthy email)); [discriminate |].
      destruct email; discriminate.
    + split; [intros [H | H]; [discriminate | congruence] |].
      intros st [= <-]. split; [by right | reflexivity].
Qed.

Lemma approve_requires_coordinator_token_witness :
  let verify t := if String.eqb t "good"
                  then Some {| Session.sub := "a@x.edu"; Session.role := Some Db.club_admin |}
                  else None in
  let user := {| Db.u_id := 1; Db.u_email := "b@x.edu"; Db.u_password_hash := None;
                 Db.u_role := None;
                 Db.u_name := Js.Null; Db.u_branch := Js.Null; Db.u_roll_number := Js.Null;
                 Db.u_club_id := Js.Num 3; Db.u_admin_requested := true |} in
  snd (Admin.post_approve_request verify (Some "Bearer good"%string) (Js.Str "b@x.edu") [user])
  = [user].
Proof.
  intros verify user.
  destruct (approve_requires_coordinator_token verify (Some "Bearer good"%string)
              (Js.Str "b@x.edu") [user]) as [_ Hdenied].
  exact (proj2 (Hdenied 403 eq_refl)).
Defined.

(** X16. Approval makes the account of the given email a club admin and
    clears its request flag, so that it leaves the pending list; the club
    stays the stored one (the [club_id] of the request body is never read),
    no pending request is required, rows of other emails are untouched, and
    from then on no profile request changes the role. *)
Theorem approve_request_effect
    (int4_in : string -> option Z) (clubs : list Z)
    (e : string) (us : list Db.user) (u : Db.user) :
  e <> ""%string ->
  Db.findUserByEmail e us = Some u ->
  let out := Admin.approve_request (Js.Str e) us in
  fst out = Admin.Approved
  /\ Db.findUserByEmail e (snd out) = Some (Admin.set_approved u)
  /\ Db.u_role (Admin.set_approved u) = Some Db.club_admin
  /\ Db.u_club_id (Admin.set_approved u) = Db.u_club_id u
  /\ Admin.is_pending (Admin.set_approved u) = false
  /\ List.filter (fun x => negb (Db.has_email (Js.toLowerCase e) x)) (snd out)
     = List.filter (fun x => negb (Db.has_email (Js.toLowerCase e) x)) us
  /\ (forall bs,
        exists u', Db.findUserByEmail e (Profile.post_profiles int4_in clubs e bs (snd out)) =
            Some u'
                   /\ Db.u_role u' = Some Db.club_admin).
Proof.
  intros He Hu out. subst out. unfold Admin.approve_request. simpl.
  assert (String.eqb e "" = false) as -> by (by apply String.eqb_neq). simpl.
  assert (Hfound : Db.findUserByEmail e
                     (Db.update_where (Db.has_email (Js.toLowerCase e)) Admin.set_approved us)
                   = Some (Admin.set_approved u)).
  { unfold Db.findUserByEmail in *. rewrite find_update_where_email by reflexivity.
    by rewrite Hu. }
  split; [reflexivity |]. split; [exact Hfound |]. split; [reflexivity |].
  split; [reflexivity |]. split; [reflexivity |]. split.
  - by apply update_where_keeps_others.
  - intros bs.
    generalize dependent (Db.update_where (Db.has_email (Js.toLowerCase e))
                            Admin.set_approved us).
    generalize (Admin.set_approved u) (eq_refl : Db.u_role (Admin.set_approved u)
                                                 = Some Db.club_admin).
    clear Hu. induction bs as [| b bs IH]; intros v Hv vs Hvs.
    + exists v. by split.
    + simpl.
      destruct (post_profile_assigned_user int4_in clubs e b vs v Db.club_admin Hvs Hv)
        as (v' & Hv' & Hrole & _).
      exact (IH v' Hrole _ Hv').
Qed.

Lemma approve_request_effect_witness :
  let student := {| Db.u_id := 1; Db.u_email := "b@x.edu"; Db.u_password_hash := None;
                    Db.u_role := Some Db.student;
                    Db.u_name := Js.Null; Db.u_branch := Js.Null;
                    Db.u_roll_number := Js.Null;
                    Db.u_club_id := Js.Null; Db.u_admin_requested := false |} in
  Db.findUserByEmail "B@x.edu" (snd (Admin.approve_request (Js.Str "B@x.edu") [student]))
  = Some (Admin.set_approved student).
Proof.
  intros student.
  destruct (approve_request_effect (fun _ : string => None) [3; 9] "B@x.edu" [student] student) as
      (_ & Hfound & _).
  - discriminate.
  - reflexivity.
  - exact Hfound.
Defined.

(** X17. POST /profile reads the second space-separated piece of the header
    as the token, whatever the first piece is: with an absent or empty header
    it answers 401, with a second piece that is missing or does not verify it
    answers 500, both without touching the table; and for any scheme word
    followed by a token that verifies it runs the handler for the token's
    subject. *)
Theorem profile_route_token_handling
    (int4_in : string -> option Z) (clubs : list Z)
    (jwt_verify : string -> option Session.payload) (b : Profile.body) (us : list Db.user) :
  Session.post_profile_route jwt_verify int4_in clubs None b us = (inl 401, us)
  /\ Session.post_profile_route jwt_verify int4_in clubs (Some ""%string) b us = (inl 401, us)
  /\ (forall auth,
        auth <> ""%string ->
        (forall token, nth_error (Session.split_space auth) 1 = Some token ->
                       jwt_verify token = None) ->
        Session.post_profile_route jwt_verify int4_in clubs (Some auth) b us = (inl 500, us))
  /\ (forall scheme token p,
        ~ In " "%char (list_ascii_of_string scheme) ->
        jwt_verify token = Some p ->
        ~ In " "%char (list_ascii_of_string token) ->
        Session.post_profile_route jwt_verify int4_in clubs (Some (scheme ++ String " "
            token)%string) b us
        = (inr (fst (Profile.post_profile int4_in clubs (Session.sub p) b us)),
           snd (Profile.post_profile int4_in clubs (Session.sub p) b us))).
Proof.
  split; [reflexivity |]. split; [reflexivity |]. split.
  - intros auth Hne Hbad. unfold Session.post_profile_route, Session.inline_token.
    apply String.eqb_neq in Hne. rewrite Hne.
    destruct (nth_error (Session.split_space auth) 1) as [token |] eqn:Htoken; [| reflexivity].
    by rewrite (Hbad token eq_refl).
  - intros scheme token p Hscheme Hp Htoken.
    unfold Session.post_profile_route, Session.inline_token.
    assert (String.eqb (scheme ++ String " " token)%string "" = false) as ->.
    { apply String.eqb_neq. by destruct scheme. }
    rewrite (split_space_app scheme token Hscheme), (split_space_single token Htoken).
    simpl. rewrite Hp. by destruct (Profile.post_profile int4_in clubs (Session.sub p) b us).
Qed.

Lemma profile_route_token_handling_witness :
  let verify t := if String.eqb t "good"
                  then Some {| Session.sub := "a@x.edu"; Session.role := None |} else None in
  let b := {| Profile.name := Js.Str "Ann"; Profile.branch := Js.Undefined;
              Profile.roll_number := Js.Undefined;
              Profile.role := Js.Undefined; Profile.club_id := Js.Undefined |} in
  Session.post_profile_route verify (fun _ : string => None) [3; 9] (Some "Basic good"%string) b []
  = (inr (Profile.ProfileUpdated None), [])
  /\ Session.post_profile_route verify (fun _ : string => None) [3; 9] (Some "Bearer bad"%string)
      b [] = (inl 500, []).
Proof.
  intros verify b.
  destruct (profile_route_token_handling (fun _ : string => None) [3; 9] verify b []) as (_ & _ &
      Hbad & Hgood).
  split.
  - apply (Hgood "Basic"%string "good"%string
             {| Session.sub := "a@x.edu"; Session.role := None |}).
    + simpl. intuition discriminate.
    + reflexivity.
    + simpl. intuition discriminate.
  - apply (Hbad "Bearer bad"%string); [discriminate |].
    intros token [= <-]. reflexivity.
Defined.

(** ** Announcements: creation, soft delete, edit, roster *)

Section AnnouncementTable.

Implicit Types (rows : list Announcements.row) (r : Announcements.row).

Lemma next_id_fresh (ids : list Z) : ~ In (Db.next_id ids) ids.
Proof. intros Hin. apply next_id_above in Hin. lia. Qed.

Lemma find_announcement_appended aid rows r :
  ~ In aid (map Announcements.id rows) ->
  Announcements.id r = aid ->
  Registration.find_announcement aid (map Announcements.policy (rows ++ [r]))
  = Some (Announcements.policy r).
Proof.
  intros Hfresh Hid. unfold Registration.find_announcement.
  rewrite map_app. simpl. rewrite find_app_none.
  - unfold Announcements.id in Hid. by rewrite Hid, Z.eqb_refl.
  - destruct (find _ (map Announcements.policy rows)) as [a |] eqn:Ha; [| reflexivity].
    apply find_some in Ha as [Hin Heq]. apply Z.eqb_eq in Heq.
    apply in_map_iff in Hin as (x & <- & Hx).
    exfalso. apply Hfresh. rewrite <- Heq. by apply (in_map Announcements.id).
Qed.

Lemma owned_after_write aid email (f : Announcements.row -> Announcements.row) r :
  Announcements.policy (f r) = Announcements.policy r ->
  Announcements.created_by (f r) = Announcements.created_by r ->
  Announcements.owned aid email (f r) = Announcements.owned aid email r.
Proof.
  intros Hp Hc. unfold Announcements.owned, Announcements.id. by rewrite Hp, Hc.
Qed.

(** A creation that is answered "created" appended this row. *)
Lemma post_announcements_created
    (jwt_verify : string -> option Session.payload)
    (parseInt parseDate : Js.value -> option Z) (stored_flag : Z -> Js.value)
    (authorization file : option string) (b : Announcements.create_body)
    (us : list Db.user) rows rows' (aid : Z) :
  Announcements.post_announcements jwt_verify parseInt parseDate stored_flag
    authorization file b us rows = (Announcements.Created aid, rows') ->
  exists p user,
    Session.inline_token jwt_verify authorization = Session.Next p
    /\ Db.findUserByEmail (Session.sub p) us = Some user
    /\ Db.u_role user = Some Db.club_admin
    /\ Js.truthy (Db.u_club_id user) = true
    /\ aid = Db.next_id (map Announcements.id rows)
    /\ rows' = rows ++ [ {| Announcements.policy :=
                              {| Db.a_id := aid;
                                 Db.a_registration_enabled :=
                                   stored_flag (Announcements.regEnabled
                                                  (Announcements.b_registration_enabled b));
                                 Db.a_registration_deadline :=
                                   Announcements.regDeadline parseDate
                                     (Announcements.b_registration_deadline b);
                                 Db.a_max_registrations :=
                                   Announcements.maxReg parseInt
                                     (Announcements.b_max_registrations b) |};
                            Announcements.club_id := Db.u_club_id user;
                            Announcements.title := Announcements.b_title b;
                            Announcements.content := Announcements.b_content b;
                            Announcements.image_url :=
                              option_map (fun f => String.append "/uploads/" f) file;
                            Announcements.created_by := Js.toLowerCase (Session.sub p);
                            Announcements.is_active := true |} ].
Proof.
  unfold Announcements.post_announcements.
  destruct (Session.inline_token jwt_verify authorization) as [st err | p] eqn:Htok;
    [discriminate |].
  destruct (negb (Js.truthy (Announcements.b_title b))
            || negb (Js.truthy (Announcements.b_content b))); [discriminate |].
  rewrite findUserByEmail_lower.
  destruct (Db.findUserByEmail (Session.sub p) us) as [user |] eqn:Hu; [| discriminate].
  destruct (Db.u_role user) as [[] |] eqn:Hr; cbn [orb]; try discriminate.
  destruct (Js.truthy (Db.u_club_id user)) eqn:Hclub; cbn [negb]; [| discriminate].
  intros [= <- <-]. by exists p, user.
Qed.

End AnnouncementTable.

(** X18. POST /announcements inserts only for a club admin with a club:
    an answer "created" means the token verified, title and content were
    truthy, and the subject's account has role club_admin and a truthy club;
    the one row appended gets a fresh id, the creator's club and lower-cased
    email, and is active. Every other answer leaves the table as it was. *)
Theorem create_announcement_gate
    (jwt_verify : string -> option Session.payload)
    (parseInt parseDate : Js.value -> option Z) (stored_flag : Z -> Js.value)
    (authorization file : option string) (b : Announcements.create_body)
    (us : list Db.user) (rows : list Announcements.row) :
  let out := Announcements.post_announcements jwt_verify parseInt parseDate stored_flag
               authorization file b us rows in
  (forall aid, fst out = Announcements.Created aid ->
     exists p user r,
       Session.inline_token jwt_verify authorization = Session.Next p
       /\ Db.findUserByEmail (Session.sub p) us = Some user
       /\ Db.u_role user = Some Db.club_admin
       /\ Js.truthy (Db.u_club_id user) = true
       /\ Js.truthy (Announcements.b_title b) = true
       /\ Js.truthy (Announcements.b_content b) = true
       /\ snd out = rows ++ [r]
       /\ Announcements.id r = aid
       /\ ~ In aid (map Announcements.id rows)
       /\ Announcements.club_id r = Db.u_club_id user
       /\ Announcements.created_by r = Js.toLowerCase (Session.sub p)
       /\ Announcements.is_active r = true)
  /\ ((forall aid, fst out <> Announcements.Created aid) -> snd out = rows).
Proof.
  intros out. subst out. unfold Announcements.post_announcements.
  destruct (Session.inline_token jwt_verify authorization) as [st err | p] eqn:Htok;
    [split; [discriminate | reflexivity] |].
  destruct (Js.truthy (Announcements.b_title b)) eqn:Ht; simpl;
    [| split; [discriminate | reflexivity]].
  destruct (Js.truthy (Announcements.b_content b)) eqn:Hc; simpl;
    [| split; [discriminate | reflexivity]].
  rewrite findUserByEmail_lower.
  destruct (Db.findUserByEmail (Session.sub p) us) as [user |] eqn:Hu;
    [| split; [discriminate | reflexivity]].
  destruct (Db.u_role user) as [[] |] eqn:Hr; simpl;
    try (split; [discriminate | reflexivity]).
  destruct (Js.truthy (Db.u_club_id user)) eqn:Hclub; simpl;
    [| split; [discriminate | reflexivity]].
  split.
  - intros aid [= <-]. eexists p, user, _.
    repeat split; try reflexivity; try assumption. apply next_id_fresh.
  - intros Hnot. by destruct (Hnot (Db.next_id (map Announcements.id rows))).
Qed.

Lemma create_announcement_gate_witness :
  let verify t := if String.eqb t "good"
                  then Some {| Session.sub := "s@x.edu"; Session.role := Some Db.student |}
                  else None in
  let student := {| Db.u_id := 7; Db.u_email := "s@x.edu"; Db.u_password_hash := None;
                    Db.u_role := Some Db.student;
                    Db.u_name := Js.Null; Db.u_branch := Js.Null;
                    Db.u_roll_number := Js.Null;
                    Db.u_club_id := Js.Num 3; Db.u_admin_requested := false |} in
  let b := {| Announcements.b_title := Js.Str "Hack night";
              Announcements.b_content := Js.Str "Friday";
              Announcements.b_registration_enabled := Js.Str "true";
              Announcements.b_registration_deadline := Js.Undefined;
              Announcements.b_max_registrations := Js.Undefined |} in
  snd (Announcements.post_announcements verify (fun _ => None) (fun _ => None) Js.Num
         (Some "Bearer good"%string) None b [student] [])
  = [].
Proof.
  intros verify student b.
  destruct (create_announcement_gate verify (fun _ => None) (fun _ => None) Js.Num
              (Some "Bearer good"%string) None b [student] []) as [_ Hother].
  apply Hother. intros aid. discriminate.
Defined.

Lemma regEnabled_cases (v : Js.value) :
  (Announcements.regEnabled v = 1
   /\ (v = Js.Str "true" \/ v = Js.Bool true \/ v = Js.Num 1 \/ v = Js.Str "1"))
  \/ (Announcements.regEnabled v = 0
      /\ v <> Js.Str "true" /\ v <> Js.Bool true /\ v <> Js.Num 1 /\ v <> Js.Str "1").
Proof.
  unfold Announcements.regEnabled.
  destruct (Js.strict_eq v (Js.Str "true")) eqn:H1;
    [apply strict_eq_true in H1; left; tauto |].
  destruct (Js.strict_eq v (Js.Bool true)) eqn:H2;
    [apply strict_eq_true in H2; left; tauto |].
  destruct (Js.strict_eq v (Js.Num 1)) eqn:H3;
    [apply strict_eq_true in H3; left; tauto |].
  destruct (Js.strict_eq v (Js.Str "1")) eqn:H4;
    [apply strict_eq_true in H4; left; tauto |].
  apply strict_eq_false in H1, H2, H3, H4. right. simpl. tauto.
Qed.

(** For a known user and an existing event, "not enabled" is the answer
    exactly when the stored flag is falsy. *)
Lemma register_not_enabled_iff (now aid : Z) (userEmail : string) (db : Db.t)
    (u : Db.user) (a : Db.announcement) :
  Db.findUserByEmail userEmail (Db.users db) = Some u ->
  Registration.find_announcement aid (Db.announcements db) = Some a ->
  fst (Registration.register now aid userEmail db) = Registration.RegistrationNotEnabled
  <-> Js.truthy (Db.a_registration_enabled a) = false.
Proof.
  intros Hu Ha. unfold Registration.register. rewrite Hu, Ha.
  destruct (Js.truthy (Db.a_registration_enabled a)); cbn [negb]; [| simpl; tauto].
  split; [| discriminate].
  destruct (Registration.past_deadline now a); [discriminate |].
  destruct (Db.a_max_registrations a) as [m |]; [| discriminate].
  destruct (Js.truthy (Js.Num m)); [| discriminate].
  destruct (_ >=? m); [discriminate |].
  unfold Registration.enroll.
  destruct (find _ _) as [x |]; [| discriminate].
  destruct (Db.is_registered _); discriminate.
Qed.

(** X19. Which creations open registration: an announcement just created is
    refused by register as "not enabled" exactly when the
    [registration_enabled] field was none of ['true', true, 1, '1'] (a
    checkbox value such as 'on' does not enable it), provided the store hands
    the written 1 back truthy and the written 0 falsy. *)
Theorem created_announcement_registration_flag
    (jwt_verify : string -> option Session.payload)
    (parseInt parseDate : Js.value -> option Z) (stored_flag : Z -> Js.value)
    (authorization file : option string) (b : Announcements.create_body)
    (us : list Db.user) (rows rows' : list Announcements.row)
    (regs : list Db.registration) (aid now : Z) (userEmail : string) :
  Js.truthy (stored_flag 1) = true ->
  Js.truthy (stored_flag 0) = false ->
  Announcements.post_announcements jwt_verify parseInt parseDate stored_flag
    authorization file b us rows = (Announcements.Created aid, rows') ->
  is_Some (Db.findUserByEmail userEmail us) ->
  let v := Announcements.b_registration_enabled b in
  fst (Registration.register now aid userEmail (Announcements.registration_view us rows' regs))
  = Registration.RegistrationNotEnabled
  <-> (v <> Js.Str "true" /\ v <> Js.Bool true /\ v <> Js.Num 1 /\ v <> Js.Str "1").
Proof.
  intros Hon Hoff Hcreate [u Hu] v.
  apply post_announcements_created in Hcreate
    as (p & user & _ & _ & _ & _ & Haid & ->).
  assert (Hfresh : ~ In aid (map Announcements.id rows)).
  { rewrite Haid. apply next_id_fresh. }
  match goal with |- context [rows ++ [?x]] => set (r := x) end.
  assert (Hid : Announcements.id r = aid) by reflexivity.
  rewrite (register_not_enabled_iff now aid userEmail
             (Announcements.registration_view us (rows ++ [r]) regs) u
             (Announcements.policy r) Hu
             (find_announcement_appended aid rows r Hfresh Hid)).
  subst r. cbn [Announcements.policy Db.a_registration_enabled]. fold v.
  destruct (regEnabled_cases v) as [[-> Hv] | [-> Hv]].
  - rewrite Hon. split; [discriminate |]. intros (H1 & H2 & H3 & H4).
    destruct Hv as [? | [? | [? | ?]]]; contradiction.
  - by rewrite Hoff.
Qed.

Lemma created_announcement_registration_flag_witness :
  let verify t := if String.eqb t "good"
                  then Some {| Session.sub := "a@x.edu"; Session.role := Some Db.club_admin |}
                  else None in
  let admin := {| Db.u_id := 1; Db.u_email := "a@x.edu"; Db.u_password_hash := None;
                  Db.u_role := Some Db.club_admin;
                  Db.u_name := Js.Null; Db.u_branch := Js.Null; Db.u_roll_number := Js.Null;
                  Db.u_club_id := Js.Num 3; Db.u_admin_requested := false |} in
  let b := {| Announcements.b_title := Js.Str "Hack night";
              Announcements.b_content := Js.Str "Friday";
              Announcements.b_registration_enabled := Js.Str "on";
              Announcements.b_registration_deadline := Js.Undefined;
              Announcements.b_max_registrations := Js.Undefined |} in
  let rows' := snd (Announcements.post_announcements verify (fun _ => None) (fun _ => None)
                      Js.Num (Some "Bearer good"%string) None b [admin] []) in
  fst (Registration.register 1000 1 "a@x.edu"
         (Announcements.registration_view [admin] rows' []))
  = Registration.RegistrationNotEnabled.
Proof.
  intros verify admin b rows'.
  apply (created_announcement_registration_flag verify (fun _ => None) (fun _ => None)
           Js.Num (Some "Bearer good"%string) None b [admin] [] rows' [] 1 1000 "a@x.edu").
  - reflexivity.
  - reflexivity.
  - reflexivity.
  - by eexists.
  - simpl. repeat split; discriminate.
Defined.

(** X20. DELETE /announcements/:id is a soft delete reserved to the creator:
    for a verified subject that created no row of that id the answer is 404
    and nothing changes; otherwise the rows it created under that id become
    inactive and nothing else is written (registration policy, club, text and
    creator are kept, other rows untouched). Deleting again is answered 200
    again and changes nothing more. *)
Theorem delete_announcement_by_creator_only
    (jwt_verify : string -> option Session.payload) (authorization : option string)
    (p : Session.payload) (aid : Z) (rows : list Announcements.row) :
  Session.inline_token jwt_verify authorization = Session.Next p ->
  let mine := Announcements.owned aid (Js.toLowerCase (Session.sub p)) in
  let out := Announcements.delete_announcement jwt_verify authorization aid rows in
  (existsb mine rows = false -> out = (Announcements.NotFoundOrUnauthorized, rows))
  /\ (existsb mine rows = true ->
        fst out = Announcements.Deleted
        /\ Announcements.delete_announcement jwt_verify authorization aid (snd out)
           = (Announcements.Deleted, snd out))
  /\ Forall (fun r => mine r = true -> Announcements.is_active r = false) (snd out)
  /\ map Announcements.set_inactive (snd out) = map Announcements.set_inactive rows
  /\ List.filter (fun r => negb (mine r)) (snd out) = List.filter (fun r => negb (mine r)) rows.
Proof.
  intros Htok mine out.
  assert (Hout : out = (if negb (negb (Nat.eqb (length (List.filter mine rows)) 0))
                        then Announcements.NotFoundOrUnauthorized else Announcements.Deleted,
                        Db.update_where mine Announcements.set_inactive rows)).
  { subst out. unfold Announcements.delete_announcement, Announcements.deleteAnnouncement.
    rewrite Htok. fold mine. by destruct (negb (negb _)). }
  assert (Hkeep : forall r, mine (Announcements.set_inactive r) = mine r) by reflexivity.
  assert (Hsame : forall l, existsb mine (Db.update_where mine Announcements.set_inactive l)
                            = existsb mine l).
  { induction l as [| r l IH]; [reflexivity |].
    unfold Db.update_where in *. cbn [map existsb]. rewrite IH.
    by destruct (mine r) eqn:Hr; rewrite ?Hkeep, Hr. }
  assert (Hidem : forall l, Db.update_where mine Announcements.set_inactive
                              (Db.update_where mine Announcements.set_inactive l)
                            = Db.update_where mine Announcements.set_inactive l).
  { induction l as [| r l IH]; [reflexivity |].
    unfold Db.update_where in *. cbn [map]. rewrite IH.
    by destruct (mine r) eqn:Hr; rewrite ?Hkeep, Hr. }
  rewrite Hout. cbn [fst snd]. split; [| split; [| split; [| split]]].
  - intros Hnone. by rewrite (filter_none _ _ Hnone), (update_where_nothing _ _ _ Hnone).
  - intros Hsome. pose proof (filter_some _ _ Hsome) as Hlen.
    apply Nat.eqb_neq in Hlen. rewrite Hlen. split; [reflexivity |].
    unfold Announcements.delete_announcement, Announcements.deleteAnnouncement.
    rewrite Htok. fold mine. rewrite Hidem.
    rewrite <- Hsame in Hsome. apply filter_some, Nat.eqb_neq in Hsome. by rewrite Hsome.
  - apply Forall_forall. intros r Hr Hmine. apply list_elem_of_In in Hr.
    unfold Db.update_where in Hr. apply in_map_iff in Hr as (x & <- & _).
    destruct (mine x) eqn:Hx; [reflexivity | congruence].
  - by apply update_where_proj.
  - apply update_where_keeps_others. intros r Hr. by rewrite Hkeep.
Qed.

Lemma delete_announcement_by_creator_only_witness :
  let verify t := if String.eqb t "good"
                  then Some {| Session.sub := "b@x.edu"; Session.role := Some Db.club_admin |}
                  else None in
  let row := {| Announcements.policy :=
                  {| Db.a_id := 4; Db.a_registration_enabled := Js.Num 1;
                     Db.a_registration_deadline := None; Db.a_max_registrations := None |};
                Announcements.club_id := Js.Num 3; Announcements.title := Js.Str "Hack night";
                Announcements.content := Js.Str "Friday"; Announcements.image_url := None;
                Announcements.created_by := "a@x.edu"; Announcements.is_active := true |} in
  Announcements.delete_announcement verify (Some "Bearer good"%string) 4 [row]
  = (Announcements.NotFoundOrUnauthorized, [row]).
Proof.
  intros verify row.
  destruct (delete_announcement_by_creator_only verify (Some "Bearer good"%string)
              {| Session.sub := "b@x.edu"; Session.role := Some Db.club_admin |} 4 [row])
    as (Hnone & _).
  - reflexivity.
  - apply Hnone. reflexivity.
Defined.

(** X21. Neither a soft delete nor an edit closes registration: the
    registration routes read only the policy columns, which DELETE and PUT
    never write, so register and registration-info answer on the table after
    such a request exactly as before it, inactive announcements included. *)
Theorem deleted_announcement_still_open
    (jwt_verify : string -> option Session.payload) (authorization : option string)
    (aid : Z) (t c : Js.value) (rows : list Announcements.row)
    (us : list Db.user) (regs : list Db.registration)
    (now aid' : Z) (userEmail : string) :
  let deleted := snd (Announcements.delete_announcement jwt_verify authorization aid rows) in
  let edited := snd (Announcements.put_announcement jwt_verify authorization aid t c rows) in
  Registration.register now aid' userEmail (Announcements.registration_view us deleted regs)
  = Registration.register now aid' userEmail (Announcements.registration_view us rows regs)
  /\ Registration.registration_info now aid' (Announcements.registration_view us deleted regs)
     = Registration.registration_info now aid' (Announcements.registration_view us rows regs)
  /\ Registration.register now aid' userEmail (Announcements.registration_view us edited regs)
     = Registration.register now aid' userEmail (Announcements.registration_view us rows regs)
  /\ Registration.registration_info now aid' (Announcements.registration_view us edited regs)
     = Registration.registration_info now aid' (Announcements.registration_view us rows regs).
Proof.
  intros deleted edited.
  assert (Hd : map Announcements.policy deleted = map Announcements.policy rows).
  { subst deleted. unfold Announcements.delete_announcement, Announcements.deleteAnnouncement.
    destruct (Session.inline_token jwt_verify authorization); [reflexivity |].
    destruct (negb (negb _)); simpl; by apply update_where_proj. }
  assert (He : map Announcements.policy edited = map Announcements.policy rows).
  { subst edited. unfold Announcements.put_announcement, Announcements.updateAnnouncement.
    destruct (Session.inline_token jwt_verify authorization); [reflexivity |].
    destruct (negb (Js.truthy t) || negb (Js.truthy c)); [reflexivity |].
    destruct (negb (negb _)); simpl; by apply update_where_proj. }
  unfold Announcements.registration_view. by rewrite Hd, He.
Qed.

(** X22. PUT /announcements/:id edits text only, and only for the creator:
    a falsy title or content is answered 400 and a subject that created no
    row of that id 404, both without a write; otherwise the rows the subject
    created under that id get the new title and content, while the active
    flag, the club, the creator and every other row stay as they were. *)
Theorem put_announcement_edits_text_only
    (jwt_verify : string -> option Session.payload) (authorization : option string)
    (p : Session.payload) (aid : Z) (t c : Js.value) (rows : list Announcements.row) :
  Session.inline_token jwt_verify authorization = Session.Next p ->
  let mine := Announcements.owned aid (Js.toLowerCase (Session.sub p)) in
  let out := Announcements.put_announcement jwt_verify authorization aid t c rows in
  (Js.truthy t = false \/ Js.truthy c = false ->
     out = (Announcements.TitleContentRequired, rows))
  /\ (Js.truthy t = true -> Js.truthy c = true -> existsb mine rows = false ->
        out = (Announcements.NotFoundOrUnauthorized, rows))
  /\ (Js.truthy t = true -> Js.truthy c = true -> existsb mine rows = true ->
        fst out = Announcements.Updated
        /\ Forall (fun r => mine r = true ->
                            Announcements.title r = t /\ Announcements.content r = c)
             (snd out))
  /\ map Announcements.is_active (snd out) = map Announcements.is_active rows
  /\ map Announcements.club_id (snd out) = map Announcements.club_id rows
  /\ map Announcements.created_by (snd out) = map Announcements.created_by rows
  /\ List.filter (fun r => negb (mine r)) (snd out) = List.filter (fun r => negb (mine r)) rows.
Proof.
  intros Htok mine out.
  assert (Hkeep : forall r, mine (Announcements.set_text t c r) = mine r) by reflexivity.
  subst out. unfold Announcements.put_announcement, Announcements.updateAnnouncement.
  rewrite Htok. fold mine.
  destruct (Js.truthy t) eqn:Ht; [destruct (Js.truthy c) eqn:Hc |]; cbn [negb orb].
  - split; [intros [? | ?]; discriminate |].
    split; [| split; [| split; [| split; [| split]]]].
    + intros _ _ Hnone.
      by rewrite (filter_none _ _ Hnone), (update_where_nothing _ _ _ Hnone).
    + intros _ _ Hsome. apply filter_some, Nat.eqb_neq in Hsome. rewrite Hsome. simpl.
      split; [reflexivity |].
      apply Forall_forall. intros r Hr Hmine. apply list_elem_of_In in Hr.
      unfold Db.update_where in Hr. apply in_map_iff in Hr as (x & <- & _).
      destruct (mine x) eqn:Hx; [by split | congruence].
    + destruct (negb (negb _)); simpl; by apply update_where_proj.
    + destruct (negb (negb _)); simpl; by apply update_where_proj.
    + destruct (negb (negb _)); simpl; by apply update_where_proj.
    + destruct (negb (negb _)); simpl; apply update_where_keeps_others;
        intros r Hr; by rewrite Hkeep.
  - split; [done |]. split; [discriminate |]. split; [discriminate |]. by repeat split.
  - split; [done |]. split; [discriminate |]. split; [discriminate |]. by repeat split.
Qed.

Lemma put_announcement_edits_text_only_witness :
  let verify t := if String.eqb t "good"
                  then Some {| Session.sub := "A@x.edu"; Session.role := Some Db.club_admin |}
                  else None in
  let row := {| Announcements.policy :=
                  {| Db.a_id := 4; Db.a_registration_enabled := Js.Num 1;
                     Db.a_registration_deadline := None; Db.a_max_registrations := None |};
                Announcements.club_id := Js.Num 3; Announcements.title := Js.Str "Hack night";
                Announcements.content := Js.Str "Friday"; Announcements.image_url := None;
                Announcements.created_by := "a@x.edu"; Announcements.is_active := false |} in
  fst (Announcements.put_announcement verify (Some "Bearer good"%string) 4
         (Js.Str "Hack day") (Js.Str "Saturday") [row])
  = Announcements.Updated.
Proof.
  intros verify row.
  destruct (put_announcement_edits_text_only verify (Some "Bearer good"%string)
              {| Session.sub := "A@x.edu"; Session.role := Some Db.club_admin |} 4
              (Js.Str "Hack day") (Js.Str "Saturday") [row])
    as (_ & _ & Hmine & _).
  - reflexivity.
  - exact (proj1 (Hmine eq_refl eq_refl eq_refl)).
Defined.

Section Roster.

Lemma filter_registered_of_event (aid : Z) (regs : list Db.registration) :
  List.filter (fun r => Db.is_registered (Db.r_status r))
    (List.filter (fun r => Db.r_announcement_id r =? aid) regs)
  = List.filter (Registration.counted aid) regs.
Proof.
  induction regs as [| r regs IH]; [reflexivity |].
  unfold Registration.counted in *. cbn [List.filter].
  destruct (Db.r_announcement_id r =? aid); cbn [List.filter andb]; [| exact IH].
  destruct (Db.is_registered (Db.r_status r)); by rewrite IH.
Qed.

Lemma filter_length_le {A : Type} (p : A -> bool) (l : list A) :
  (length (List.filter p l) <= length l)%nat.
Proof.
  induction l as [| x l IH]; [reflexivity |].
  simpl. destruct (p x); simpl; lia.
Qed.

End Roster.

(** X23. The roster is shown only to a club admin whose club is the
    announcement's club, and its counts are consistent: [registered_count]
    is the number registration-info reports as [current_count] (the number
    the capacity check uses), and [total_count] also counts the cancelled
    rows, so it is never smaller. *)
Theorem roster_counts
    (aid : Z) (userEmail : string) (us : list Db.user) (rows : list Announcements.row)
    (regs : list Db.registration) (total registered : Z) :
  Announcements.get_registrations aid userEmail us rows regs
  = Announcements.RosterOk total registered ->
  (exists user a,
      Db.findUserByEmail userEmail us = Some user
      /\ Db.u_role user = Some Db.club_admin
      /\ find (fun r => Announcements.id r =? aid) rows = Some a
      /\ Db.u_club_id user = Announcements.club_id a)
  /\ registered = Registration.registered_count aid regs
  /\ 0 <= registered <= total
  /\ total = Z.of_nat (length (List.filter (fun r => Db.r_announcement_id r =? aid) regs))
  /\ (forall now i,
        Registration.registration_info now aid (Announcements.registration_view us rows regs)
        = Some i ->
        Registration.current_count i = registered).
Proof.
  unfold Announcements.get_registrations.
  destruct (Db.findUserByEmail userEmail us) as [user |] eqn:Hu; [| discriminate].
  destruct (Db.u_role user) as [[] |] eqn:Hr; try discriminate.
  destruct (find (fun r => Announcements.id r =? aid) rows) as [a |] eqn:Ha; [| discriminate].
  destruct (Js.strict_eq (Db.u_club_id user) (Announcements.club_id a)) eqn:Hclub;
    [| discriminate].
  cbn [negb]. intros [= <- <-]. apply strict_eq_true in Hclub.
  rewrite filter_registered_of_event.
  split; [by exists user, a |]. split; [reflexivity |]. split; [| split; [reflexivity |]].
  - pose proof (filter_length_le (fun r => Db.is_registered (Db.r_status r))
                  (List.filter (fun r => Db.r_announcement_id r =? aid) regs)) as Hle.
    rewrite filter_registered_of_event in Hle. lia.
  - intros now i. unfold Registration.registration_info.
    destruct (Registration.find_announcement aid _); [| discriminate].
    by intros [= <-].
Qed.

Lemma roster_counts_witness :
  let admin := {| Db.u_id := 1; Db.u_email := "a@x.edu"; Db.u_password_hash := None;
                  Db.u_role := Some Db.club_admin;
                  Db.u_name := Js.Null; Db.u_branch := Js.Null; Db.u_roll_number := Js.Null;
                  Db.u_club_id := Js.Num 3; Db.u_admin_requested := false |} in
  let row := {| Announcements.policy :=
                  {| Db.a_id := 4; Db.a_registration_enabled := Js.Num 1;
                     Db.a_registration_deadline := None; Db.a_max_registrations := Some 5 |};
                Announcements.club_id := Js.Num 3; Announcements.title := Js.Str "Hack night";
                Announcements.content := Js.Str "Friday"; Announcements.image_url := None;
                Announcements.created_by := "a@x.edu"; Announcements.is_active := true |} in
  let reg id uid st := {| Db.r_id := id; Db.r_announcement_id := 4; Db.r_user_id := uid;
                          Db.r_user_email := "s@x.edu"; Db.r_user_name := Js.Null;
                          Db.r_roll_number := Js.Null; Db.r_branch := Js.Null;
                          Db.r_status := st |} in
  Registration.registered_count 4 [reg 1 7 Db.registered; reg 2 8 Db.cancelled] = 1.
Proof.
  intros admin row reg.
  destruct (roster_counts 4 "a@x.edu" [admin] [row]
              [reg 1 7 Db.registered; reg 2 8 Db.cancelled] 2 1) as (_ & Hcount & _).
  - reflexivity.
  - symmetry. exact Hcount.
Defined.

(** X24. From request to first announcement, for an account without a
    role that asks for club-admin rights. When the club of the request is
    the id of a clubs row and not 0, POST /announcements refuses the account
    (403) until the coordinator approves it; after the approval the same
    request is answered "created", and the announcement belongs to that
    club and to the requester. When the store refuses the club of the
    request, not an integer or the id of no clubs row, the request is
    answered 500 and writes nothing: an account that held no club before
    holds none after an approval either, and POST /announcements still
    answers 403. *)
Theorem admin_request_lifecycle
    (int4_in : string -> option Z) (clubs : list Z)
    (jwt_verify : string -> option Session.payload)
    (parseInt parseDate : Js.value -> option Z) (stored_flag : Z -> Js.value)
    (authorization file : option string) (p : Session.payload)
    (pb : Profile.body) (cb : Announcements.create_body)
    (us : list Db.user) (rows : list Announcements.row) (u : Db.user) :
  Session.sub p <> ""%string ->
  Session.inline_token jwt_verify authorization = Session.Next p ->
  Db.findUserByEmail (Session.sub p) us = Some u ->
  Db.u_role u = None ->
  Profile.role pb = Js.Str "club_admin" ->
  Js.truthy (Announcements.b_title cb) = true ->
  Js.truthy (Announcements.b_content cb) = true ->
  let request := Session.post_profile_route jwt_verify int4_in clubs authorization pb us in
  let requested := snd request in
  let approved := snd (Admin.approve_request (Js.Str (Session.sub p)) requested) in
  let create := Announcements.post_announcements jwt_verify parseInt parseDate stored_flag
                  authorization file cb in
  let club := Db.club_value int4_in (Js.or_null (Profile.club_id pb)) in
  (forall c,
     club = Some (Some c) -> Db.unknown_club clubs (Some c) = false -> c <> 0 ->
     fst request
     = inr (Profile.AdminRequestSubmitted (Db.findUserByEmail (Session.sub p) requested))
     /\ create requested rows = (Announcements.OnlyClubAdmins, rows)
     /\ exists aid r,
          create approved rows = (Announcements.Created aid, rows ++ [r])
          /\ Announcements.club_id r = Js.Num c
          /\ Announcements.created_by r = Js.toLowerCase (Session.sub p)
          /\ Announcements.is_active r = true)
  /\ (club = None \/ (exists k, club = Some k /\ Db.unknown_club clubs k = true) ->
      request = (inr Profile.ServerError, us)
      /\ (Js.truthy (Db.u_club_id u) = false ->
          create approved rows = (Announcements.OnlyClubAdmins, rows))).
Proof.
  intros Hsub Htok Hu Hr Hrole Ht Hc request requested approved create club.
  set (key := Js.toLowerCase (Session.sub p)).
  assert (Hroute : request
                   = (inr (fst (Profile.post_profile int4_in clubs (Session.sub p) pb us)),
                      snd (Profile.post_profile int4_in clubs (Session.sub p) pb us))).
  { subst request. unfold Session.post_profile_route. rewrite Htok.
    by destruct (Profile.post_profile _ _ _ _ _). }
  rewrite (post_profile_admin int4_in clubs _ pb us u Hu Hr Hrole) in Hroute.
  fold club key in Hroute.
  assert (Happ : approved = Db.update_where (Db.has_email key) Admin.set_approved requested).
  { subst approved. unfold Admin.approve_request. simpl.
    apply String.eqb_neq in Hsub. by rewrite Hsub. }
  assert (Hfound : forall v, Db.findUserByEmail (Session.sub p) requested = Some v ->
                             Db.findUserByEmail (Session.sub p) approved
                             = Some (Admin.set_approved v)).
  { intros v Hv. rewrite Happ. subst key.
    rewrite findUserByEmail_updated by reflexivity. by rewrite Hv. }
  subst create. unfold Announcements.post_announcements.
  rewrite Htok, Ht, Hc, !findUserByEmail_lower. cbn [negb orb].
  split.
  - intros c Hclub Hknown Hc0. rewrite Hclub, Hknown in Hroute. cbn [fst snd] in Hroute.
    set (f := Profile.admin_fields pb) in *.
    assert (Hreq : requested = Db.update_where (Db.has_email key)
                                 (Db.set_admin_request f (Some c)) us)
      by (subst requested; by rewrite Hroute).
    assert (Hfound1 : Db.findUserByEmail (Session.sub p) requested
                      = Some (Db.set_admin_request f (Some c) u)).
    { rewrite Hreq. subst key. rewrite findUserByEmail_updated by reflexivity.
      by rewrite Hu. }
    rewrite (Hfound _ Hfound1), Hfound1.
    split; [by rewrite Hroute, <- Hreq, Hfound1 |].
    assert (Htruthy : Js.truthy (Js.Num c) = true).
    { simpl. apply negb_true_iff. by apply Z.eqb_neq. }
    split.
    + simpl. by rewrite Hr.
    + cbn [Db.u_role Db.u_club_id Admin.set_approved Db.set_admin_request Js.of_int].
      rewrite Htruthy. cbn [negb orb].
      eexists _, _. split; [reflexivity |]. by repeat split.
  - intros Hrefused.
    assert (Hsame : request = (inr Profile.ServerError, us)).
    { rewrite Hroute. destruct Hrefused as [-> | (k & -> & ->)]; reflexivity. }
    split; [exact Hsame |]. intros Hnone.
    assert (Hreq : requested = us) by (subst requested; by rewrite Hsame).
    rewrite Hreq in Hfound. rewrite (Hfound u Hu).
    cbn [Db.u_role Db.u_club_id Admin.set_approved]. by rewrite Hnone.
Qed.

Lemma admin_request_lifecycle_witness :
  let verify t := if String.eqb t "good"
                  then Some {| Session.sub := "a@x.edu"; Session.role := None |} else None in
  let fresh := {| Db.u_id := 1; Db.u_email := "a@x.edu"; Db.u_password_hash := None;
                  Db.u_role := None;
                  Db.u_name := Js.Null; Db.u_branch := Js.Null; Db.u_roll_number := Js.Null;
                  Db.u_club_id := Js.Null; Db.u_admin_requested := false |} in
  let pb c := {| Profile.name := Js.Str "Ann"; Profile.branch := Js.Undefined;
                 Profile.roll_number := Js.Undefined;
                 Profile.role := Js.Str "club_admin"; Profile.club_id := Js.Num c |} in
  let cb := {| Announcements.b_title := Js.Str "Hack night";
               Announcements.b_content := Js.Str "Friday";
               Announcements.b_registration_enabled := Js.Str "true";
               Announcements.b_registration_deadline := Js.Undefined;
               Announcements.b_max_registrations := Js.Undefined |} in
  let no_text := fun _ : string => @None Z in
  let auth := Some "Bearer good"%string in
  let requested c := snd (Session.post_profile_route verify no_text [3; 9] auth (pb c) [fresh]) in
  let approved c := snd (Admin.approve_request (Js.Str "a@x.edu") (requested c)) in
  let create := Announcements.post_announcements verify (fun _ => None) (fun _ => None)
                  Js.Num auth None cb in
  create (requested 3) [] = (Announcements.OnlyClubAdmins, [])
  /\ (exists aid r, create (approved 3) [] = (Announcements.Created aid, [r])
                    /\ Announcements.club_id r = Js.Num 3)
  /\ create (approved 7) [] = (Announcements.OnlyClubAdmins, []).
Proof.
  intros verify fresh pb cb no_text auth requested approved create.
  pose proof (admin_request_lifecycle no_text [3; 9] verify (fun _ => None) (fun _ => None)
                Js.Num auth None {| Session.sub := "a@x.edu"; Session.role := None |}
                (pb 3) cb [fresh] [] fresh) as H3.
  pose proof (admin_request_lifecycle no_text [3; 9] verify (fun _ => None) (fun _ => None)
                Js.Num auth None {| Session.sub := "a@x.edu"; Session.role := None |}
                (pb 7) cb [fresh] [] fresh) as H7.
  cbv zeta in H3, H7.
  destruct H3 as [Hok _]; [discriminate | reflexivity .. |].
  destruct H7 as [_ Hrefused]; [discriminate | reflexivity .. |].
  destruct (Hok 3 eq_refl eq_refl) as (_ & Hbefore & aid & r & Hafter & Hclub & _);
    [discriminate |].
  destruct Hrefused as [_ Hstill]; [right; by exists (Some 7) |].
  split; [exact Hbefore |]. split; [| exact (Hstill eq_refl)].
  exists aid, r. by split.
Defined.

(** ** Event registration: invariants and round trips *)

Section RegistrationInvariants.

Implicit Types (regs : list Db.registration) (r e : Db.registration) (db : Db.t) (u : Db.user).

(** What a register call writes: nothing, or the enrolment of the caller. *)
Lemma register_write now aid userEmail db :
  snd (Registration.register now aid userEmail db) = db
  \/ exists u, Db.findUserByEmail userEmail (Db.users db) = Some u
               /\ Registration.enroll aid u db
                  = (Registration.Registered, snd (Registration.register now aid userEmail db)).
Proof.
  unfold Registration.register.
  destruct (Db.findUserByEmail userEmail (Db.users db)) as [u |]; [| by left].
  destruct (Registration.find_announcement aid (Db.announcements db)) as [a |]; [| by left].
  destruct (negb (Js.truthy (Db.a_registration_enabled a))); [by left |].
  destruct (Registration.past_deadline now a); [by left |].
  destruct (Db.a_max_registrations a) as [m |]; [| by left].
  destruct (Js.truthy (Js.Num m)); [| by left].
  destruct (_ >=? m); [by left |].
  destruct (Registration.enroll aid u db) as [resp db'] eqn:He.
  assert (Hresp : resp = Registration.Registered
                  \/ (resp = Registration.AlreadyRegistered /\ db' = db)).
  { unfold Registration.enroll in He.
    destruct (find _ _) as [x |]; [| injection He as <- _; by left].
    destruct (Db.is_registered _); injection He as <- <-; [by right | by left]. }
  destruct Hresp as [-> | [-> ->]]; [| by left].
  right. exists u. by split.
Qed.

Lemma filter_zero_existsb {A : Type} (p : A -> bool) (l : list A) :
  Nat.eqb (length (List.filter p l)) 0 = true -> existsb p l = false.
Proof.
  intros Hz. apply Nat.eqb_eq in Hz.
  destruct (existsb p l) eqn:Hex; [| reflexivity].
  by apply filter_some in Hex.
Qed.

Lemma find_update_where_pair aid uid (p : Db.registration -> bool) (s : Db.Status) regs :
  find (Registration.of_pair aid uid) (Db.update_where p (Registration.set_status s) regs)
  = option_map (fun r => if p r then Registration.set_status s r else r)
      (find (Registration.of_pair aid uid) regs).
Proof.
  induction regs as [| r regs IH]; [reflexivity |].
  unfold Db.update_where in *. cbn [map find].
  assert (Registration.of_pair aid uid (if p r then Registration.set_status s r else r)
          = Registration.of_pair aid uid r) as -> by (by destruct (p r)).
  destruct (Registration.of_pair aid uid r); [reflexivity | exact IH].
Qed.

Lemma NoDup_map_eq {A B : Type} (f : A -> B) (l : list A) (x y : A) :
  NoDup (map f l) -> In x l -> In y l -> f x = f y -> x = y.
Proof.
  induction l as [| z l IH]; [intros _ []|].
  simpl. intros [Hfresh Hnd]%NoDup_cons Hx Hy Hf. rewrite list_elem_of_In in Hfresh.
  destruct Hx as [-> | Hx], Hy as [-> | Hy]; [reflexivity | | | by apply IH].
  - exfalso. apply Hfresh. rewrite Hf. by apply in_map.
  - exfalso. apply Hfresh. rewrite <- Hf. by apply in_map.
Qed.

(** An UPDATE that does not change whether the rows of the table count for
    an event leaves that event's count alone. *)
Lemma count_update_neutral aid (p : Db.registration -> bool)
    (f : Db.registration -> Db.registration) regs :
  (forall r, In r regs -> p r = true ->
             Registration.counted aid (f r) = Registration.counted aid r) ->
  Registration.registered_count aid (Db.update_where p f regs)
  = Registration.registered_count aid regs.
Proof.
  intros Hf. unfold Registration.registered_count.
  enough (length (List.filter (Registration.counted aid) (Db.update_where p f regs))
          = length (List.filter (Registration.counted aid) regs)) as -> by reflexivity.
  induction regs as [| r regs IH]; [reflexivity |].
  unfold Db.update_where in *. cbn [map List.filter].
  assert (Registration.counted aid (if p r then f r else r) = Registration.counted aid r) as ->.
  { destruct (p r) eqn:Hp; [| reflexivity]. apply Hf; [by left | exact Hp]. }
  assert (Htail : length (List.filter (Registration.counted aid)
                            (map (fun x => if p x then f x else x) regs))
                  = length (List.filter (Registration.counted aid) regs)).
  { apply IH. intros x Hx. apply Hf. by right. }
  destruct (Registration.counted aid r); cbn [length]; by rewrite Htail.
Qed.

End RegistrationInvariants.

(** X25. The registration routes keep the key constraints of the table
    (ids unique, one row per announcement and user) and never delete a row:
    after register the table is as long or one row longer, after unregister
    exactly as long. *)
Theorem registration_keeps_constraints
    (now aid : Z) (userEmail : string) (db : Db.t) :
  Registration.constraints_hold (Db.event_registrations db) ->
  let registered := Db.event_registrations (snd (Registration.register now aid userEmail db)) in
  let cancelled := Db.event_registrations (snd (Registration.unregister aid userEmail db)) in
  Registration.constraints_hold registered
  /\ Registration.constraints_hold cancelled
  /\ (length (Db.event_registrations db) <= length registered
      <= S (length (Db.event_registrations db)))%nat
  /\ length cancelled = length (Db.event_registrations db).
Proof.
  intros Hc registered cancelled.
  assert (Hcancel : cancelled = Db.event_registrations db
                    \/ exists uid, cancelled
                         = Db.update_where (Registration.active_pair aid uid)
                             (Registration.set_status Db.cancelled) (Db.event_registrations db)).
  { subst cancelled. unfold Registration.unregister.
    destruct (Db.findUserByEmail userEmail (Db.users db)) as [u |]; [| by left].
    right. exists (Db.u_id u). by destruct (Nat.eqb _ 0). }
  assert (Hreg : Registration.constraints_hold registered
                 /\ (length (Db.event_registrations db) <= length registered
                     <= S (length (Db.event_registrations db)))%nat).
  { subst registered.
    destruct (register_write now aid userEmail db) as [-> | (u & _ & He)]; [split; [done | lia] |].
    split; [exact (proj1 (proj2 (enroll_count _ _ _ _ Hc He))) |].
    destruct (enroll_inv _ _ _ _ He) as [[_ ->] | (e & _ & _ & ->)]; simpl.
    - rewrite List.length_app. simpl. lia.
    - unfold Db.update_where. rewrite length_map. lia. }
  split; [exact (proj1 Hreg) |]. split; [| split; [exact (proj2 Hreg) |]].
  - destruct Hcancel as [-> | [uid ->]]; [exact Hc | by apply flip_keeps_constraints].
  - destruct Hcancel as [-> | [uid ->]]; [reflexivity |].
    unfold Db.update_where. apply length_map.
Qed.

Lemma registration_keeps_constraints_witness :
  let student := {| Db.u_id := 7; Db.u_email := "s@x.edu"; Db.u_password_hash := None;
                    Db.u_role := Some Db.student;
                    Db.u_name := Js.Str "Sam"; Db.u_branch := Js.Null;
                    Db.u_roll_number := Js.Null;
                    Db.u_club_id := Js.Null; Db.u_admin_requested := false |} in
  let event := {| Db.a_id := 4; Db.a_registration_enabled := Js.Num 1;
                  Db.a_registration_deadline := None; Db.a_max_registrations := Some 2 |} in
  let db := {| Db.users := [student]; Db.announcements := [event];
               Db.event_registrations := [] |} in
  Registration.constraints_hold
    (Db.event_registrations (snd (Registration.register 1000 4 "s@x.edu" db))).
Proof.
  intros student event db.
  destruct (registration_keeps_constraints 1000 4 "s@x.edu" db) as (Hreg & _).
  - split; apply NoDup_nil_2.
  - exact Hreg.
Defined.

(** X26. A registration call that is refused writes nothing: whenever
    register answers anything but "registered", and whenever unregister
    answers anything but "cancelled", the database after the call is the
    database before it. *)
Theorem refused_calls_write_nothing (now aid : Z) (userEmail : string) (db : Db.t) :
  (fst (Registration.register now aid userEmail db) <> Registration.Registered ->
   snd (Registration.register now aid userEmail db) = db)
  /\ (fst (Registration.unregister aid userEmail db) <> Registration.Cancelled ->
      snd (Registration.unregister aid userEmail db) = db).
Proof.
  split.
  - unfold Registration.register.
    destruct (Db.findUserByEmail userEmail (Db.users db)) as [u |]; [| reflexivity].
    destruct (Registration.find_announcement aid (Db.announcements db)) as [a |];
      [| reflexivity].
    destruct (negb (Js.truthy (Db.a_registration_enabled a))); [reflexivity |].
    destruct (Registration.past_deadline now a); [reflexivity |].
    destruct (Db.a_max_registrations a) as [m |]; [| intros H; by destruct H].
    destruct (Js.truthy (Js.Num m)); [| intros H; by destruct H].
    destruct (_ >=? m); [reflexivity |].
    unfold Registration.enroll.
    destruct (find _ _) as [x |]; [| intros H; by destruct H].
    destruct (Db.is_registered _); [reflexivity | intros H; by destruct H].
  - unfold Registration.unregister.
    destruct (Db.findUserByEmail userEmail (Db.users db)) as [u |]; [| reflexivity].
    destruct (Nat.eqb _ 0) eqn:Hz; [| intros H; by destruct H].
    intros _. simpl. apply filter_zero_existsb in Hz.
    by rewrite (update_where_nothing _ _ _ Hz), with_registrations_same.
Qed.

Lemma refused_calls_write_nothing_witness :
  let student := {| Db.u_id := 7; Db.u_email := "s@x.edu"; Db.u_password_hash := None;
                    Db.u_role := Some Db.student;
                    Db.u_name := Js.Str "Sam"; Db.u_branch := Js.Null;
                    Db.u_roll_number := Js.Null;
                    Db.u_club_id := Js.Null; Db.u_admin_requested := false |} in
  let event := {| Db.a_id := 4; Db.a_registration_enabled := Js.Bool false;
                  Db.a_registration_deadline := None; Db.a_max_registrations := Some 2 |} in
  let db := {| Db.users := [student]; Db.announcements := [event];
               Db.event_registrations := [] |} in
  snd (Registration.register 1000 4 "s@x.edu" db) = db
  /\ snd (Registration.unregister 4 "s@x.edu" db) = db.
Proof.
  intros student event db.
  destruct (refused_calls_write_nothing 1000 4 "s@x.edu" db) as [Hreg Hun].
  split; [apply Hreg | apply Hun]; discriminate.
Defined.

(** X27. Cancelling and registering again reuses the row: for a registered
    user of an event with a limit that is not exceeded, unregister followed
    by register (before the deadline) succeeds, the user is registered again,
    and the table has the same rows as at the start, ids and pairs
    unchanged and the count of registered rows back to what it was; no second
    row is inserted for the pair. *)
Theorem reregistration_reuses_row
    (now aid m : Z) (userEmail : string) (db : Db.t) (u : Db.user) (a : Db.announcement) :
  Registration.constraints_hold (Db.event_registrations db) ->
  Db.findUserByEmail userEmail (Db.users db) = Some u ->
  Registration.find_announcement aid (Db.announcements db) = Some a ->
  Js.truthy (Db.a_registration_enabled a) = true ->
  Registration.past_deadline now a = false ->
  Db.a_max_registrations a = Some m ->
  m <> 0 ->
  Registration.registered_count aid (Db.event_registrations db) <= m ->
  Registration.registration_status aid userEmail db = true ->
  exists db1 db2,
    Registration.unregister aid userEmail db = (Registration.Cancelled, db1)
    /\ Registration.registration_status aid userEmail db1 = false
    /\ Registration.register now aid userEmail db1 = (Registration.Registered, db2)
    /\ Registration.registration_status aid userEmail db2 = true
    /\ map Db.r_id (Db.event_registrations db2) = map Db.r_id (Db.event_registrations db)
    /\ map Registration.pair_key (Db.event_registrations db2)
       = map Registration.pair_key (Db.event_registrations db)
    /\ Registration.registered_count aid (Db.event_registrations db2)
       = Registration.registered_count aid (Db.event_registrations db).
Proof.
  intros Hc Hu Ha Hen Hopen Hm Hm0 Hroom Hstatus.
  unfold Registration.registration_status in Hstatus. rewrite Hu in Hstatus.
  destruct (find (Registration.of_pair aid (Db.u_id u)) (Db.event_registrations db))
    as [r |] eqn:Hr; [| discriminate].
  assert (Hactive : existsb (Registration.active_pair aid (Db.u_id u))
                      (Db.event_registrations db) = true).
  { apply existsb_exists. exists r. apply find_some in Hr as [Hin Hp].
    split; [exact Hin |]. unfold Registration.active_pair. by rewrite Hp, Hstatus. }
  set (regs1 := Db.update_where (Registration.active_pair aid (Db.u_id u))
                  (Registration.set_status Db.cancelled) (Db.event_registrations db)).
  set (db1 := Registration.with_registrations db regs1).
  assert (Hun : Registration.unregister aid userEmail db = (Registration.Cancelled, db1)).
  { unfold Registration.unregister. rewrite Hu.
    apply filter_some, Nat.eqb_neq in Hactive. by rewrite Hactive. }
  destruct (unregister_count aid userEmail db db1 Hc Hun) as (Hcount1 & Hc1 & Hus1 & Han1).
  assert (Hst1 : Registration.registration_status aid userEmail db1 = false).
  { unfold Registration.registration_status. rewrite Hus1, Hu.
    apply find_pair_inactive. apply cancel_clears. }
  assert (Hu1 : Db.findUserByEmail userEmail (Db.users db1) = Some u) by (by rewrite Hus1).
  assert (Ha1 : Registration.find_announcement aid (Db.announcements db1) = Some a)
    by (by rewrite Han1).
  destruct (register_limited now aid userEmail db1 a m u Hu1 Ha1 Hen Hopen Hm Hm0)
    as (db2 & Hreg & He & Hst2); [lia | exact Hst1 |].
  destruct (enroll_count _ _ _ _ Hc1 He) as (Hcount2 & _).
  exists db1, db2. split; [exact Hun |]. split; [exact Hst1 |]. split; [exact Hreg |].
  split; [exact Hst2 |].
  assert (Hrows : exists q, Db.event_registrations db2
                    = Db.update_where q (Registration.set_status Db.registered) regs1).
  { destruct (enroll_inv _ _ _ _ He) as [[Hnone _] | (e & _ & _ & ->)]; [| by eexists].
    simpl in Hnone. unfold regs1 in Hnone.
    by rewrite find_update_where_pair, Hr in Hnone. }
  assert (Hcount : Registration.registered_count aid (Db.event_registrations db2)
                   = Registration.registered_count aid (Db.event_registrations db)) by lia.
  split; [| split; [| exact Hcount]];
    destruct Hrows as [q ->]; unfold regs1; by rewrite !update_where_proj.
Qed.

Lemma reregistration_reuses_row_witness :
  let student := {| Db.u_id := 7; Db.u_email := "s@x.edu"; Db.u_password_hash := None;
                    Db.u_role := Some Db.student;
                    Db.u_name := Js.Str "Sam"; Db.u_branch := Js.Null;
                    Db.u_roll_number := Js.Null;
                    Db.u_club_id := Js.Null; Db.u_admin_requested := false |} in
  let event := {| Db.a_id := 4; Db.a_registration_enabled := Js.Num 1;
                  Db.a_registration_deadline := None; Db.a_max_registrations := Some 1 |} in
  let row := {| Db.r_id := 1; Db.r_announcement_id := 4; Db.r_user_id := 7;
                Db.r_user_email := "s@x.edu"; Db.r_user_name := Js.Str "Sam";
                Db.r_roll_number := Js.Null; Db.r_branch := Js.Null;
                Db.r_status := Db.registered |} in
  let db := {| Db.users := [student]; Db.announcements := [event];
               Db.event_registrations := [row] |} in
  exists db1 db2,
    Registration.unregister 4 "s@x.edu" db = (Registration.Cancelled, db1)
    /\ Registration.register 1000 4 "s@x.edu" db1 = (Registration.Registered, db2)
    /\ map Db.r_id (Db.event_registrations db2) = [1].
Proof.
  intros student event row db.
  destruct (reregistration_reuses_row 1000 4 1 "s@x.edu" db student event)
    as (db1 & db2 & Hun & _ & Hreg & _ & Hids & _).
  - split; apply NoDup_singleton.
  - reflexivity.
  - reflexivity.
  - reflexivity.
  - reflexivity.
  - reflexivity.
  - lia.
  - vm_compute. discriminate.
  - reflexivity.
  - exists db1, db2. by repeat split.
Defined.

(** X28. A user who is already registered never gets a second row: on an
    event with a limit, before the deadline, the call is answered "already
    registered" while there is room, and "event is full" once the count has
    reached the limit (the capacity check comes first); in both cases nothing
    is written. *)
Theorem already_registered_refused
    (now aid m : Z) (userEmail : string) (db : Db.t) (u : Db.user) (a : Db.announcement) :
  Db.findUserByEmail userEmail (Db.users db) = Some u ->
  Registration.find_announcement aid (Db.announcements db) = Some a ->
  Js.truthy (Db.a_registration_enabled a) = true ->
  Registration.past_deadline now a = false ->
  Db.a_max_registrations a = Some m ->
  m <> 0 ->
  Registration.registration_status aid userEmail db = true ->
  (Registration.registered_count aid (Db.event_registrations db) < m ->
   Registration.register now aid userEmail db = (Registration.AlreadyRegistered, db))
  /\ (m <= Registration.registered_count aid (Db.event_registrations db) ->
      Registration.register now aid userEmail db = (Registration.EventFull, db)).
Proof.
  intros Hu Ha Hen Hopen Hm Hm0 Hstatus. split.
  - intros Hroom. unfold Registration.register.
    rewrite Hu, Ha, Hen, Hopen, Hm. cbn [negb].
    assert (Js.truthy (Js.Num m) = true) as ->.
    { simpl. by apply negb_true_iff, Z.eqb_neq. }
    assert ((Registration.registered_count aid (Db.event_registrations db) >=? m) = false) as ->.
    { rewrite Z.geb_leb. by apply Z.leb_gt. }
    unfold Registration.registration_status in Hstatus. rewrite Hu in Hstatus.
    unfold Registration.enroll.
    destruct (find _ _) as [r |]; [| discriminate]. by rewrite Hstatus.
  - intros Hfull. by apply (register_full now aid userEmail db a m u).
Qed.

Lemma already_registered_refused_witness :
  let student := {| Db.u_id := 7; Db.u_email := "s@x.edu"; Db.u_password_hash := None;
                    Db.u_role := Some Db.student;
                    Db.u_name := Js.Str "Sam"; Db.u_branch := Js.Null;
                    Db.u_roll_number := Js.Null;
                    Db.u_club_id := Js.Null; Db.u_admin_requested := false |} in
  let event := {| Db.a_id := 4; Db.a_registration_enabled := Js.Num 1;
                  Db.a_registration_deadline := None; Db.a_max_registrations := Some 1 |} in
  let row := {| Db.r_id := 1; Db.r_announcement_id := 4; Db.r_user_id := 7;
                Db.r_user_email := "s@x.edu"; Db.r_user_name := Js.Str "Sam";
                Db.r_roll_number := Js.Null; Db.r_branch := Js.Null;
                Db.r_status := Db.registered |} in
  let db := {| Db.users := [student]; Db.announcements := [event];
               Db.event_registrations := [row] |} in
  Registration.register 1000 4 "s@x.edu" db = (Registration.EventFull, db).
Proof.
  intros student event row db.
  destruct (already_registered_refused 1000 4 1 "s@x.edu" db student event) as [_ Hfull].
  - reflexivity.
  - reflexivity.
  - reflexivity.
  - reflexivity.
  - reflexivity.
  - lia.
  - reflexivity.
  - apply Hfull. vm_compute. discriminate.
Defined.

(** X29. Events do not share capacity: with unique row ids, a register or
    unregister call for one announcement leaves the count of registered rows
    of every other announcement unchanged. *)
Theorem other_events_unaffected
    (now aid aid' : Z) (userEmail : string) (db : Db.t) :
  NoDup (map Db.r_id (Db.event_registrations db)) ->
  aid' <> aid ->
  Registration.registered_count aid'
    (Db.event_registrations (snd (Registration.register now aid userEmail db)))
  = Registration.registered_count aid' (Db.event_registrations db)
  /\ Registration.registered_count aid'
       (Db.event_registrations (snd (Registration.unregister aid userEmail db)))
     = Registration.registered_count aid' (Db.event_registrations db).
Proof.
  intros Hnd Hne.
  assert (Hother : forall r, Db.r_announcement_id r = aid ->
                             forall s, Registration.counted aid' (Registration.set_status s r)
                                       = Registration.counted aid' r).
  { intros r Hr s. unfold Registration.counted. simpl. rewrite Hr.
    assert ((aid =? aid') = false) as -> by (apply Z.eqb_neq; congruence). reflexivity. }
  split.
  - destruct (register_write now aid userEmail db) as [-> | (u & _ & He)]; [reflexivity |].
    destruct (enroll_inv _ _ _ _ He) as [[_ ->] | (e & Hfind & _ & ->)]; simpl.
    + unfold Registration.registered_count.
      rewrite List.filter_app, List.length_app. simpl.
      unfold Registration.counted at 2. simpl.
      assert ((aid =? aid') = false) as -> by (apply Z.eqb_neq; congruence). simpl. lia.
    + apply find_some in Hfind as [Hin Hp]. apply andb_prop in Hp as [Haid _].
      apply Z.eqb_eq in Haid.
      apply count_update_neutral. intros r Hr Hid. apply Z.eqb_eq in Hid.
      rewrite (NoDup_map_eq Db.r_id _ r e Hnd Hr Hin Hid). by apply Hother.
  - unfold Registration.unregister.
    destruct (Db.findUserByEmail userEmail (Db.users db)) as [u |]; [| reflexivity].
    assert (Hcancel : Registration.registered_count aid'
                        (Db.update_where (Registration.active_pair aid (Db.u_id u))
                           (Registration.set_status Db.cancelled) (Db.event_registrations db))
                      = Registration.registered_count aid' (Db.event_registrations db)).
    { apply count_update_neutral. intros r _ Hp.
      apply andb_prop in Hp as [[Haid _]%andb_prop _].
      apply Z.eqb_eq in Haid. by apply Hother. }
    by destruct (Nat.eqb _ 0).
Qed.

Lemma other_events_unaffected_witness :
  let student := {| Db.u_id := 7; Db.u_email := "s@x.edu"; Db.u_password_hash := None;
                    Db.u_role := Some Db.student;
                    Db.u_name := Js.Str "Sam"; Db.u_branch := Js.Null;
                    Db.u_roll_number := Js.Null;
                    Db.u_club_id := Js.Null; Db.u_admin_requested := false |} in
  let event := {| Db.a_id := 4; Db.a_registration_enabled := Js.Num 1;
                  Db.a_registration_deadline := None; Db.a_max_registrations := Some 3 |} in
  let row := {| Db.r_id := 1; Db.r_announcement_id := 5; Db.r_user_id := 7;
                Db.r_user_email := "s@x.edu"; Db.r_user_name := Js.Str "Sam";
                Db.r_roll_number := Js.Null; Db.r_branch := Js.Null;
                Db.r_status := Db.registered |} in
  let db := {| Db.users := [student]; Db.announcements := [event];
               Db.event_registrations := [row] |} in
  Registration.registered_count 5
    (Db.event_registrations (snd (Registration.register 1000 4 "s@x.edu" db)))
  = 1.
Proof.
  intros student event row db.
  destruct (other_events_unaffected 1000 4 5 "s@x.edu" db) as [Hreg _].
  - apply NoDup_singleton.
  - discriminate.
  - rewrite Hreg. reflexivity.
Defined.

(** X30. registration-info predicts register: for a known user and an
    enabled event, [deadline_passed] is truthy exactly when register answers
    "deadline passed", and otherwise [is_full] is truthy exactly when
    register answers "event is full". *)
Theorem info_predicts_register
    (now aid : Z) (userEmail : string) (db : Db.t) (u : Db.user) (i : Registration.info) :
  Db.findUserByEmail userEmail (Db.users db) = Some u ->
  Registration.registration_info now aid db = Some i ->
  fst (Registration.register now aid userEmail db) <> Registration.RegistrationNotEnabled ->
  (Js.truthy (Registration.deadline_passed i) = true
   <-> fst (Registration.register now aid userEmail db) = Registration.DeadlinePassed)
  /\ (Js.truthy (Registration.deadline_passed i) = false ->
      (Js.truthy (Registration.is_full i) = true
       <-> fst (Registration.register now aid userEmail db) = Registration.EventFull)).
Proof.
  intros Hu. unfold Registration.registration_info, Registration.register. rewrite Hu.
  destruct (Registration.find_announcement aid (Db.announcements db)) as [a |];
    [| discriminate].
  intros [= <-]. cbn [Registration.deadline_passed Registration.is_full].
  destruct (negb (Js.truthy (Db.a_registration_enabled a))); [intros H; by destruct H |].
  intros _. unfold Registration.past_deadline.
  assert (Henroll : forall resp, fst (Registration.enroll aid u db) = resp ->
                                 resp <> Registration.DeadlinePassed
                                 /\ resp <> Registration.EventFull).
  { intros resp <-. unfold Registration.enroll.
    destruct (find _ _) as [x |]; [| by split].
    destruct (Db.is_registered _); by split. }
  set (capacity :=
         match Db.a_max_registrations a with
         | Some m =>
             if Js.truthy (Js.Num m)
             then if Registration.registered_count aid (Db.event_registrations db) >=? m
                  then (Registration.EventFull, db)
                  else Registration.enroll aid u db
             else (Registration.Registered, db)
         | None => (Registration.Registered, db)
         end).
  set (full :=
         match Db.a_max_registrations a with
         | Some m =>
             Js.and_ (Js.Num m)
               (Js.Bool (Registration.registered_count aid (Db.event_registrations db) >=? m))
         | None => Js.Null
         end).
  assert (Hcap : fst capacity <> Registration.DeadlinePassed
                 /\ (Js.truthy full = true <-> fst capacity = Registration.EventFull)).
  { subst capacity full.
    destruct (Db.a_max_registrations a) as [m |]; [| split; [| split]; discriminate].
    unfold Js.and_. destruct (Js.truthy (Js.Num m)) eqn:Hm.
    - destruct (_ >=? m); cbn [fst Js.truthy]; [split; [discriminate | tauto] |].
      split; [exact (proj1 (Henroll _ eq_refl)) |].
      split; [discriminate |]. intros H. destruct (Henroll _ H) as [_ Hc]. by destruct Hc.
    - rewrite Hm. split; [| split]; discriminate. }
  destruct Hcap as [Hnd Hfull].
  destruct (Db.a_registration_deadline a) as [d |].
  - cbn [Js.truthy]. destruct (d <? now); cbn [fst].
    + split; [tauto | discriminate].
    + split; [split; [discriminate | tauto] | intros _; exact Hfull].
  - cbn [Js.truthy]. split; [split; [discriminate | tauto] | intros _; exact Hfull].
Qed.

Lemma info_predicts_register_witness :
  let student := {| Db.u_id := 7; Db.u_email := "s@x.edu"; Db.u_password_hash := None;
                    Db.u_role := Some Db.student;
                    Db.u_name := Js.Str "Sam"; Db.u_branch := Js.Null;
                    Db.u_roll_number := Js.Null;
                    Db.u_club_id := Js.Null; Db.u_admin_requested := false |} in
  let event := {| Db.a_id := 4; Db.a_registration_enabled := Js.Num 1;
                  Db.a_registration_deadline := Some 500; Db.a_max_registrations := None |} in
  let db := {| Db.users := [student]; Db.announcements := [event];
               Db.event_registrations := [] |} in
  fst (Registration.register 1000 4 "s@x.edu" db) = Registration.DeadlinePassed.
Proof.
  intros student event db.
  destruct (Registration.registration_info 1000 4 db) as [i |] eqn:Hi; [| discriminate Hi].
  destruct (info_predicts_register 1000 4 "s@x.edu" db student i) as [Hpassed _].
  - reflexivity.
  - exact Hi.
  - discriminate.
  - apply Hpassed. injection Hi as <-. reflexivity.
Defined.
